(** * Task hierarchy backend (backend/index.js)

    A shallow embedding of the task handlers of the REST backend: the rows
    of the [tasks] and [projects] tables, the transaction a handler runs on
    its pooled connection, and the handlers that create, update, delete and
    nest tasks.  The theorems at the end of the file settle the properties
    the specification states about them. *)

From Stdlib Require Import ZArith List String Ascii Bool Lia DecimalString.
Import ListNotations.
Open Scope Z_scope.
Set Warnings "-register-all".

(** ** JavaScript values *)

(** The values the handlers move around: request fields, query parameters,
    decoded JSON documents.  Numbers are taken to be integers. *)
Inductive value : Type :=
| VUndef
| VNull
| VBool (b : bool)
| VNum (n : Z)
| VStr (s : string)
| VArr (xs : list value)
| VObj (fields : list (string * value)).

(** ToBoolean. *)
Definition truthy (v : value) : bool :=
  match v with
  | VUndef | VNull => false
  | VBool b => b
  | VNum n => negb (n =? 0)
  | VStr s => negb (String.eqb s "")
  | VArr _ | VObj _ => true
  end.

(** [a || b]. *)
Definition js_or (a b : value) : value := if truthy a then a else b.

(** [a || b] on two numbers. *)
Definition num_or (a b : Z) : Z := if a =? 0 then b else a.

(** A destructuring default, [{ x = d } = body]: it applies to [undefined]
    only. *)
Definition dflt (v d : value) : value :=
  match v with VUndef => d | _ => v end.

(** Property lookup in an object literal; an absent key is [undefined]. *)
Fixpoint lookup (k : string) (o : list (string * value)) : value :=
  match o with
  | [] => VUndef
  | (k', v) :: o' => if String.eqb k k' then v else lookup k o'
  end.

(** Assignment to a property: the first binding of the key is replaced, a
    new key is added at the end. *)
Fixpoint assign (k : string) (v : value) (o : list (string * value))
  : list (string * value) :=
  match o with
  | [] => [(k, v)]
  | (k', v') :: o' =>
      if String.eqb k k' then (k, v) :: o' else (k', v') :: assign k v o'
  end.

(** *** Numeric strings

    A route parameter is a string, and a field of a request body may be
    one.  Both [==] of the language and the comparison of the store
    against an integer column read it as a number, and a boolean as 1 or
    0.  The strings read here are the decimal numerals (the empty string
    reads as 0); any other string stands for no number, which equals
    nothing, as do [null] and, in this model, arrays and objects. *)
Definition digit_of (c : ascii) : option Z :=
  let n := Z.of_nat (nat_of_ascii c) in
  if (48 <=? n) && (n <=? 57) then Some (n - 48) else None.

Fixpoint digits (s : string) (acc : Z) : option Z :=
  match s with
  | EmptyString => Some acc
  | String c r =>
      match digit_of c with
      | Some d => digits r (10 * acc + d)
      | None => None
      end
  end.

Definition to_number (v : value) : option Z :=
  match v with
  | VNum n => Some n
  | VBool b => Some (if b then 1 else 0)
  | VStr s => digits s 0
  | _ => None
  end.

(** [n == v] for a number [n]: a string or boolean operand is converted to
    a number. *)
Definition loose_eq (n : Z) (v : value) : bool :=
  match to_number v with
  | Some m => n =? m
  | None => false
  end.

(** [WHERE col = ?] on an integer column. *)
Definition sql_eq (col : Z) (param : value) : bool :=
  match to_number param with
  | Some m => col =? m
  | None => false
  end.

(** *** Set

    A [Set] keeps its members in insertion order and compares them with
    SameValueZero: no conversion, so the string ["5"] and the number [5]
    are two members. *)
Definition same_value_zero (a b : value) : bool :=
  match a, b with
  | VUndef, VUndef => true
  | VNull, VNull => true
  | VBool x, VBool y => Bool.eqb x y
  | VNum x, VNum y => x =? y
  | VStr x, VStr y => String.eqb x y
  | _, _ => false
  end.

Definition set_has (s : list value) (v : value) : bool :=
  existsb (same_value_zero v) s.

Definition set_add (s : list value) (v : value) : list value :=
  if set_has s v then s else s ++ [v].

Definition set_size (s : list value) : Z := Z.of_nat (List.length s).

(** ** Rows *)

(** A row of [tasks].  The hierarchy columns are integers; [estPrevHours]
    and [info] are text columns ([None] is NULL); the remaining columns
    (workspace, user, name, status, assignees, hours, dates, ...) are kept
    by column name in [cols]. *)
Record task : Type := mkTask {
  id : Z;
  projectID : Z;
  taskLevel : Z;
  parentID : Z;
  level1ID : Z;
  level2ID : Z;
  level3ID : Z;
  level4ID : Z;
  estHours : value;
  estPrevHours : option string;
  info : option string;
  cols : list (string * value)
}.

(** A row of [projects]. *)
Record project : Type := mkProject {
  p_id : Z;
  p_cols : list (string * value)
}.

(** The four ancestor columns. *)
Inductive levelField : Type := Level1ID | Level2ID | Level3ID | Level4ID.

(** [task[field]]. *)
Definition get_level (f : levelField) (t : task) : Z :=
  match f with
  | Level1ID => level1ID t
  | Level2ID => level2ID t
  | Level3ID => level3ID t
  | Level4ID => level4ID t
  end.

Definition set_level (f : levelField) (v : Z) (t : task) : task :=
  match f with
  | Level1ID =>
      mkTask (id t) (projectID t) (taskLevel t) (parentID t)
             v (level2ID t) (level3ID t) (level4ID t)
             (estHours t) (estPrevHours t) (info t) (cols t)
  | Level2ID =>
      mkTask (id t) (projectID t) (taskLevel t) (parentID t)
             (level1ID t) v (level3ID t) (level4ID t)
             (estHours t) (estPrevHours t) (info t) (cols t)
  | Level3ID =>
      mkTask (id t) (projectID t) (taskLevel t) (parentID t)
             (level1ID t) (level2ID t) v (level4ID t)
             (estHours t) (estPrevHours t) (info t) (cols t)
  | Level4ID =>
      mkTask (id t) (projectID t) (taskLevel t) (parentID t)
             (level1ID t) (level2ID t) (level3ID t) v
             (estHours t) (estPrevHours t) (info t) (cols t)
  end.

Definition set_estHours (v : value) (t : task) : task :=
  mkTask (id t) (projectID t) (taskLevel t) (parentID t)
         (level1ID t) (level2ID t) (level3ID t) (level4ID t)
         v (estPrevHours t) (info t) (cols t).

Definition set_estPrevHours (v : option string) (t : task) : task :=
  mkTask (id t) (projectID t) (taskLevel t) (parentID t)
         (level1ID t) (level2ID t) (level3ID t) (level4ID t)
         (estHours t) v (info t) (cols t).

Definition set_cols (c : list (string * value)) (t : task) : task :=
  mkTask (id t) (projectID t) (taskLevel t) (parentID t)
         (level1ID t) (level2ID t) (level3ID t) (level4ID t)
         (estHours t) (estPrevHours t) (info t) c.

(** One assignment [column = ?] of an UPDATE statement.  The statements of
    the handlers assign [estHours], [estPrevHours] (a serialized text) and
    columns of [cols]. *)
Inductive assignment : Type :=
| SetCol (column : string) (v : value)
| SetEstPrevHours (text : string).

Definition apply_assignment (t : task) (a : assignment) : task :=
  match a with
  | SetCol c v =>
      if String.eqb c "estHours" then set_estHours v t
      else set_cols (assign c v (cols t)) t
  | SetEstPrevHours s => set_estPrevHours (Some s) t
  end.

(** A text column as the driver hands it over. *)
Definition col_value (c : option string) : value :=
  match c with
  | None => VNull
  | Some s => VStr s
  end.

(** ** The store and the transaction of a connection *)

(** Modelled from the spec: the relational store and its driver ([./db] is
    not among the sources).  It "executes queries and provides
    commit/rollback"; a table is the list of its rows in insertion order
    and [nextTaskId] is the identifier the next inserted task receives. *)
Record store : Type := mkStore {
  projects : list project;
  tasks : list task;
  nextTaskId : Z
}.

(** A connection: the committed store, the store its statements see, and
    whether it has a transaction open.  With no transaction open the two
    stores are the same. *)
Record conn : Type := mkConn {
  committed : store;
  working : store;
  inTransaction : bool
}.

(** A connection as the pool hands it out: no transaction open. *)
Definition pooled (s : store) : conn := mkConn s s false.

Inductive outcome (A : Type) : Type :=
| Ok (a : A)
| Thrown (e : string).
Arguments Ok {A} a.
Arguments Thrown {A} e.

(** Handler code: it reads and writes the connection and may throw. *)
Definition M (A : Type) : Type := conn -> outcome A * conn.

Definition ret {A} (a : A) : M A := fun c => (Ok a, c).

Definition bind {A B} (m : M A) (k : A -> M B) : M B :=
  fun c =>
    match m c with
    | (Ok a, c') => k a c'
    | (Thrown e, c') => (Thrown e, c')
    end.

Definition throw {A} (e : string) : M A := fun c => (Thrown e, c).

(** [try { body } catch (error) { handler }]. *)
Definition try_catch {A} (body : M A) (handler : string -> M A) : M A :=
  fun c =>
    match body c with
    | (Ok a, c') => (Ok a, c')
    | (Thrown e, c') => handler e c'
    end.

Declare Scope conn_scope.
Delimit Scope conn_scope with conn.
Notation "x <- m ;; k" := (bind m (fun x => k))
  (at level 61, m at next level, right associativity) : conn_scope.
Notation "m ;; k" := (bind m (fun _ => k))
  (at level 61, right associativity) : conn_scope.
Open Scope conn_scope.

(** [START TRANSACTION]: what the connection has done so far stays, what
    it does from here on is pending. *)
Definition beginTransaction : M unit :=
  fun c => (Ok tt, mkConn (working c) (working c) true).

(** [ROLLBACK]: the pending changes are dropped. *)
Definition rollback : M unit :=
  fun c => (Ok tt, mkConn (committed c) (committed c) false).

(** [COMMIT]: the pending changes become the committed store. *)
Definition commit : M unit :=
  fun c => (Ok tt, mkConn (working c) (working c) false).

(** The connection after a statement left the store [s]: inside a
    transaction the change is pending, outside it is committed with the
    statement (autocommit). *)
Definition written (c : conn) (s : store) : conn :=
  if inTransaction c then mkConn (committed c) s true else mkConn s s false.

(** Statements. *)
Definition query {A} (f : store -> A * store) : M A :=
  fun c => let (a, s) := f (working c) in (Ok a, written c s).

(** The integer a column of type INT takes from a bound parameter: a
    number as it is, a boolean as 1 or 0, a decimal numeral as the number
    it reads.  [None]: the store rejects the statement, as it does for a
    text that is no number and for [NULL] (the hierarchy columns hold
    integers).  An array or an object, which the driver would expand into
    the text of the statement, is taken to be rejected as well. *)
Definition int_column (v : value) : option Z :=
  match v with
  | VNum n => Some n
  | VBool b => Some (if b then 1 else 0)
  | VStr s => if String.eqb s "" then None else digits s 0
  | _ => None
  end.

(** [SELECT id FROM projects WHERE id = ?] *)
Definition select_projects_by_id (p : value) : M (list project) :=
  query (fun s => (filter (fun r => sql_eq (p_id r) p) (projects s), s)).

(** [SELECT * FROM tasks WHERE id = ?] *)
Definition select_tasks_by_id (p : value) : M (list task) :=
  query (fun s => (filter (fun r => sql_eq (id r) p) (tasks s), s)).

(** [SELECT ... FROM tasks WHERE projectID = ?] *)
Definition select_tasks_by_project (p : value) : M (list task) :=
  query (fun s => (filter (fun r => sql_eq (projectID r) p) (tasks s), s)).

(** [DELETE FROM tasks WHERE projectID = ?] *)
Definition delete_tasks_by_project (p : value) : M unit :=
  query (fun s =>
    (tt, mkStore (projects s)
                 (filter (fun r => negb (sql_eq (projectID r) p)) (tasks s))
                 (nextTaskId s))).

(** [DELETE FROM projects WHERE id = ?]; the result is [affectedRows]. *)
Definition delete_project_by_id (p : value) : M Z :=
  query (fun s =>
    (Z.of_nat (List.length (filter (fun r => sql_eq (p_id r) p) (projects s))),
     mkStore (filter (fun r => negb (sql_eq (p_id r) p)) (projects s))
             (tasks s) (nextTaskId s))).

(** [DELETE FROM tasks WHERE id IN (?)] with an array parameter. *)
Definition delete_tasks_by_ids (ids : list value) : M unit :=
  query (fun s =>
    (tt, mkStore (projects s)
                 (filter (fun r => negb (existsb (sql_eq (id r)) ids)) (tasks s))
                 (nextTaskId s))).

(** [INSERT INTO tasks (...) VALUES (...)]: the row receives the next
    identifier; the result is [insertId]. *)
Definition insert_task (row : Z -> task) : M Z :=
  query (fun s =>
    (nextTaskId s,
     mkStore (projects s) (tasks s ++ [row (nextTaskId s)]) (nextTaskId s + 1))).

(** [UPDATE tasks SET levelNID = ? WHERE id = ?] *)
Definition update_task_level (f : levelField) (v : Z) (p : value) : M unit :=
  query (fun s =>
    (tt, mkStore (projects s)
                 (map (fun r => if sql_eq (id r) p then set_level f v r else r)
                      (tasks s))
                 (nextTaskId s))).

(** [UPDATE tasks SET a1, a2, ... WHERE id = ?] *)
Definition update_task (asg : list assignment) (p : value) : M unit :=
  query (fun s =>
    (tt, mkStore (projects s)
                 (map (fun r => if sql_eq (id r) p
                                then fold_left apply_assignment asg r else r)
                      (tasks s))
                 (nextTaskId s))).

(** Running a handler on a store: the connection comes from the pool with
    no transaction open; the result is the response and the committed
    store. *)
Definition run {A} (h : M A) (s : store) : outcome A * store :=
  let (r, c) := h (pooled s) in (r, committed c).

(** ** Responses *)

Inductive body : Type :=
| JError (error : string)
| JTask (row : task) (estPrevHours_ info_ : value)
| JTasks (rows : list (task * value * value))
| JSuccess
| JDeleted (deletedCount : Z).

Record response : Type := mkResponse {
  status_code : Z;
  payload : body
}.

(** ** Strings *)

Definition is_space (c : ascii) : bool :=
  let n := nat_of_ascii c in
  ((9 <=? n) && (n <=? 13))%nat || (n =? 32)%nat.

Fixpoint trim_start (s : string) : string :=
  match s with
  | EmptyString => EmptyString
  | String c r => if is_space c then trim_start r else s
  end.

Fixpoint string_rev (s acc : string) : string :=
  match s with
  | EmptyString => acc
  | String c r => string_rev r (String c acc)
  end.

(** [s.trim()] *)
Definition trim (s : string) : string :=
  string_rev (trim_start (string_rev (trim_start s) EmptyString)) EmptyString.

(** [n.toString()] *)
Definition toString (n : Z) : string :=
  DecimalString.NilZero.string_of_int (Z.to_int n).

(** [array.join(sep)] on strings. *)
Fixpoint array_join (sep : string) (l : list string) : string :=
  match l with
  | [] => ""
  | [x] => x
  | x :: r => x ++ sep ++ array_join sep r
  end%string.

(** ** Comparisons of a request field with a number

    A field of the request body is whatever the JSON of the request
    holds.  The handlers compare such a field with a number in two ways:
    [v > n] converts [v] to a number first, [v === n] holds for the number
    [n] only. *)

(** ToString; an array is its elements joined by commas, [null] and
    [undefined] among them as the empty string. *)
Fixpoint ToString (v : value) : string :=
  match v with
  | VUndef => "undefined"
  | VNull => "null"
  | VBool b => if b then "true" else "false"
  | VNum n => toString n
  | VStr s => s
  | VArr xs =>
      array_join ","
        (map (fun x => match x with
                       | VUndef | VNull => ""
                       | _ => ToString x
                       end) xs)
  | VObj _ => "[object Object]"
  end%string.

(** ToNumber; [None] is NaN.  Strings are read as in [to_number]; an array
    or an object is converted to a string first. *)
Definition ToNumber (v : value) : option Z :=
  match v with
  | VUndef => None
  | VNull => Some 0
  | VBool b => Some (if b then 1 else 0)
  | VNum n => Some n
  | VStr s => digits s 0
  | VArr _ | VObj _ => digits (ToString v) 0
  end.

(** [v > n] *)
Definition js_gt (v : value) (n : Z) : bool :=
  match ToNumber v with
  | Some m => n <? m
  | None => false
  end.

(** [v === n] *)
Definition strict_eq (v : value) (n : Z) : bool :=
  match v with
  | VNum m => m =? n
  | _ => false
  end.

(** ** The handlers *)

Section Handlers.

(** The runtime's JSON codec and date formatting.  [JSON_parse] is [None]
    where [JSON.parse] throws a SyntaxError; [toISODate d] stands for
    [new Date(d).toISOString().slice(0, 19).replace('T', ' ')] and is
    [None] where the date is invalid and [toISOString] throws. *)
Variable JSON_parse : string -> option value.
Variable JSON_stringify : value -> string.
Variable toISODate : value -> option value.

Definition parse_json (s : string) : M value :=
  match JSON_parse s with
  | Some v => ret v
  | None => throw "SyntaxError"
  end.

(** *** safeJsonParse *)
Definition safeJsonParse (jsonString defaultValue : value) : value :=
  match jsonString with
  | VArr _ | VObj _ => jsonString
  | VStr s =>
      if String.eqb (trim s) "" then defaultValue
      else match JSON_parse s with
           | Some VNull | Some VUndef => defaultValue
           | Some parsed => parsed
           | None => defaultValue
           end
  | _ => defaultValue
  end.

(** *** formatDateForMySQL *)
Definition formatDateForMySQL (date : value) : M value :=
  if negb (truthy date) then ret VNull
  else match toISODate date with
       | Some d => ret d
       | None => throw "RangeError"
       end.

(** *** buildTaskHierarchy (in PUT /projects/:id)

    A node of the nested answer: the columns of the row, with [id],
    [estPrevHours] and [info] replaced by their decoded forms, and the
    children under the name of their level. *)
Inductive taskData : Type := mkTaskData {
  td_task : task;
  td_id : string;
  td_estPrevHours : value;
  td_info : value;
  subtasks : list taskData;
  actionItems : option (list taskData);
  subactionItems : option (list taskData)
}.

(** The recursion of [buildTaskHierarchy] goes from level 1 to 2, 3 and
    4 and stops there; [depth] bounds it, and 4 is always enough
    ([build_depth_enough] below). *)
Fixpoint build (depth : nat) (allTasks : list task) (parentId level : Z)
  : list taskData :=
  match depth with
  | O => []
  | S d =>
      map (fun task =>
             let estPrev := safeJsonParse (col_value (estPrevHours task)) (VArr []) in
             let inf := safeJsonParse (col_value (info task)) (VObj []) in
             if level =? 1 then
               mkTaskData task (toString (id task)) estPrev inf
                          (build d allTasks (id task) 2) None None
             else if level =? 2 then
               mkTaskData task (toString (id task)) estPrev inf
                          [] (Some (build d allTasks (id task) 3)) None
             else if level =? 3 then
               mkTaskData task (toString (id task)) estPrev inf
                          [] None (Some (build d allTasks (id task) 4))
             else
               mkTaskData task (toString (id task)) estPrev inf [] None None)
          (filter (fun task => (parentID task =? parentId) && (taskLevel task =? level))
                  allTasks)
  end.

Definition buildTaskHierarchy (allTasks : list task) (parentId level : Z)
  : list taskData :=
  build 4 allTasks parentId level.

(** *** GET /tasks/project/:projectId *)
Definition decode_row (t : task) : task * value * value :=
  (t,
   if truthy (col_value (estPrevHours t))
   then safeJsonParse (col_value (estPrevHours t)) (VArr []) else VArr [],
   if truthy (col_value (info t))
   then safeJsonParse (col_value (info t)) (VObj []) else VObj []).

Definition getProjectTasks (projectId : string) : M response :=
  try_catch
    (projects <- select_projects_by_id (VStr projectId) ;;
     match projects with
     | [] => ret (mkResponse 404 (JError "Project not found"))
     | _ :: _ =>
         tasks <- select_tasks_by_project (VStr projectId) ;;
         ret (mkResponse 200 (JTasks (map decode_row tasks)))
     end)
    (fun _ => ret (mkResponse 500 (JError "Failed to fetch tasks"))).

(** *** DELETE /projects/:id *)
Definition deleteProject (projectId : string) : M response :=
  try_catch
    (beginTransaction ;;
     delete_tasks_by_project (VStr projectId) ;;
     affectedRows <- delete_project_by_id (VStr projectId) ;;
     if affectedRows =? 0 then
       rollback ;;
       ret (mkResponse 404 (JError "Project not found"))
     else
       commit ;;
       ret (mkResponse 200 JSuccess))
    (fun _ =>
       rollback ;;
       ret (mkResponse 500 (JError "Failed to delete project"))).

(** *** POST /tasks

    The request body.  [taskLevel] and [parentID] are the fields as the
    JSON of the request holds them ([VUndef] where the field is absent):
    the handler compares them with numbers and hands them to the store.
    [projectID] only goes to the store, which reads it as a number; it is
    given as that number.  The other fields are read from [in_body] by
    name. *)
Record taskInput : Type := mkTaskInput {
  in_projectID : Z;
  in_taskLevel : value;
  in_parentID : value;
  in_body : list (string * value)
}.

(** [taskLevel = 1] and [parentID = 0] of the destructuring. *)
Definition req_taskLevel (input : taskInput) : value :=
  dflt (in_taskLevel input) (VNum 1).

Definition req_parentID (input : taskInput) : value :=
  dflt (in_parentID input) (VNum 0).

(** The ancestor columns of a row under [parent], as the handler computes
    them before the insertion. *)
Definition inherit_levels (taskLevel_ : value) (parent : task) : Z * Z * Z * Z :=
  let l1 := num_or (level1ID parent) (if taskLevel parent =? 1 then id parent else 0) in
  let l2 := num_or (level2ID parent) (if taskLevel parent =? 2 then id parent else 0) in
  let l3 := num_or (level3ID parent) (if taskLevel parent =? 3 then id parent else 0) in
  let l4 := num_or (level4ID parent) (if taskLevel parent =? 4 then id parent else 0) in
  if strict_eq taskLevel_ 2 then (l1, 0, l3, l4)
  else if strict_eq taskLevel_ 3 then (l1, l2, 0, l4)
  else if strict_eq taskLevel_ 4 then (l1, l2, l3, 0)
  else (l1, l2, l3, l4).

(** The row of the INSERT statement, with the integers [L] and [P] its
    [taskLevel] and [parentID] columns take from the request. *)
Definition new_row (now : value) (input : taskInput) (L P : Z)
           (levels : Z * Z * Z * Z) (newId : Z) : task :=
  let b := in_body input in
  let '(l1, l2, l3, l4) := levels in
  mkTask newId (in_projectID input) L P
         l1 l2 l3 l4
         (dflt (lookup "estHours" b) (VNum 0))
         (Some (JSON_stringify (dflt (lookup "estPrevHours" b) (VArr []))))
         (Some (JSON_stringify (js_or (dflt (lookup "info" b) (VObj [])) (VObj []))))
         [ ("wsID"%string, lookup "wsID" b);
           ("userID"%string, lookup "userID" b);
           ("name"%string, lookup "name" b);
           ("description"%string, lookup "description" b);
           ("status"%string, dflt (lookup "status" b) (VStr "todo"));
           ("assignee1ID"%string, js_or (dflt (lookup "assignee1ID" b) (VNum 0)) (VNum 0));
           ("assignee2ID"%string, js_or (dflt (lookup "assignee2ID" b) (VNum 0)) (VNum 0));
           ("assignee3ID"%string, js_or (dflt (lookup "assignee3ID" b) (VNum 0)) (VNum 0));
           ("actHours"%string, dflt (lookup "actHours" b) (VNum 0));
           ("isExceeded"%string, dflt (lookup "isExceeded" b) (VNum 0));
           ("priority"%string, dflt (lookup "priority" b) (VStr "low"));
           ("taskType"%string, dflt (lookup "taskType" b) (VStr "task"));
           ("dueDate"%string, dflt (lookup "dueDate" b) VNull);
           ("comments"%string, js_or (dflt (lookup "comments" b) (VStr "")) (VStr ""));
           ("createdAt"%string, now);
           ("modifiedAt"%string, now) ].

(** The INSERT statement: [taskLevel] and [parentID || 0] go to integer
    columns. *)
Definition insert_new_task (now : value) (input : taskInput)
           (levels : Z * Z * Z * Z) : M Z :=
  match int_column (req_taskLevel input),
        int_column (js_or (req_parentID input) (VNum 0)) with
  | Some L, Some P => insert_task (new_row now input L P levels)
  | _, _ => throw "ER_TRUNCATED_WRONG_VALUE_FOR_FIELD"
  end.

(** The self-pointer patch after the insertion. *)
Definition patch_self (taskLevel_ : value) (newTaskId : Z) : M unit :=
  if strict_eq taskLevel_ 1 then update_task_level Level1ID newTaskId (VNum newTaskId)
  else if strict_eq taskLevel_ 2 then update_task_level Level2ID newTaskId (VNum newTaskId)
  else if strict_eq taskLevel_ 3 then update_task_level Level3ID newTaskId (VNum newTaskId)
  else if strict_eq taskLevel_ 4 then update_task_level Level4ID newTaskId (VNum newTaskId)
  else ret tt.

(** The lookup of the parent: [None] when the request names a parent
    that is not in the table, the ancestor columns to insert otherwise. *)
Definition resolve_levels (taskLevel_ parentID_ : value)
  : M (option (Z * Z * Z * Z)) :=
  if js_gt taskLevel_ 1 && truthy parentID_ then
    parentTasks <- select_tasks_by_id parentID_ ;;
    match parentTasks with
    | [] => ret None
    | parent :: _ => ret (Some (inherit_levels taskLevel_ parent))
    end
  else ret (Some (0, 0, 0, 0)).

(** The answer for the created row, with its inner [try]/[catch] around
    the decoding. *)
Definition created_response (row : task) : M response :=
  try_catch
    (e <- (match estPrevHours row with
           | Some s => if truthy (VStr s) then parse_json s else ret (VArr [])
           | None => ret (VArr [])
           end) ;;
     i <- (match info row with
           | Some s => if truthy (VStr s) then parse_json s else ret (VObj [])
           | None => ret (VObj [])
           end) ;;
     ret (mkResponse 201 (JTask row e i)))
    (fun _ => ret (mkResponse 201 (JTask row (VArr []) (VObj [])))).

Definition createTask (now : value) (input : taskInput) : M response :=
  let taskLevel_ := req_taskLevel input in
  let parentID_ := req_parentID input in
  try_catch
    (beginTransaction ;;
     projects <- select_projects_by_id (VNum (in_projectID input)) ;;
     match projects with
     | [] =>
         rollback ;;
         ret (mkResponse 404 (JError "Project not found"))
     | _ :: _ =>
         found <- resolve_levels taskLevel_ parentID_ ;;
         match found with
         | None =>
             rollback ;;
             ret (mkResponse 400 (JError "Parent task not found"))
         | Some levels =>
             newTaskId <- insert_new_task now input levels ;;
             patch_self taskLevel_ newTaskId ;;
             newTask <- select_tasks_by_id (VNum newTaskId) ;;
             match newTask with
             | [] => throw "Failed to retrieve created task"
             | row :: _ =>
                 commit ;;
                 created_response row
             end
         end
     end)
    (fun _ =>
       rollback ;;
       ret (mkResponse 500 (JError "Failed to create task"))).

(** *** PUT /tasks/:id *)
Definition allowedUpdates : list string :=
  [ "name"; "description"; "status"; "assignee1ID"; "assignee2ID"; "assignee3ID";
    "estHours"; "actHours"; "priority"; "dueDate"; "comments"; "taskType";
    "expanded" ]%string.

Definition is_undefined (v : value) : bool :=
  match v with VUndef => true | _ => false end.

(** The loop over [allowedUpdates]: one assignment per field the request
    gives. *)
Fixpoint collect_updates (fields : list string) (updates : list (string * value))
  : M (list assignment) :=
  match fields with
  | [] => ret []
  | field :: rest =>
      if is_undefined (lookup field updates) then collect_updates rest updates
      else
        v <- (if String.eqb field "dueDate" && truthy (lookup field updates)
              then formatDateForMySQL (lookup field updates)
              else ret (lookup field updates)) ;;
        more <- collect_updates rest updates ;;
        ret (SetCol field v :: more)
  end.

Definition updateTask (now : value) (taskId : string)
           (updates : list (string * value)) : M response :=
  try_catch
    (beginTransaction ;;
     tasks <- select_tasks_by_id (VStr taskId) ;;
     match tasks with
     | [] =>
         rollback ;;
         ret (mkResponse 404 (JError "Task not found"))
     | currentTask :: _ =>
         updateFields <- collect_updates allowedUpdates updates ;;
         let updateFields :=
           if negb (is_undefined (lookup "estHours" updates))
              && (1 <? taskLevel currentTask)
           then updateFields
                  ++ [SetEstPrevHours (JSON_stringify (VArr [estHours currentTask]))]
           else updateFields in
         match updateFields with
         | [] =>
             rollback ;;
             ret (mkResponse 400 (JError "No valid fields to update"))
         | _ :: _ =>
             update_task (updateFields ++ [SetCol "modifiedAt" now]) (VStr taskId) ;;
             updatedTasks <- select_tasks_by_id (VStr taskId) ;;
             match updatedTasks with
             | [] =>
                 rollback ;;
                 ret (mkResponse 404 (JError "Task not found after update"))
             | updated :: _ =>
                 commit ;;
                 e <- match estPrevHours updated with
                      | Some s => parse_json s
                      | None => ret (VArr [])
                      end ;;
                 i <- match info updated with
                      | Some s => parse_json (if String.eqb s "" then "{}" else s)
                      | None => ret (VObj [])
                      end ;;
                 ret (mkResponse 200 (JTask updated e i))
             end
         end
     end)
    (fun _ =>
       rollback ;;
       ret (mkResponse 500 (JError "Failed to update task"))).

(** *** DELETE /tasks/:id *)
Definition levelMap (taskLevel_ : Z) : option levelField :=
  match taskLevel_ with
  | 1 => Some Level1ID
  | 2 => Some Level2ID
  | 3 => Some Level3ID
  | 4 => Some Level4ID
  | _ => None
  end.

(** "First pass: Get direct children". *)
Definition first_pass (targetField : levelField) (taskId : string)
           (allTasks : list task) (idsToDelete : list value) : list value :=
  fold_left
    (fun ids task =>
       if loose_eq (get_level targetField task) (VStr taskId)
       then set_add ids (VNum (id task)) else ids)
    allTasks idsToDelete.

(** One round of "Subsequent passes". *)
Definition next_pass (targetField : levelField) (allTasks : list task)
           (idsToDelete : list value) : list value :=
  fold_left
    (fun ids task =>
       if set_has ids (VNum (get_level targetField task))
          && negb (set_has ids (VNum (id task)))
       then set_add ids (VNum (id task)) else ids)
    allTasks idsToDelete.

(** [do { ... } while (currentSize !== idsToDelete.size)].  A round that
    does not stop the loop adds the identifier of a row of [allTasks],
    so the loop stops within [length allTasks + 1] rounds
    ([do_while_stops] below). *)
Fixpoint do_while (rounds : nat) (targetField : levelField)
         (allTasks : list task) (idsToDelete : list value) : list value :=
  match rounds with
  | O => idsToDelete
  | S n =>
      let currentSize := set_size idsToDelete in
      let ids := next_pass targetField allTasks idsToDelete in
      if currentSize =? set_size ids then ids
      else do_while n targetField allTasks ids
  end.

Definition collect_ids (targetField : levelField) (taskId : string)
           (allTasks : list task) : list value :=
  do_while (S (List.length allTasks)) targetField allTasks
           (first_pass targetField taskId allTasks [VStr taskId]).

Definition deleteTask (taskId : string) : M response :=
  try_catch
    (beginTransaction ;;
     tasks <- select_tasks_by_id (VStr taskId) ;;
     match tasks with
     | [] =>
         rollback ;;
         ret (mkResponse 404 (JError "Task not found"))
     | taskToDelete :: _ =>
         let projectId := projectID taskToDelete in
         match levelMap (taskLevel taskToDelete) with
         | None =>
             rollback ;;
             ret (mkResponse 400 (JError "Invalid task level"))
         | Some targetField =>
             allTasks <- select_tasks_by_project (VNum projectId) ;;
             let idsToDelete := collect_ids targetField taskId allTasks in
             delete_tasks_by_ids idsToDelete ;;
             commit ;;
             ret (mkResponse 200 (JDeleted (set_size idsToDelete)))
         end
     end)
    (fun _ =>
       rollback ;;
       ret (mkResponse 500 (JError "Failed to delete task"))).

End Handlers.

(** ** The notions the theorems are stated with *)

(** *** Stores *)

(** The table [projects] has a row with this identifier. *)
Definition project_exists (s : store) (pid : Z) : Prop :=
  exists p, In p (projects s) /\ p_id p = pid.

(** Identifiers are a primary key. *)
Definition unique_ids (s : store) : Prop := NoDup (map id (tasks s)).

(** The identifiers in use are positive and below the next one. *)
Definition fresh_ids (s : store) : Prop :=
  forall t, In t (tasks s) -> 0 < id t < nextTaskId s.

(** *** Ancestor columns *)

(** The level an ancestor column stands for. *)
Definition level_of (f : levelField) : Z :=
  match f with
  | Level1ID => 1
  | Level2ID => 2
  | Level3ID => 3
  | Level4ID => 4
  end.

(** The component of the four ancestor values that goes to a column. *)
Definition nth_level (f : levelField) (levels : Z * Z * Z * Z) : Z :=
  let '(l1, l2, l3, l4) := levels in
  match f with
  | Level1ID => l1
  | Level2ID => l2
  | Level3ID => l3
  | Level4ID => l4
  end.

(** The column the self-pointer patch writes for a level of the request:
    one of the four when the level is the number 1, 2, 3 or 4, none for
    any other value. *)
Definition own_field (taskLevel_ : value) : option levelField :=
  match taskLevel_ with
  | VNum L => levelMap L
  | _ => None
  end.

(** The row the handler leaves in the table: the inserted row with the
    pointer of its own level, when it has one, set to its identifier. *)
Definition self_patch (taskLevel_ : value) (r : task) : task :=
  match own_field taskLevel_ with
  | Some f => set_level f (id r) r
  | None => r
  end.

(** The integers the [taskLevel] and [parentID] columns of the new row
    take from the request. *)
Definition stored_level (input : taskInput) : option Z :=
  int_column (req_taskLevel input).

Definition stored_parent (input : taskInput) : option Z :=
  int_column (js_or (req_parentID input) (VNum 0)).

(** The parent the handler inherits from: the first row the lookup
    returns, when the level is above 1 and the request names a parent. *)
Definition levels_for (s : store) (input : taskInput) : option (Z * Z * Z * Z) :=
  if js_gt (req_taskLevel input) 1 && truthy (req_parentID input) then
    match filter (fun r => sql_eq (id r) (req_parentID input)) (tasks s) with
    | [] => None
    | parent :: _ => Some (inherit_levels (req_taskLevel input) parent)
    end
  else Some (0, 0, 0, 0).

(** *** Answers *)

(** The row of a 201 answer. *)
Definition created (o : outcome response) : option task :=
  match o with
  | Ok (mkResponse 201 (JTask row _ _)) => Some row
  | _ => None
  end.

(** *** The set of identifiers to delete *)

(** Every member of the set is the route parameter or the identifier of
    a row handed to the closure. *)
Definition drawn_from (taskId : string) (allTasks : list task) (ids : list value)
  : Prop :=
  forall v, In v ids ->
            v = VStr taskId \/ exists x, In x allTasks /\ v = VNum (id x).

(** The rows of [allTasks] whose identifier is not in the set yet. *)
Definition outside (allTasks : list task) (ids : list value) : nat :=
  List.length (filter (fun x => negb (set_has ids (VNum (id x)))) allTasks).

(** The set after [n] rounds of the closure loop, each a pass over the
    rows. *)
Fixpoint after_rounds (n : nat) (targetField : levelField)
         (allTasks : list task) (ids : list value) : list value :=
  match n with
  | O => ids
  | S m => after_rounds m targetField allTasks (next_pass targetField allTasks ids)
  end.

(** Round [n + 1] is the round the loop stops in: its pass leaves the size
    of the set, so that the test [currentSize !== idsToDelete.size] fails
    and the loop ends, and the pass of every round before it changed the
    size. *)
Definition stops_in_round (n : nat) (targetField : levelField)
           (allTasks : list task) (ids : list value) : Prop :=
  set_size (after_rounds n targetField allTasks ids)
  = set_size (after_rounds (S n) targetField allTasks ids) /\
  forall m, (m < n)%nat ->
            set_size (after_rounds m targetField allTasks ids)
            <> set_size (after_rounds (S m) targetField allTasks ids).

(** [k] is among the numbers [ks]. *)
Definition mem (k : Z) (ks : list Z) : bool := existsb (Z.eqb k) ks.

(** The set of the handler: the route parameter, then distinct numbers,
    each the identifier of a row handed to the closure. *)
Definition id_set (taskId : string) (allTasks : list task)
           (ids : list value) (ks : list Z) : Prop :=
  ids = VStr taskId :: map VNum ks /\ NoDup ks /\
  forall k, In k ks -> exists x, In x allTasks /\ id x = k.

(** *** Updates *)

(** An assignment to a plain column. *)
Definition is_SetCol (a : assignment) : Prop :=
  match a with SetCol _ _ => True | SetEstPrevHours _ => False end.

Section Notions.

Variable JSON_parse : string -> option value.
Variable JSON_stringify : value -> string.
Variable toISODate : value -> option value.
Variable now : value.

(** The row a successful creation leaves in the table and answers. *)
Definition created_row (input : taskInput) (L P : Z) (levels : Z * Z * Z * Z)
           (newId : Z) : task :=
  self_patch (req_taskLevel input)
             (new_row JSON_stringify now input L P levels newId).

(** The date of the request, when it gives one, is one the runtime can
    format. *)
Definition dueDate_ok (updates : list (string * value)) : Prop :=
  truthy (lookup "dueDate" updates) = true ->
  toISODate (lookup "dueDate" updates) <> None.

(** The assignments of the UPDATE statement, given those of the loop. *)
Definition update_fields (updates : list (string * value)) (currentTask : task)
           (asg : list assignment) : list assignment :=
  if negb (is_undefined (lookup "estHours" updates)) && (1 <? taskLevel currentTask)
  then asg ++ [SetEstPrevHours (JSON_stringify (VArr [estHours currentTask]))]
  else asg.

(** The decoding of the row read back after the update: [None] where
    [JSON.parse] throws. *)
Definition read_back (u : task) : option (value * value) :=
  match (match estPrevHours u with
         | Some s => JSON_parse s
         | None => Some (VArr [])
         end) with
  | None => None
  | Some e =>
      match (match info u with
             | Some s => JSON_parse (if String.eqb s "" then "{}" else s)
             | None => Some (VObj [])
             end) with
      | None => None
      | Some i => Some (e, i)
      end
  end.

(** *** Trees *)

Definition opt_list {A} (o : option (list A)) : list A :=
  match o with Some l => l | None => [] end.

(** Modelled from the spec: [flatten], the inverse the round trip
    "buildTree(flatten(tree)) == tree" is stated with; the source has no
    such function.  The rows of a tree in pre-order: the row of a node,
    then the rows of its children. *)
Fixpoint flatten_node (nd : taskData) : list task :=
  td_task nd
  :: flat_map flatten_node (subtasks nd)
  ++ match actionItems nd with
     | Some l => flat_map flatten_node l
     | None => []
     end
  ++ match subactionItems nd with
     | Some l => flat_map flatten_node l
     | None => []
     end.

Definition flatten (tree : list taskData) : list task :=
  flat_map flatten_node tree.

(** The children of a node of level [level], under the name of that
    level. *)
Definition kids (level : Z) (nd : taskData) : list taskData :=
  if level =? 1 then subtasks nd
  else if level =? 2 then opt_list (actionItems nd)
  else if level =? 3 then opt_list (subactionItems nd)
  else [].

(** A node of level [level] under [parent]: its row says so, its decoded
    fields are those of its row, and it has the children fields of its
    level and no other. *)
Definition node_ok (level parent : Z) (nd : taskData) : Prop :=
  taskLevel (td_task nd) = level /\
  parentID (td_task nd) = parent /\
  td_id nd = toString (id (td_task nd)) /\
  td_estPrevHours nd
  = safeJsonParse JSON_parse (col_value (estPrevHours (td_task nd))) (VArr []) /\
  td_info nd
  = safeJsonParse JSON_parse (col_value (info (td_task nd))) (VObj []) /\
  (subtasks nd, actionItems nd, subactionItems nd)
  = (if level =? 1 then (kids level nd, None, None)
     else if level =? 2 then ([], Some (kids level nd), None)
     else if level =? 3 then ([], None, Some (kids level nd))
     else ([], None, None)).

(** A forest of [height] levels starting at [level] under [parent]. *)
Fixpoint wf (height : nat) (level parent : Z) (tree : list taskData) : Prop :=
  match height with
  | O => tree = []
  | S h =>
      Forall (fun nd => node_ok level parent nd /\
                        wf h (level + 1) (id (td_task nd)) (kids level nd))
             tree
  end.

(** A well-formed 4-level tree: tasks at level 1 under parent 0 down to
    sub-action items at level 4, each row with an identifier of its own. *)
Definition well_formed (tree : list taskData) : Prop :=
  wf 4 1 0 tree /\ NoDup (map id (flatten tree)).

(** The rows [buildTaskHierarchy] selects for a parent and a level. *)
Definition sub (p lvl : Z) (T : list task) : list task :=
  filter (fun task => (parentID task =? p) && (taskLevel task =? lvl)) T.

End Notions.

(** ** A sample runtime

    A small JSON codec and date formatter on which the handlers run on
    concrete requests: [stringify] prints every value, [parse] reads the
    empty array, the empty object, [null], a numeral and a one-numeral
    array, and rejects every other text. *)
Module Sample.

Fixpoint join (sep : string) (l : list string) : string :=
  match l with
  | [] => ""
  | [x] => x
  | x :: r => x ++ sep ++ join sep r
  end%string.

Definition quote : string := String (ascii_of_nat 34) EmptyString.

Fixpoint stringify (v : value) : string :=
  match v with
  | VUndef | VNull => "null"
  | VBool true => "true"
  | VBool false => "false"
  | VNum n => toString n
  | VStr s => quote ++ s ++ quote
  | VArr xs => "[" ++ join "," (map stringify xs) ++ "]"
  | VObj fs =>
      "{" ++ join "," (map (fun kv => quote ++ fst kv ++ quote ++ ":"
                                      ++ stringify (snd kv)) fs)
          ++ "}"
  end%string.

Definition is_numeral (s : string) : bool :=
  negb (String.eqb s "") &&
  match digits s 0 with Some _ => true | None => false end.

Definition parse (s : string) : option value :=
  if String.eqb s "[]" then Some (VArr [])
  else if String.eqb s "{}" then Some (VObj [])
  else if String.eqb s "null" then Some VNull
  else if is_numeral s then option_map VNum (digits s 0)
  else
    let n := String.length s in
    let inner := substring 1 (n - 2) s in
    if String.eqb s ("[" ++ inner ++ "]") && is_numeral inner
    then option_map (fun k => VArr [VNum k]) (digits inner 0)
    else None.

Definition toISODate (d : value) : option value :=
  match d with
  | VStr _ => Some d
  | _ => None
  end.

Definition now : value := VStr "2024-01-01 00:00:00".

Definition create := createTask parse stringify now.
Definition update := updateTask parse stringify toISODate now.
Definition hierarchy := buildTaskHierarchy parse.

(** A store with one project and no task. *)
Definition store0 : store :=
  mkStore [mkProject 1 [("name"%string, VStr "P1")]] [] 1.

(** The store after handler [h]. *)
Definition after {A} (h : M A) (s : store) : store := snd (run h s).

Definition request (level parent : Z) : taskInput :=
  mkTaskInput 1 (VNum level) (VNum parent) [("name"%string, VStr "t")].

(** The same request with its level sent as a string. *)
Definition request_text (level : string) (parent : Z) : taskInput :=
  mkTaskInput 1 (VStr level) (VNum parent) [("name"%string, VStr "t")].

End Sample.

(** ** Runs on concrete stores *)

Module Scenario.

Import Sample.

(** Project 1 with the task T1, then its subtask T2, then the action
    item T3 of T2, each created by a request. *)
Definition store1 : store := Eval vm_compute in
    after (create (request 1 0)) store0.
Definition store2 : store := Eval vm_compute in
    after (create (request 2 1)) store1.
Definition store3 : store := Eval vm_compute in
    after (create (request 3 2)) store2.

(** ... and a sub-action item T4 of T3, a second subtask T5 of T1 and a
    second task T6. *)
Definition store6 : store := Eval vm_compute in
    after (create (request 1 0))
      (after (create (request 2 1))
         (after (create (request 4 3)) store3)).

Definition tree6 : list taskData := Eval vm_compute in
    hierarchy (tasks store6) 0 1.

Definition plain_row (id_ project level parent l1 l2 l3 l4 : Z)
           (estPrev : option string) : task :=
  mkTask id_ project level parent l1 l2 l3 l4 (VNum 5) estPrev (Some "{}"%string) [].

(** Two projects; the row of project 2 carries the identifier of the
    task of project 1 in its [level1ID]. *)
Definition two_projects : store :=
  mkStore [mkProject 1 []; mkProject 2 []]
          [plain_row 1 1 1 0 1 0 0 0 (Some "[]"%string);
           plain_row 2 2 2 1 1 2 0 0 (Some "[]"%string)]
          3.

(** A subtask whose persisted [estPrevHours] is not JSON. *)
Definition damaged : store :=
  mkStore [mkProject 1 []]
          [plain_row 1 1 1 0 1 0 0 0 (Some "[]"%string);
           plain_row 2 1 2 1 1 2 0 0 (Some "oops"%string)]
          3.

End Scenario.

(** ** The project handlers *)

(** The answers of the project handlers: an error, a project with a flat
    list of tasks ([None] where the spread source is [undefined]), or a
    project with its identifier as a string, its dates in ISO form and its
    nested tasks. *)
Inductive project_body : Type :=
| PError (error : string)
| PProject (row : option project) (tasks_ : list task)
| PProjectTree (row : project) (id_ : string) (startDate endDate : value)
               (tasks_ : list taskData).

Record project_response : Type := mkProjectResponse {
  p_status : Z;
  p_payload : project_body
}.

(** A statement sent through the pool: it runs on a connection that has
    no transaction open, so it is committed at once. *)
Definition pool_query {A} (statement : M A) : M A := statement.

(** [INSERT INTO projects (...) VALUES (...)]; [insertId] is the identifier
    the store assigns, which this model of the store takes from outside:
    it keeps no counter for projects. *)
Definition insert_project (insertId : Z) (columns : list (string * value)) : M Z :=
  query (fun s =>
    (insertId,
     mkStore (projects s ++ [mkProject insertId columns]) (tasks s) (nextTaskId s))).

(** The columns of a project row after the assignments of an UPDATE. *)
Definition assign_all (asg : list (string * value)) (columns : list (string * value))
  : list (string * value) :=
  fold_left (fun o kv => assign (fst kv) (snd kv) o) asg columns.

(** [UPDATE projects SET c1 = ?, ... WHERE id = ?]; the result is
    [affectedRows]. *)
Definition update_project (asg : list (string * value)) (p : value) : M Z :=
  query (fun s =>
    (Z.of_nat (List.length (filter (fun r => sql_eq (p_id r) p) (projects s))),
     mkStore (map (fun r => if sql_eq (p_id r) p
                            then mkProject (p_id r) (assign_all asg (p_cols r))
                            else r)
                  (projects s))
             (tasks s) (nextTaskId s))).

Section ProjectHandlers.

Variable JSON_parse : string -> option value.

(** [toISODate d] is [new Date(d).toISOString().slice(0, 19).replace('T', ' ')]
    and [toISOString d] is [new Date(d).toISOString()]; both are [None]
    where the date is invalid and [toISOString] throws. *)
Variable toISODate : value -> option value.
Variable toISOString : value -> option value.

(** The date formatting of the project handlers: the formatter of
    POST /projects has no guard, and PUT /projects/:id hands the guarded
    one a Date object, which is never falsy. *)
Definition format_date (date : value) : M value :=
  match toISODate date with
  | Some d => ret d
  | None => throw "RangeError"
  end.

(** *** GET /projects/:id *)
Definition getProject (projectId : string) : M project_response :=
  try_catch
    (projects <- pool_query (select_projects_by_id (VStr projectId)) ;;
     match projects with
     | [] => ret (mkProjectResponse 404 (PError "Project not found"))
     | project_ :: _ =>
         tasks <- pool_query (select_tasks_by_project (VStr projectId)) ;;
         ret (mkProjectResponse 200 (PProject (Some project_) tasks))
     end)
    (fun _ => ret (mkProjectResponse 500 (PError "Failed to fetch project"))).

(** *** POST /projects *)
Definition requiredFields : list string :=
  [ "userID"; "name"; "startDate"; "endDate"; "wsID" ]%string.

Definition project_columns (body : list (string * value))
           (startDate endDate created modified : value) : list (string * value) :=
  [ ("userID"%string, lookup "userID" body);
    ("name"%string, lookup "name" body);
    ("description"%string, lookup "description" body);
    ("startDate"%string, startDate);
    ("endDate"%string, endDate);
    ("estHours"%string, dflt (lookup "estHours" body) (VNum 0));
    ("actHours"%string, dflt (lookup "actHours" body) (VNum 0));
    ("wsID"%string, lookup "wsID" body);
    ("createdAt"%string, created);
    ("modifiedAt"%string, modified) ].

Definition createProject (now : value) (insertId : Z)
           (body : list (string * value)) : M project_response :=
  try_catch
    (let missing := filter (fun field => negb (truthy (lookup field body)))
                           requiredFields in
     match missing with
     | _ :: _ =>
         ret (mkProjectResponse 400
                (PError ("Missing required fields: " ++ array_join ", " missing)))
     | [] =>
         startDate <- format_date (lookup "startDate" body) ;;
         endDate <- format_date (lookup "endDate" body) ;;
         created <- format_date now ;;
         modified <- format_date now ;;
         newId <- pool_query
                    (insert_project insertId
                       (project_columns body startDate endDate created modified)) ;;
         newProject <- pool_query (select_projects_by_id (VNum newId)) ;;
         ret (mkProjectResponse 201 (PProject (hd_error newProject) []))
     end)
    (fun _ => ret (mkProjectResponse 500 (PError "Failed to create project"))).

(** *** PUT /projects/:id *)
Definition allowedProjectUpdates : list string :=
  [ "userID"; "name"; "description"; "startDate"; "endDate"; "estHours";
    "actHours"; "wsID" ]%string.

(** The loop over the allow-list: one assignment per field the request
    gives. *)
Fixpoint collect_project_updates (keys : list string) (body : list (string * value))
  : M (list (string * value)) :=
  match keys with
  | [] => ret []
  | key :: rest =>
      if is_undefined (lookup key body) then collect_project_updates rest body
      else
        v <- (if (String.eqb key "startDate" || String.eqb key "endDate")
                 && truthy (lookup key body)
              then format_date (lookup key body)
              else ret (lookup key body)) ;;
        more <- collect_project_updates rest body ;;
        ret ((key, v) :: more)
  end.

(** [x ? new Date(x).toISOString() : null] *)
Definition iso_or_null (x : value) : M value :=
  if truthy x
  then match toISOString x with
       | Some d => ret d
       | None => throw "RangeError"
       end
  else ret VNull.

Definition updateProject (now : value) (projectId : string)
           (body : list (string * value)) : M project_response :=
  try_catch
    (updates <- collect_project_updates allowedProjectUpdates body ;;
     match updates with
     | [] => ret (mkProjectResponse 400 (PError "No valid fields to update"))
     | _ :: _ =>
         affectedRows <- pool_query
                           (update_project (updates ++ [("modifiedAt"%string, now)])
                                           (VStr projectId)) ;;
         if affectedRows =? 0 then
           ret (mkProjectResponse 404 (PError "Project not found"))
         else
           updatedProject <- pool_query (select_projects_by_id (VStr projectId)) ;;
           match updatedProject with
           | [] => ret (mkProjectResponse 404 (PError "Project not found after update"))
           | updated :: _ =>
               allTasks <- pool_query (select_tasks_by_project (VStr projectId)) ;;
               startDate <- iso_or_null (lookup "startDate" (p_cols updated)) ;;
               endDate <- iso_or_null (lookup "endDate" (p_cols updated)) ;;
               ret (mkProjectResponse 200
                      (PProjectTree updated (toString (p_id updated))
                                    startDate endDate
                                    (buildTaskHierarchy JSON_parse allTasks 0 1)))
           end
     end)
    (fun _ => ret (mkProjectResponse 500 (PError "Failed to update project"))).

End ProjectHandlers.

(** ** Further notions *)

(** Whatever points, through the ancestor column [f], at a row that carries
    [n] in that column carries [n] there itself: the rows under the task
    [n] are the rows with [n] in the column. *)
Definition level_closed (f : levelField) (n : Z) (rows : list task) : Prop :=
  forall x y, In x rows -> In y rows ->
              get_level f y = n -> get_level f x = id y -> get_level f x = n.

(** The hierarchy columns of a row. *)
Definition hierarchy_columns (t : task) : Z * Z * Z * Z * (Z * Z * Z * Z) :=
  (id t, projectID t, taskLevel t, parentID t,
   (level1ID t, level2ID t, level3ID t, level4ID t)).

(** The column an UPDATE of the task handler can assign, by name. *)
Definition get_col (c : string) (t : task) : value :=
  if String.eqb c "estHours" then estHours t else lookup c (cols t).

(** The value [updateTask] stores for a field of the request: the field as
    it is, or the formatted date for a [dueDate] that is given and not
    empty. *)
Definition stored_value (toISODate : value -> option value) (field : string)
           (updates : list (string * value)) : value :=
  if String.eqb field "dueDate" && truthy (lookup field updates)
  then match toISODate (lookup field updates) with
       | Some d => d
       | None => VNull
       end
  else lookup field updates.

(** The table after the UPDATE statement of [updateTask]: the rows with
    the identifier go through the assignments. *)
Definition updated_tasks (taskId : string) (fields : list assignment)
           (rows : list task) : list task :=
  map (fun r => if sql_eq (id r) (VStr taskId)
                then fold_left apply_assignment fields r else r) rows.

(** The table [projects] after the UPDATE statement of [updateProject]. *)
Definition updated_projects (projectId : string) (asg : list (string * value))
           (rows : list project) : list project :=
  map (fun r => if sql_eq (p_id r) (VStr projectId)
                then mkProject (p_id r) (assign_all asg (p_cols r)) else r) rows.

(** [x ? new Date(x).toISOString() : null], [None] where it throws. *)
Definition iso_date (toISOString : value -> option value) (x : value) : option value :=
  if truthy x then toISOString x else Some VNull.

(** The start and end dates of a request, where it gives them, are dates
    the runtime can format. *)
Definition project_dates_ok (toISODate : value -> option value)
           (body : list (string * value)) : Prop :=
  forall key, key = "startDate"%string \/ key = "endDate"%string ->
              truthy (lookup key body) = true ->
              toISODate (lookup key body) <> None.

(** ** Further concrete stores *)

Module Cases.

(** The [n]-th row of the table of a store. *)
Definition row (s : store) (n : nat) : task :=
  nth n (tasks s) (Scenario.plain_row 0 0 0 0 0 0 0 0 None).

(** A sample of the runtime's ISO formatting. *)
Definition toISOString (d : value) : option value :=
  match d with
  | VStr s => Some (VStr (s ++ "Z"))
  | _ => None
  end.

(** A sample of the date formatting that refuses, as the runtime does, a
    text that is not a date: it takes the texts that begin with a digit. *)
Definition toISODate (d : value) : option value :=
  match d with
  | VStr (String c _) =>
      match digit_of c with
      | Some _ => Some d
      | None => None
      end
  | _ => None
  end.

(** The request of a project with its five required fields. *)
Definition project_request : list (string * value) :=
  [ ("userID"%string, VNum 4); ("name"%string, VStr "P2");
    ("startDate"%string, VStr "2024-02-01"); ("endDate"%string, VStr "2024-03-01");
    ("wsID"%string, VNum 1) ].

(** A task stored with level 7, which no handler refuses to create. *)
Definition bad_level : store :=
  mkStore [mkProject 1 []]
          [Scenario.plain_row 1 1 7 0 0 0 0 0 (Some "[]"%string)] 2.

End Cases.

(** ** Lists and filters *)

Lemma filter_none {A} (f : A -> bool) (l : list A) :
  (forall x, In x l -> f x = false) -> filter f l = [].
Proof.
  induction l as [|a l IH]; intros H; simpl; [reflexivity|].
  rewrite (H a (or_introl eq_refl)). apply IH. intros x Hx. apply H. now right.
Qed.

Lemma filter_some {A} (f : A -> bool) (l : list A) (x : A) :
  In x l -> f x = true -> exists a r, filter f l = a :: r.
Proof.
  intros Hin Hf.
  destruct (filter f l) as [|a r] eqn:E.
  - assert (Hx : In x (filter f l)) by (apply filter_In; auto).
    rewrite E in Hx. destruct Hx.
  - eauto.
Qed.

Lemma filter_all {A} (f : A -> bool) (l : list A) :
  (forall x, In x l -> f x = true) -> filter f l = l.
Proof.
  induction l as [|a l IH]; intros H; simpl; [reflexivity|].
  rewrite (H a (or_introl eq_refl)). f_equal. apply IH. intros x Hx. apply H. now right.
Qed.

Lemma match_nonempty {A B} (l : list A) (x y : B) :
  l <> [] -> match l with [] => x | _ :: _ => y end = y.
Proof. destruct l; congruence. Qed.

Lemma sql_eq_num (c n : Z) : sql_eq c (VNum n) = (c =? n).
Proof. reflexivity. Qed.

Arguments sql_eq : simpl never.
Arguments loose_eq : simpl never.

Section Properties.

Variable JSON_parse : string -> option value.
Variable JSON_stringify : value -> string.
Variable toISODate : value -> option value.
Variable now : value.

(** *** POST /tasks: what a run does *)

Lemma levelMap_spec (L : Z) :
  levelMap L =
  if L =? 1 then Some Level1ID
  else if L =? 2 then Some Level2ID
  else if L =? 3 then Some Level3ID
  else if L =? 4 then Some Level4ID
  else None.
Proof.
  destruct L as [|p|p]; try reflexivity.
  destruct p as [[p|p|]|[p|p|]|]; try reflexivity; destruct p; reflexivity.
Qed.

Lemma created_response_ok (row : task) :
  exists e i, forall c,
    created_response JSON_parse row c = (Ok (mkResponse 201 (JTask row e i)), c).
Proof.
  unfold created_response, try_catch, bind, parse_json, ret, throw.
  destruct (estPrevHours row) as [s1|], (info row) as [s2|];
    repeat match goal with
           | |- context [truthy ?v] => destruct (truthy v)
           | |- context [JSON_parse ?x] => destruct (JSON_parse x)
           end; eauto.
Qed.

Lemma map_patch_fresh (g : task -> task) (n : Z) (l : list task) :
  (forall t, In t l -> id t < n) ->
  map (fun r => if sql_eq (id r) (VNum n) then g r else r) l = l.
Proof.
  intros H. induction l as [|a l IH]; simpl; [reflexivity|].
  rewrite sql_eq_num.
  assert (Ha : id a < n) by (apply H; now left).
  replace (id a =? n) with false by (symmetry; apply Z.eqb_neq; lia).
  f_equal. apply IH. intros t Ht. apply H. now right.
Qed.

Lemma filter_id_fresh (n : Z) (l : list task) :
  (forall t, In t l -> id t < n) ->
  filter (fun r => sql_eq (id r) (VNum n)) l = [].
Proof.
  intros H. apply filter_none. intros t Ht. rewrite sql_eq_num.
  apply Z.eqb_neq. specialize (H t Ht). lia.
Qed.

Lemma own_field_spec (v : value) (f : levelField) :
  own_field v = Some f <-> v = VNum (level_of f).
Proof.
  unfold own_field. destruct v as [| |b|L|w|xs|fs];
    try (split; intros H; discriminate H).
  rewrite levelMap_spec. split.
  - repeat match goal with
           | |- context [?a =? ?b] => destruct (Z.eqb_spec a b)
           end; intros H; inversion H; subst; reflexivity.
  - intros H. inversion H. now destruct f.
Qed.

Lemma strict_eq_own_field (v : value) (g : levelField) :
  strict_eq v (level_of g) = true <-> own_field v = Some g.
Proof.
  rewrite own_field_spec. unfold strict_eq. destruct v as [| |b|L|w|xs|fs];
    try (split; intros H; discriminate H).
  rewrite Z.eqb_eq. split; intros H; [now subst|now inversion H].
Qed.

Lemma written_in_transaction (c : conn) (s : store) :
  inTransaction c = true -> written c s = mkConn (committed c) s true.
Proof. intros H. unfold written. now rewrite H. Qed.

Lemma map_if_same {A} (test : A -> bool) (l : list A) :
  map (fun r => if test r then r else r) l = l.
Proof.
  induction l as [|a l IH]; simpl; [reflexivity|].
  rewrite IH. now destruct (test a).
Qed.

Lemma patch_self_run (v : value) (n : Z) (c : conn) :
  inTransaction c = true ->
  patch_self v n c
  = (Ok tt,
     mkConn (committed c)
            (mkStore (projects (working c))
                     (map (fun r => if sql_eq (id r) (VNum n)
                                    then match own_field v with
                                         | Some f => set_level f n r
                                         | None => r
                                         end
                                    else r)
                          (tasks (working c)))
                     (nextTaskId (working c)))
            true).
Proof.
  intros Hopen.
  assert (Hnone : (ret tt : M unit) c
                  = (Ok tt,
                     mkConn (committed c)
                            (mkStore (projects (working c))
                                     (map (fun r => if sql_eq (id r) (VNum n)
                                                    then r else r)
                                          (tasks (working c)))
                                     (nextTaskId (working c)))
                            true)).
  { unfold ret. rewrite map_if_same.
    destruct c as [cm [ps ts nx] o]; simpl in *. now subst o. }
  unfold patch_self, own_field, strict_eq.
  destruct v as [| |b|L|w|xs|fs]; try exact Hnone.
  rewrite levelMap_spec.
  destruct (L =? 1);
    [unfold update_task_level, query; cbn; now rewrite written_in_transaction|].
  destruct (L =? 2);
    [unfold update_task_level, query; cbn; now rewrite written_in_transaction|].
  destruct (L =? 3);
    [unfold update_task_level, query; cbn; now rewrite written_in_transaction|].
  destruct (L =? 4);
    [unfold update_task_level, query; cbn; now rewrite written_in_transaction|].
  exact Hnone.
Qed.

Lemma resolve_levels_run (input : taskInput) (c : conn) :
  inTransaction c = true ->
  resolve_levels (req_taskLevel input) (req_parentID input) c
  = (Ok (levels_for (working c) input), c).
Proof.
  intros Hopen. unfold resolve_levels, levels_for.
  destruct (js_gt _ 1 && _); [|reflexivity].
  unfold bind, select_tasks_by_id, query; simpl.
  rewrite written_in_transaction by exact Hopen.
  destruct c as [cm w o]; simpl in *. subst o.
  now destruct (filter _ (tasks w)).
Qed.

Lemma createTask_run (s : store) (input : taskInput) :
  fresh_ids s ->
  exists e i,
    run (createTask JSON_parse JSON_stringify now input) s =
    match filter (fun p => sql_eq (p_id p) (VNum (in_projectID input))) (projects s) with
    | [] => (Ok (mkResponse 404 (JError "Project not found")), s)
    | _ :: _ =>
        match levels_for s input with
        | None => (Ok (mkResponse 400 (JError "Parent task not found")), s)
        | Some levels =>
            match stored_level input, stored_parent input with
            | Some L, Some P =>
                let row := created_row JSON_stringify now input L P levels
                                       (nextTaskId s) in
                (Ok (mkResponse 201 (JTask row e i)),
                 mkStore (projects s) (tasks s ++ [row]) (nextTaskId s + 1))
            | _, _ => (Ok (mkResponse 500 (JError "Failed to create task")), s)
            end
        end
    end.
Proof.
  intros Hfresh.
  destruct (levels_for s input) as [levels|] eqn:Hlv.
  - destruct (stored_level input) as [L|] eqn:HL;
      [destruct (stored_parent input) as [P|] eqn:HP|].
    + destruct (created_response_ok
                  (created_row JSON_stringify now input L P levels (nextTaskId s)))
        as [e [i Hresp]].
      exists e, i.
      unfold run, createTask, try_catch, bind, beginTransaction,
        select_projects_by_id, query, pooled, written; simpl.
      destruct (filter _ (projects s)) as [|p ps]; [reflexivity|].
      rewrite resolve_levels_run by reflexivity; simpl. rewrite Hlv.
      unfold insert_new_task. unfold stored_level in HL. unfold stored_parent in HP.
      rewrite HL, HP.
      unfold insert_task, query, written; simpl.
      rewrite patch_self_run by reflexivity; simpl.
      unfold select_tasks_by_id, query, written; simpl.
      assert (Hlt : forall t, In t (tasks s) -> id t < nextTaskId s)
        by (intros t Ht; apply Hfresh in Ht; lia).
      rewrite map_app, filter_app, (map_patch_fresh _ _ _ Hlt),
        (filter_id_fresh _ _ Hlt); simpl.
      assert (Hid : id (new_row JSON_stringify now input L P levels (nextTaskId s))
                    = nextTaskId s)
        by (unfold new_row; destruct levels as [[[? ?] ?] ?]; reflexivity).
      rewrite !sql_eq_num, !Hid, !Z.eqb_refl.
      assert (Hrow : match own_field (req_taskLevel input) with
                     | Some f => set_level f (nextTaskId s)
                                   (new_row JSON_stringify now input L P levels
                                            (nextTaskId s))
                     | None => new_row JSON_stringify now input L P levels (nextTaskId s)
                     end
                     = created_row JSON_stringify now input L P levels (nextTaskId s)).
      { unfold created_row, self_patch. rewrite Hid. reflexivity. }
      rewrite !Hrow.
      assert (Hid' : id (created_row JSON_stringify now input L P levels (nextTaskId s))
                     = nextTaskId s).
      { rewrite <- Hrow. destruct (own_field _) as [[]|]; exact Hid. }
      rewrite Hid', Z.eqb_refl.
      rewrite Hresp. reflexivity.
    + exists VNull, VNull.
      unfold run, createTask, try_catch, bind, beginTransaction,
        select_projects_by_id, query, pooled, written; simpl.
      destruct (filter _ (projects s)) as [|p ps]; [reflexivity|].
      rewrite resolve_levels_run by reflexivity; simpl. rewrite Hlv.
      unfold insert_new_task. unfold stored_level in HL. unfold stored_parent in HP.
      rewrite HL, HP. reflexivity.
    + exists VNull, VNull.
      unfold run, createTask, try_catch, bind, beginTransaction,
        select_projects_by_id, query, pooled, written; simpl.
      destruct (filter _ (projects s)) as [|p ps]; [reflexivity|].
      rewrite resolve_levels_run by reflexivity; simpl. rewrite Hlv.
      unfold insert_new_task. unfold stored_level in HL.
      rewrite HL. reflexivity.
  - exists VNull, VNull.
    unfold run, createTask, try_catch, bind, beginTransaction,
      select_projects_by_id, query, pooled, written; simpl.
    destruct (filter _ (projects s)) as [|p ps]; [reflexivity|].
    rewrite resolve_levels_run by reflexivity; simpl. rewrite Hlv. reflexivity.
Qed.

Lemma levelMap_level_of (L : Z) (f : levelField) :
  levelMap L = Some f <-> level_of f = L.
Proof.
  rewrite levelMap_spec. split.
  - repeat match goal with
           | |- context [?a =? ?b] => destruct (Z.eqb_spec a b)
           end; intros H; inversion H; subst; simpl; congruence.
  - intros <-. now destruct f.
Qed.

Lemma created_row_id input L P levels n :
  id (created_row JSON_stringify now input L P levels n) = n.
Proof.
  unfold created_row, self_patch, new_row. destruct levels as [[[? ?] ?] ?].
  now destruct (own_field _) as [[]|].
Qed.

Lemma created_row_taskLevel input L P levels n :
  taskLevel (created_row JSON_stringify now input L P levels n) = L.
Proof.
  unfold created_row, self_patch, new_row. destruct levels as [[[? ?] ?] ?].
  now destruct (own_field _) as [[]|].
Qed.

(** The ancestor columns of the created row: its identifier in the column
    of the level the request gives as a number, the inherited values in
    the others. *)
Lemma created_row_level input L P levels n (g : levelField) :
  get_level g (created_row JSON_stringify now input L P levels n)
  = if strict_eq (req_taskLevel input) (level_of g) then n
    else nth_level g levels.
Proof.
  unfold created_row, self_patch.
  destruct (own_field (req_taskLevel input)) as [f|] eqn:Hown.
  - apply own_field_spec in Hown. rewrite Hown. unfold strict_eq, new_row.
    destruct levels as [[[l1 l2] l3] l4].
    destruct f, g; reflexivity.
  - assert (Hg : strict_eq (req_taskLevel input) (level_of g) = false).
    { destruct (strict_eq _ _) eqn:E; [|reflexivity].
      apply strict_eq_own_field in E. congruence. }
    rewrite Hg. unfold new_row. destruct levels as [[[l1 l2] l3] l4].
    now destruct g.
Qed.

Lemma inherit_levels_other (v : value) (P : task) (g : levelField) :
  strict_eq v (level_of g) = false ->
  nth_level g (inherit_levels v P)
  = num_or (get_level g P) (if taskLevel P =? level_of g then id P else 0).
Proof.
  intros Hv. unfold inherit_levels.
  destruct (strict_eq v 2) eqn:E2;
    [|destruct (strict_eq v 3) eqn:E3; [|destruct (strict_eq v 4) eqn:E4]];
    destruct g; simpl in *; try reflexivity; congruence.
Qed.

(** What a successful run produced. *)
Lemma createTask_created (s s' : store) (input : taskInput) (row : task)
      (e i : value) :
  fresh_ids s ->
  run (createTask JSON_parse JSON_stringify now input) s
  = (Ok (mkResponse 201 (JTask row e i)), s') ->
  exists levels L P,
    levels_for s input = Some levels /\
    stored_level input = Some L /\
    stored_parent input = Some P /\
    row = created_row JSON_stringify now input L P levels (nextTaskId s) /\
    tasks s' = tasks s ++ [row].
Proof.
  intros Hfresh Hrun.
  destruct (createTask_run s input Hfresh) as [e' [i' Hcase]].
  rewrite Hrun in Hcase.
  destruct (filter _ (projects s)); [discriminate|].
  destruct (levels_for s input) as [levels|]; [|discriminate].
  destruct (stored_level input) as [L|]; [|discriminate].
  destruct (stored_parent input) as [P|]; [|discriminate].
  exists levels, L, P. simpl in Hcase. inversion Hcase; subst. auto.
Qed.

(** A level the store reads as a number above 1 is above 1 for the
    handler. *)
Lemma int_column_gt (v : value) (L : Z) :
  int_column v = Some L -> 1 < L -> js_gt v 1 = true.
Proof.
  unfold int_column, js_gt, ToNumber.
  destruct v as [| |b|n|w|xs|fs]; try discriminate.
  - destruct b; intros H; inversion H; lia.
  - intros H HL. inversion H; subst. now apply Z.ltb_lt.
  - destruct (String.eqb w ""); [discriminate|].
    intros H HL. rewrite H. now apply Z.ltb_lt.
Qed.

(** A parameter the store reads as a number other than 0 is truthy. *)
Lemma to_number_truthy (v : value) (p : Z) :
  to_number v = Some p -> p <> 0 -> truthy v = true.
Proof.
  unfold to_number, truthy. destruct v as [| |b|n|w|xs|fs]; try discriminate.
  - intros H Hp. inversion H; subst. now destruct b.
  - intros H Hp. inversion H; subst. now apply negb_true_iff, Z.eqb_neq.
  - intros H Hp. destruct w; [simpl in H; inversion H; congruence|reflexivity].
Qed.

Lemma select_unique (l : list task) (P : task) (v : value) :
  NoDup (map id l) -> In P l -> to_number v = Some (id P) ->
  filter (fun r => sql_eq (id r) v) l = [P].
Proof.
  intros Hnd Hin Hv. induction l as [|a l IH]; [destruct Hin|].
  simpl in *. inversion Hnd as [|x xs Hnotin Hnd']; subst.
  unfold sql_eq at 1. rewrite Hv.
  destruct Hin as [->|Hin].
  - rewrite Z.eqb_refl. f_equal. apply filter_none.
    intros t Ht. unfold sql_eq. rewrite Hv. apply Z.eqb_neq.
    intros Heq. apply Hnotin. rewrite <- Heq. now apply in_map.
  - destruct (Z.eqb_spec (id a) (id P)) as [Heq|Hne].
    + exfalso. apply Hnotin. rewrite Heq. now apply in_map.
    + now apply IH.
Qed.

(** *** PUT /tasks/:id: what a run does *)

Lemma collect_updates_ok (updates : list (string * value)) (fields : list string) :
  dueDate_ok toISODate updates ->
  exists asg,
    (forall c, collect_updates toISODate fields updates c = (Ok asg, c)) /\
    Forall is_SetCol asg /\
    (forall f, In f fields -> is_undefined (lookup f updates) = false -> asg <> []).
Proof.
  intros Hdate. induction fields as [|f fields IH]; simpl.
  - exists []. split; [reflexivity|]. split; [constructor|]. intros f [].
  - destruct IH as [asg [Hrun [Hall Hne]]].
    destruct (is_undefined (lookup f updates)) eqn:Hu.
    + exists asg. split; [exact Hrun|]. split; [exact Hall|].
      intros f' [<-|Hin] Hf'; [congruence|eauto].
    + assert (Hv : exists v, forall c,
                 (if String.eqb f "dueDate" && truthy (lookup f updates)
                  then formatDateForMySQL toISODate (lookup f updates)
                  else ret (lookup f updates)) c = (Ok v, c)).
      { destruct (String.eqb_spec f "dueDate") as [->|Hf]; simpl.
        - destruct (truthy (lookup "dueDate" updates)) eqn:Ht.
          + unfold formatDateForMySQL. rewrite Ht; simpl.
            destruct (toISODate (lookup "dueDate" updates)) as [d|] eqn:Hd.
            * now exists d.
            * exfalso. now apply Hdate.
          + now exists (lookup "dueDate" updates).
        - now exists (lookup f updates). }
      destruct Hv as [v Hv].
      exists (SetCol f v :: asg). split; [|split].
      * intros c. unfold bind. now rewrite Hv, Hrun.
      * constructor; [exact I|exact Hall].
      * intros; discriminate.
Qed.

Lemma filter_map_update (g : task -> task) (p : value) (l : list task) :
  (forall r, id (g r) = id r) ->
  filter (fun r => sql_eq (id r) p)
         (map (fun r => if sql_eq (id r) p then g r else r) l)
  = map g (filter (fun r => sql_eq (id r) p) l).
Proof.
  intros Hg. induction l as [|a l IH]; simpl; [reflexivity|].
  destruct (sql_eq (id a) p) eqn:Ha.
  - rewrite Hg, Ha. simpl. now rewrite IH.
  - now rewrite Ha.
Qed.

Lemma apply_assignment_id (t : task) (a : assignment) :
  id (apply_assignment t a) = id t.
Proof.
  destruct a; simpl; [|reflexivity].
  now destruct (String.eqb column "estHours").
Qed.

Lemma fold_assignments_id (asg : list assignment) (t : task) :
  id (fold_left apply_assignment asg t) = id t.
Proof.
  revert t. induction asg as [|a asg IH]; intros t; simpl; [reflexivity|].
  now rewrite IH, apply_assignment_id.
Qed.

Lemma fold_SetCol_estPrevHours (asg : list assignment) (t : task) :
  Forall is_SetCol asg ->
  estPrevHours (fold_left apply_assignment asg t) = estPrevHours t.
Proof.
  intros H. revert t. induction H as [|a asg Ha _ IH]; intros t; simpl;
    [reflexivity|].
  rewrite IH. destruct a; [|destruct Ha]. simpl.
  now destruct (String.eqb column "estHours").
Qed.

Lemma fold_SetCol_info (asg : list assignment) (t : task) :
  info (fold_left apply_assignment asg t) = info t.
Proof.
  revert t. induction asg as [|a asg IH]; intros t; simpl; [reflexivity|].
  rewrite IH. destruct a; [|reflexivity]. simpl.
  now destruct (String.eqb column "estHours").
Qed.

Lemma updateTask_run (s : store) (taskId : string) (updates : list (string * value))
      (cur : task) (rest : list task) (asg : list assignment) :
  filter (fun r => sql_eq (id r) (VStr taskId)) (tasks s) = cur :: rest ->
  (forall c, collect_updates toISODate allowedUpdates updates c = (Ok asg, c)) ->
  update_fields JSON_stringify updates cur asg <> [] ->
  let fields := update_fields JSON_stringify updates cur asg ++ [SetCol "modifiedAt" now] in
  let u := fold_left apply_assignment fields cur in
  run (updateTask JSON_parse JSON_stringify toISODate now taskId updates) s
  = (Ok match read_back JSON_parse u with
        | Some (e, i) => mkResponse 200 (JTask u e i)
        | None => mkResponse 500 (JError "Failed to update task")
        end,
     mkStore (projects s)
             (map (fun r => if sql_eq (id r) (VStr taskId)
                            then fold_left apply_assignment fields r else r)
                  (tasks s))
             (nextTaskId s)).
Proof.
  intros Hsel Hcol Hne fields u.
  unfold run, updateTask, try_catch, bind, beginTransaction,
    select_tasks_by_id, query; simpl.
  rewrite Hsel, Hcol. fold (update_fields JSON_stringify updates cur asg).
  rewrite (match_nonempty _ _ _ Hne).
  unfold update_task, query; cbn -[fold_left].
  fold fields.
  rewrite (filter_map_update _ _ _ (fold_assignments_id fields)), Hsel.
  cbn -[fold_left]. fold u.
  unfold read_back, parse_json, ret, throw, rollback.
  destruct (estPrevHours u) as [s1|]; [destruct (JSON_parse s1)|];
    try reflexivity;
    (destruct (info u) as [s2|];
     [destruct (JSON_parse (if String.eqb s2 "" then "{}" else s2))|]);
    reflexivity.
Qed.

(** *** DELETE /tasks/:id: what a run does *)

Lemma deleteTask_run (s : store) (taskId : string) (t : task) (rest : list task)
      (f : levelField) :
  filter (fun r => sql_eq (id r) (VStr taskId)) (tasks s) = t :: rest ->
  levelMap (taskLevel t) = Some f ->
  let allTasks :=
    filter (fun r => sql_eq (projectID r) (VNum (projectID t))) (tasks s) in
  let ids := collect_ids f taskId allTasks in
  run (deleteTask taskId) s
  = (Ok (mkResponse 200 (JDeleted (set_size ids))),
     mkStore (projects s)
             (filter (fun r => negb (existsb (sql_eq (id r)) ids)) (tasks s))
             (nextTaskId s)).
Proof.
  intros Hsel Hf allTasks ids.
  unfold run, deleteTask, try_catch, bind, beginTransaction,
    select_tasks_by_id, query; cbn -[collect_ids levelMap].
  rewrite Hsel, Hf.
  unfold select_tasks_by_project, delete_tasks_by_ids, query;
    cbn -[collect_ids]. reflexivity.
Qed.

Lemma deleteTask_run_bad_level (s : store) (taskId : string) (t : task)
      (rest : list task) :
  filter (fun r => sql_eq (id r) (VStr taskId)) (tasks s) = t :: rest ->
  levelMap (taskLevel t) = None ->
  run (deleteTask taskId) s
  = (Ok (mkResponse 400 (JError "Invalid task level")), s).
Proof.
  intros Hsel Hf.
  unfold run, deleteTask, try_catch, bind, beginTransaction,
    select_tasks_by_id, query; cbn -[levelMap].
  now rewrite Hsel, Hf.
Qed.

Lemma drawn_from_add taskId allTasks ids x :
  drawn_from taskId allTasks ids -> In x allTasks ->
  drawn_from taskId allTasks (set_add ids (VNum (id x))).
Proof.
  intros H Hx v Hv. unfold set_add in Hv.
  destruct (set_has ids (VNum (id x))); [now apply H|].
  apply in_app_or in Hv. destruct Hv as [Hv|[<-|[]]]; [now apply H|].
  right. eauto.
Qed.

Lemma fold_drawn_from taskId allTasks (test : list value -> task -> bool)
      (l : list task) (ids : list value) :
  incl l allTasks ->
  drawn_from taskId allTasks ids ->
  drawn_from taskId allTasks
    (fold_left (fun ids task => if test ids task
                                then set_add ids (VNum (id task)) else ids)
               l ids).
Proof.
  revert ids. induction l as [|a l IH]; intros ids Hincl H; simpl; [exact H|].
  apply IH; [intros x Hx; apply Hincl; now right|].
  destruct (test ids a); [|exact H].
  apply drawn_from_add; [exact H|]. apply Hincl. now left.
Qed.

Lemma do_while_drawn_from taskId f allTasks n ids :
  drawn_from taskId allTasks ids ->
  drawn_from taskId allTasks (do_while n f allTasks ids).
Proof.
  revert ids. induction n as [|n IH]; intros ids H; simpl; [exact H|].
  assert (H' : drawn_from taskId allTasks (next_pass f allTasks ids)).
  { unfold next_pass.
    apply (fold_drawn_from taskId allTasks
             (fun ids task => set_has ids (VNum (get_level f task))
                              && negb (set_has ids (VNum (id task)))));
      [apply incl_refl|exact H]. }
  destruct (_ =? _); [exact H'|now apply IH].
Qed.

Lemma collect_ids_drawn_from taskId f allTasks :
  drawn_from taskId allTasks (collect_ids f taskId allTasks).
Proof.
  unfold collect_ids. apply do_while_drawn_from. unfold first_pass.
  apply (fold_drawn_from taskId allTasks
           (fun _ task => loose_eq (get_level f task) (VStr taskId)));
    [apply incl_refl|].
  intros v [<-|[]]. now left.
Qed.

Lemma unique_id_inj (l : list task) (a b : task) :
  NoDup (map id l) -> In a l -> In b l -> id a = id b -> a = b.
Proof.
  induction l as [|x l IH]; intros Hnd Ha Hb Heq; [destruct Ha|].
  simpl in Hnd. inversion Hnd as [|y ys Hnotin Hnd']; subst.
  destruct Ha as [->|Ha], Hb as [->|Hb]; auto.
  - exfalso. apply Hnotin. rewrite Heq. now apply in_map.
  - exfalso. apply Hnotin. rewrite <- Heq. now apply in_map.
Qed.

Lemma filter_filter_keep {A} (P keep : A -> bool) (l : list A) :
  (forall x, In x l -> P x = true -> keep x = true) ->
  filter P (filter keep l) = filter P l.
Proof.
  induction l as [|a l IH]; intros H; simpl; [reflexivity|].
  assert (IH' : filter P (filter keep l) = filter P l)
    by (apply IH; intros x Hx; apply H; now right).
  destruct (P a) eqn:HP.
  - rewrite (H a (or_introl eq_refl) HP). simpl. now rewrite HP, IH'.
  - destruct (keep a); simpl; [rewrite HP|]; exact IH'.
Qed.

(** *** The closure loop stops

    Each round that does not end the loop puts into the set the
    identifier of a row that was not in it, so the rows still outside the
    set become fewer. *)

Lemma filter_length_le {A} (P Q : A -> bool) (l : list A) :
  (forall x, In x l -> P x = true -> Q x = true) ->
  (List.length (filter P l) <= List.length (filter Q l))%nat.
Proof.
  induction l as [|a l IH]; intros H; simpl; [lia|].
  assert (IH' : (List.length (filter P l) <= List.length (filter Q l))%nat)
    by (apply IH; intros x Hx; apply H; now right).
  destruct (P a) eqn:HP.
  - rewrite (H a (or_introl eq_refl) HP). simpl. lia.
  - destruct (Q a); simpl; lia.
Qed.

Lemma filter_length_lt {A} (P Q : A -> bool) (l : list A) (a : A) :
  (forall x, In x l -> P x = true -> Q x = true) ->
  In a l -> P a = false -> Q a = true ->
  (List.length (filter P l) < List.length (filter Q l))%nat.
Proof.
  induction l as [|b l IH]; intros H Ha HP HQ; [destruct Ha|]. simpl.
  assert (Hle : (List.length (filter P l) <= List.length (filter Q l))%nat)
    by (apply filter_length_le; intros x Hx; apply H; now right).
  destruct Ha as [->|Ha].
  - rewrite HP, HQ. simpl. lia.
  - assert (IH' : (List.length (filter P l) < List.length (filter Q l))%nat)
      by (apply IH; auto; intros x Hx; apply H; now right).
    destruct (P b) eqn:HPb.
    + rewrite (H b (or_introl eq_refl) HPb). simpl. lia.
    + destruct (Q b); simpl; lia.
Qed.

Lemma set_has_app (s : list value) (v w : value) :
  set_has (s ++ [v]) w = set_has s w || same_value_zero w v.
Proof.
  unfold set_has. rewrite existsb_app. simpl. now rewrite orb_false_r.
Qed.

Lemma outside_add_lt (allTasks : list task) (ids : list value) (a : task) :
  In a allTasks -> set_has ids (VNum (id a)) = false ->
  (outside allTasks (ids ++ [VNum (id a)]) < outside allTasks ids)%nat.
Proof.
  intros Ha Hnot. unfold outside.
  apply filter_length_lt with (a := a); auto.
  - intros x _ Hx. rewrite set_has_app in Hx.
    apply negb_true_iff, orb_false_iff in Hx. apply negb_true_iff, Hx.
  - rewrite set_has_app. simpl. now rewrite Z.eqb_refl, orb_true_r.
  - now rewrite Hnot.
Qed.

Lemma fold_outside (allTasks : list task) (test : list value -> task -> bool)
      (l : list task) (ids : list value) :
  incl l allTasks ->
  let ids' := fold_left (fun ids task => if test ids task
                                         then set_add ids (VNum (id task)) else ids)
                        l ids in
  (List.length ids <= List.length ids')%nat /\
  (outside allTasks ids' <= outside allTasks ids)%nat /\
  (List.length ids' <> List.length ids ->
   (outside allTasks ids' < outside allTasks ids)%nat).
Proof.
  revert ids. induction l as [|a l IH]; intros ids Hincl; simpl.
  - repeat split; try lia.
  - assert (Ha : In a allTasks) by (apply Hincl; now left).
    assert (Hl : incl l allTasks) by (intros x Hx; apply Hincl; now right).
    set (ids1 := if test ids a then set_add ids (VNum (id a)) else ids).
    specialize (IH ids1 Hl). cbv zeta in IH. destruct IH as [IH1 [IH2 IH3]].
    assert (Hstep : ids1 = ids \/
                    (set_has ids (VNum (id a)) = false /\
                     ids1 = ids ++ [VNum (id a)])).
    { subst ids1. destruct (test ids a); [|now left]. unfold set_add.
      destruct (set_has ids (VNum (id a))); [now left|now right]. }
    destruct Hstep as [Heq|[Hnot Heq]]; rewrite Heq in *.
    + repeat split; auto.
    + pose proof (outside_add_lt allTasks ids a Ha Hnot) as Hlt.
      rewrite length_app in IH1. simpl in IH1.
      repeat split; try lia.
Qed.

Lemma next_pass_outside (f : levelField) (allTasks : list task) (ids : list value) :
  set_size ids <> set_size (next_pass f allTasks ids) ->
  (outside allTasks (next_pass f allTasks ids) < outside allTasks ids)%nat.
Proof.
  intros Hsize. unfold next_pass in *.
  destruct (fold_outside allTasks
              (fun ids task => set_has ids (VNum (get_level f task))
                               && negb (set_has ids (VNum (id task))))
              allTasks ids (incl_refl _)) as [_ [_ H]].
  apply H. unfold set_size in Hsize. lia.
Qed.

Lemma do_while_enough (f : levelField) (allTasks : list task) (n : nat) :
  forall ids k,
    (outside allTasks ids < n)%nat ->
    do_while (n + k) f allTasks ids = do_while n f allTasks ids.
Proof.
  induction n as [|n IH]; intros ids k Hlt; [lia|]. simpl.
  destruct (Z.eqb_spec (set_size ids) (set_size (next_pass f allTasks ids)))
    as [Heq|Hne]; [reflexivity|].
  apply IH. pose proof (next_pass_outside f allTasks ids Hne). lia.
Qed.

Lemma do_while_stops_within (f : levelField) (allTasks : list task) (k : nat) :
  forall ids,
    (outside allTasks ids < k)%nat ->
    exists n,
      (n < k)%nat /\
      stops_in_round n f allTasks ids /\
      forall rounds, (n < rounds)%nat ->
                     do_while rounds f allTasks ids
                     = after_rounds (S n) f allTasks ids.
Proof.
  induction k as [|k IH]; intros ids Hlt; [lia|].
  destruct (Z.eqb_spec (set_size ids) (set_size (next_pass f allTasks ids)))
    as [Heq|Hne].
  - exists O. split; [lia|]. split; [split|].
    + exact Heq.
    + intros m Hm. lia.
    + intros [|r] Hr; [lia|]. simpl.
      apply Z.eqb_eq in Heq. now rewrite Heq.
  - pose proof (next_pass_outside f allTasks ids Hne) as Hless.
    destruct (IH (next_pass f allTasks ids)) as (n & Hn & [Hstop Hbefore] & Hrun);
      [lia|].
    exists (S n). split; [lia|]. split; [split|].
    + exact Hstop.
    + intros [|m] Hm; [exact Hne|]. apply (Hbefore m). lia.
    + intros [|r] Hr; [lia|]. simpl.
      apply Z.eqb_neq in Hne. rewrite Hne. apply Hrun. lia.
Qed.

(** X3: the closure loop ends by its own test within [length allTasks + 1]
    rounds.  There is a round, the first of its kind and not later than
    that, whose pass leaves the size of the set as it was, so that the
    test [currentSize !== idsToDelete.size] ends the loop there; and
    [do_while], allowed that many rounds or more, returns the set of that
    round. *)
Theorem do_while_stops (f : levelField) (allTasks : list task) (ids : list value) :
  exists n,
    (n <= List.length allTasks)%nat /\
    stops_in_round n f allTasks ids /\
    forall rounds, (n < rounds)%nat ->
                   do_while rounds f allTasks ids
                   = after_rounds (S n) f allTasks ids.
Proof.
  destruct (do_while_stops_within f allTasks (S (List.length allTasks)) ids)
    as (n & Hn & Hstop & Hrun).
  - unfold outside.
    pose proof (filter_length_le (fun x => negb (set_has ids (VNum (id x))))
                                 (fun _ => true) allTasks (fun _ _ _ => eq_refl)) as H.
    rewrite (filter_all (fun _ => true)) in H by reflexivity. lia.
  - exists n. split; [lia|]. split; [exact Hstop|exact Hrun].
Qed.

(** [buildTaskHierarchy] needs no more than its four levels. *)
Lemma build_depth_enough (allTasks : list task) (k : nat) (parentId level : Z) :
  build JSON_parse (4 + k) allTasks parentId level
  = build JSON_parse 4 allTasks parentId level.
Proof.
  cbn [Nat.add build].
  apply map_ext. intros t1.
  destruct (level =? 1); [|destruct (level =? 2); [|destruct (level =? 3)]];
    try reflexivity.
Qed.

(** *** DELETE /tasks/:id on an unknown identifier *)

(** C9: when no row of [tasks] has the identifier of the request,
    [deleteTask] answers 404 "Task not found" and the store is the one it
    started from. *)
Theorem deleteTask_unknown_id (s : store) (taskId : string) :
  (forall t, In t (tasks s) -> sql_eq (id t) (VStr taskId) = false) ->
  run (deleteTask taskId) s
  = (Ok (mkResponse 404 (JError "Task not found")), s).
Proof.
  intros Hnone.
  unfold run, deleteTask, try_catch, bind, beginTransaction,
    select_tasks_by_id, query; simpl.
  rewrite (filter_none _ _ Hnone). reflexivity.
Qed.

(** *** DELETE /projects/:id *)

(** C8: [deleteProject] is all-or-nothing.  On a connection of the pool
    it either finds the project row, and ends with the store without the
    tasks of the project and without the project row, committed; or it
    finds none, answers 404 and ends on the store it started from: the
    deletion of the tasks, pending in the transaction, is rolled back.
    Either way the connection ends as it came from the pool, with no
    transaction open and nothing pending. *)
Theorem deleteProject_all_or_nothing (s : store) (projectId : string) :
  deleteProject projectId (pooled s)
  = if existsb (fun p => sql_eq (p_id p) (VStr projectId)) (projects s)
    then (Ok (mkResponse 200 JSuccess),
          pooled
            (mkStore
               (filter (fun p => negb (sql_eq (p_id p) (VStr projectId))) (projects s))
               (filter (fun t => negb (sql_eq (projectID t) (VStr projectId))) (tasks s))
               (nextTaskId s)))
    else (Ok (mkResponse 404 (JError "Project not found")), pooled s).
Proof.
  unfold deleteProject, try_catch, bind, beginTransaction,
    delete_tasks_by_project, delete_project_by_id, query, pooled, written; simpl.
  destruct (existsb _ (projects s)) eqn:E.
  - apply existsb_exists in E. destruct E as [p [Hin Hp]].
    destruct (filter_some (fun q => sql_eq (p_id q) (VStr projectId)) _ _ Hin Hp)
      as [a [r Hf]].
    rewrite Hf. simpl List.length.
    replace (Z.of_nat (S (List.length r)) =? 0) with false
      by (symmetry; apply Z.eqb_neq; lia).
    reflexivity.
  - rewrite filter_none; [reflexivity|].
    intros x Hx. destruct (sql_eq (p_id x) (VStr projectId)) eqn:Ex; [|reflexivity].
    rewrite <- E. symmetry. apply existsb_exists. eauto.
Qed.

(** *** POST /tasks *)



(** C6: the row a successful [createTask] produces at a level L > 1
    under an existing parent P has, for every K < L, P's stored
    [level{K}ID], or, where that is 0, P's identifier when P is at level
    K (and 0 otherwise, which again is P's stored value).  The parent is
    the row whose identifier the [parentID] of the request reads as. *)
Theorem createTask_inherits_ancestors (s s' : store) (input : taskInput)
        (row P : task) (e i : value) :
  fresh_ids s ->
  unique_ids s ->
  run (createTask JSON_parse JSON_stringify now input) s
  = (Ok (mkResponse 201 (JTask row e i)), s') ->
  1 < taskLevel row ->
  In P (tasks s) ->
  to_number (req_parentID input) = Some (id P) ->
  forall g,
    level_of g < taskLevel row ->
    get_level g row
    = num_or (get_level g P) (if taskLevel P =? level_of g then id P else 0)
    /\ (get_level g row = get_level g P
        \/ (taskLevel P = level_of g /\ get_level g row = id P)).
Proof.
  intros Hfresh Huniq Hrun HL HP Hpar g Hg.
  destruct (createTask_created s s' input row e i Hfresh Hrun)
    as (levels & L' & P' & Hlv & HL' & HP' & Hrow & Htasks).
  assert (Hlevel : taskLevel row = L')
    by (rewrite Hrow; apply created_row_taskLevel).
  subst L'. unfold stored_level in HL'.
  assert (HidP : id P <> 0) by (apply Hfresh in HP; lia).
  unfold levels_for in Hlv.
  rewrite (int_column_gt _ _ HL' HL), (to_number_truthy _ _ Hpar HidP) in Hlv.
  simpl in Hlv.
  rewrite (select_unique (tasks s) P (req_parentID input) Huniq HP Hpar) in Hlv.
  inversion Hlv; subst levels.
  assert (Hstrict : strict_eq (req_taskLevel input) (level_of g) = false).
  { unfold strict_eq. destruct (req_taskLevel input) as [| |b|n|w|xs|fs];
      try reflexivity.
    simpl in HL'. inversion HL'. apply Z.eqb_neq. lia. }
  assert (Heq : get_level g row
                = num_or (get_level g P)
                         (if taskLevel P =? level_of g then id P else 0)).
  { rewrite Hrow at 1. rewrite created_row_level, Hstrict.
    now apply inherit_levels_other. }
  split; [exact Heq|].
  rewrite Heq. unfold num_or.
  destruct (Z.eqb_spec (get_level g P) 0) as [Hz|Hz]; [|now left].
  destruct (Z.eqb_spec (taskLevel P) (level_of g)) as [Hk|Hk].
  - right. split; [exact Hk|reflexivity].
  - left. now rewrite Hz.
Qed.

(** *** PUT /tasks/:id *)

(** C4, amended: when the request gives [estHours], the task it names
    (the row the lookup returns) is at a level above 1 and the [dueDate]
    of the request, if it gives one that is not empty, is a date the
    runtime formats, every row with that identifier holds, after the
    update, the serialized one-element array of the estimate the task had
    before, whatever [estPrevHours] held. *)
Theorem updateTask_replaces_estPrevHours (s : store) (taskId : string)
        (updates : list (string * value)) (cur : task) (rest : list task) :
  filter (fun r => sql_eq (id r) (VStr taskId)) (tasks s) = cur :: rest ->
  is_undefined (lookup "estHours" updates) = false ->
  1 < taskLevel cur ->
  dueDate_ok toISODate updates ->
  let s' := snd (run (updateTask JSON_parse JSON_stringify toISODate now
                                 taskId updates) s) in
  (exists r', In r' (tasks s') /\ sql_eq (id r') (VStr taskId) = true) /\
  (forall r', In r' (tasks s') -> sql_eq (id r') (VStr taskId) = true ->
              estPrevHours r' = Some (JSON_stringify (VArr [estHours cur]))).
Proof.
  intros Hsel Hest Hlevel Hdate s'.
  destruct (collect_updates_ok updates allowedUpdates Hdate) as [asg [Hcol [Hall _]]].
  assert (Hfields : update_fields JSON_stringify updates cur asg
                    = asg ++ [SetEstPrevHours (JSON_stringify (VArr [estHours cur]))]).
  { unfold update_fields. rewrite Hest.
    replace (1 <? taskLevel cur) with true by (symmetry; now apply Z.ltb_lt).
    reflexivity. }
  assert (Hne : update_fields JSON_stringify updates cur asg <> []).
  { rewrite Hfields. intros H. now apply app_eq_nil in H as [_ H]. }
  pose proof (updateTask_run s taskId updates cur rest asg Hsel Hcol Hne) as Hrun.
  cbv zeta in Hrun. subst s'. rewrite Hrun. cbn [snd tasks].
  assert (Hcur : In cur (tasks s) /\ sql_eq (id cur) (VStr taskId) = true).
  { apply (filter_In (fun r => sql_eq (id r) (VStr taskId))).
    rewrite Hsel. now left. }
  split.
  - exists (fold_left apply_assignment
                      (update_fields JSON_stringify updates cur asg ++ [SetCol "modifiedAt" now]) cur).
    split.
    + apply in_map_iff. exists cur. destruct Hcur as [Hin Hid].
      rewrite Hid. auto.
    + rewrite fold_assignments_id. apply Hcur.
  - intros r' Hin Hid. apply in_map_iff in Hin. destruct Hin as [r [Hr Hin]].
    destruct (sql_eq (id r) (VStr taskId)) eqn:Hrid.
    + subst r'. rewrite Hfields, <- app_assoc, fold_left_app. simpl.
      unfold set_cols; simpl. reflexivity.
    + subst r'. congruence.
Qed.

(** C7 at the read-back of [updateTask]: when the stored [estPrevHours]
    of the task is a text [JSON.parse] rejects, an update of other fields
    is answered 500 "Failed to update task": the decode failure reaches
    the caller. *)
Theorem updateTask_surfaces_decode_failure (s : store) (taskId : string)
        (updates : list (string * value)) (cur : task) (rest : list task)
        (text field : string) :
  filter (fun r => sql_eq (id r) (VStr taskId)) (tasks s) = cur :: rest ->
  estPrevHours cur = Some text ->
  JSON_parse text = None ->
  In field allowedUpdates ->
  is_undefined (lookup field updates) = false ->
  is_undefined (lookup "estHours" updates) = true ->
  dueDate_ok toISODate updates ->
  fst (run (updateTask JSON_parse JSON_stringify toISODate now taskId updates) s)
  = Ok (mkResponse 500 (JError "Failed to update task")).
Proof.
  intros Hsel Htext Hbad Hfield Hgiven Hest Hdate.
  destruct (collect_updates_ok updates allowedUpdates Hdate) as [asg [Hcol [Hall Hne]]].
  assert (Hfields : update_fields JSON_stringify updates cur asg = asg).
  { unfold update_fields. now rewrite Hest. }
  assert (Hne' : update_fields JSON_stringify updates cur asg <> []).
  { rewrite Hfields. eapply Hne; eauto. }
  pose proof (updateTask_run s taskId updates cur rest asg Hsel Hcol Hne') as Hrun.
  cbv zeta in Hrun. rewrite Hrun. cbn [fst].
  unfold read_back. rewrite fold_SetCol_estPrevHours, Htext, Hbad; [reflexivity|].
  rewrite Hfields. apply Forall_app. split; [exact Hall|].
  constructor; [exact I|constructor].
Qed.

(** The same holds for a stored [info] that [JSON.parse] rejects, when the
    stored [estPrevHours] decodes. *)
Lemma updateTask_surfaces_info_failure (s : store) (taskId : string)
      (updates : list (string * value)) (cur : task) (rest : list task)
      (text field : string) :
  filter (fun r => sql_eq (id r) (VStr taskId)) (tasks s) = cur :: rest ->
  estPrevHours cur = None ->
  info cur = Some text ->
  text <> ""%string ->
  JSON_parse text = None ->
  In field allowedUpdates ->
  is_undefined (lookup field updates) = false ->
  is_undefined (lookup "estHours" updates) = true ->
  dueDate_ok toISODate updates ->
  fst (run (updateTask JSON_parse JSON_stringify toISODate now taskId updates) s)
  = Ok (mkResponse 500 (JError "Failed to update task")).
Proof.
  intros Hsel Hprev Hinfo Hne0 Hbad Hfield Hgiven Hest Hdate.
  destruct (collect_updates_ok updates allowedUpdates Hdate) as [asg [Hcol [Hall Hne]]].
  assert (Hfields : update_fields JSON_stringify updates cur asg = asg).
  { unfold update_fields. now rewrite Hest. }
  assert (Hne' : update_fields JSON_stringify updates cur asg <> []).
  { rewrite Hfields. eapply Hne; eauto. }
  pose proof (updateTask_run s taskId updates cur rest asg Hsel Hcol Hne') as Hrun.
  cbv zeta in Hrun. rewrite Hrun. cbn [fst].
  unfold read_back. rewrite fold_SetCol_estPrevHours, Hprev, fold_SetCol_info, Hinfo.
  - replace (String.eqb text "") with false
      by (symmetry; now apply String.eqb_neq).
    now rewrite Hbad.
  - rewrite Hfields. apply Forall_app. split; [exact Hall|].
    constructor; [exact I|constructor].
Qed.

(** The decoding helper of the other read paths falls back to the
    default on the same texts. *)
Lemma safeJsonParse_malformed (text : string) (d : value) :
  JSON_parse text = None ->
  safeJsonParse JSON_parse (VStr text) d = d.
Proof.
  intros H. unfold safeJsonParse. rewrite H. now destruct (String.eqb _ _).
Qed.

Lemma safeJsonParse_blank (text : string) (d : value) :
  trim text = ""%string ->
  safeJsonParse JSON_parse (VStr text) d = d.
Proof. intros H. unfold safeJsonParse. now rewrite H. Qed.

Lemma decode_row_malformed (t : task) (text : string) :
  estPrevHours t = Some text ->
  JSON_parse text = None ->
  snd (fst (decode_row JSON_parse t)) = VArr [].
Proof.
  intros H1 H2. unfold decode_row. rewrite H1. cbn [fst snd col_value].
  rewrite (safeJsonParse_malformed _ _ H2). now destruct (truthy _).
Qed.

(** *** DELETE /tasks/:id: the rows of other projects *)

(** C10: with identifiers a primary key, [deleteTask] on a task of the
    table leaves the rows of every other project, and the projects, as
    they were, whatever their ancestor columns hold. *)
Theorem deleteTask_other_projects_unchanged (s : store) (taskId : string)
        (t : task) (rest : list task) :
  unique_ids s ->
  filter (fun r => sql_eq (id r) (VStr taskId)) (tasks s) = t :: rest ->
  let s' := snd (run (deleteTask taskId) s) in
  filter (fun r => negb (projectID r =? projectID t)) (tasks s')
  = filter (fun r => negb (projectID r =? projectID t)) (tasks s)
  /\ projects s' = projects s.
Proof.
  intros Huniq Hsel s'.
  destruct (levelMap (taskLevel t)) as [f|] eqn:Hf.
  - pose proof (deleteTask_run s taskId t rest f Hsel Hf) as Hrun.
    cbv zeta in Hrun. subst s'. rewrite Hrun. cbn [snd tasks projects].
    split; [|reflexivity].
    apply filter_filter_keep. intros r Hr Hother.
    apply negb_true_iff, Z.eqb_neq in Hother.
    apply negb_true_iff.
    destruct (existsb (sql_eq (id r)) _) eqn:Hex; [|reflexivity].
    exfalso. apply existsb_exists in Hex. destruct Hex as [v [Hv Heq]].
    assert (Ht : In t (tasks s) /\ sql_eq (id t) (VStr taskId) = true).
    { apply (filter_In (fun r => sql_eq (id r) (VStr taskId))).
      rewrite Hsel. now left. }
    destruct (collect_ids_drawn_from taskId f _ v Hv) as [->|[x [Hx ->]]].
    + destruct Ht as [Hin Hid]. unfold sql_eq in Heq, Hid.
      destruct (to_number (VStr taskId)); [|discriminate].
      apply Z.eqb_eq in Heq, Hid.
      apply Hother. f_equal.
      apply (unique_id_inj (tasks s)); auto. congruence.
    + apply filter_In in Hx. destruct Hx as [Hx Hproj].
      rewrite sql_eq_num in Heq, Hproj. apply Z.eqb_eq in Heq, Hproj.
      apply Hother. rewrite <- Hproj. f_equal.
      apply (unique_id_inj (tasks s)); auto.
  - subst s'. rewrite (deleteTask_run_bad_level s taskId t rest Hsel Hf).
    split; reflexivity.
Qed.

End Properties.

(** ** Nesting a flat table: the round trip *)

Section RoundTrip.

Variable JSON_parse : string -> option value.


Lemma sub_app p lvl T1 T2 : sub p lvl (T1 ++ T2) = sub p lvl T1 ++ sub p lvl T2.
Proof. apply filter_app. Qed.

Lemma flatten_cons nd tree : flatten (nd :: tree) = flatten_node nd ++ flatten tree.
Proof. reflexivity. Qed.

Lemma flatten_app t1 t2 : flatten (t1 ++ t2) = flatten t1 ++ flatten t2.
Proof. apply flat_map_app. Qed.

Lemma flatten_node_kids level parent nd :
  node_ok JSON_parse level parent nd ->
  flatten_node nd = td_task nd :: flatten (kids level nd).
Proof.
  intros (_ & _ & _ & _ & _ & Hshape).
  destruct nd as [row i e inf subs acts subacts]. unfold kids in *. simpl in *.
  destruct (level =? 1); [|destruct (level =? 2); [|destruct (level =? 3)]];
    inversion Hshape; subst; simpl; rewrite ?app_nil_r; reflexivity.
Qed.

Lemma wf_cons h level parent nd tree :
  wf JSON_parse (S h) level parent (nd :: tree) <->
  node_ok JSON_parse level parent nd /\
  wf JSON_parse h (level + 1) (id (td_task nd)) (kids level nd) /\
  wf JSON_parse (S h) level parent tree.
Proof.
  simpl. split.
  - intros H. inversion H; subst. tauto.
  - intros (H1 & H2 & H3). constructor; auto.
Qed.

Lemma wf_app h level parent t1 t2 :
  wf JSON_parse (S h) level parent (t1 ++ t2) ->
  wf JSON_parse (S h) level parent t1 /\ wf JSON_parse (S h) level parent t2.
Proof. simpl. intros H. now apply Forall_app in H. Qed.

(** The rows of a forest lie at its level or below. *)
Lemma wf_levels h : forall level parent tree r,
    wf JSON_parse h level parent tree -> In r (flatten tree) -> level <= taskLevel r.
Proof.
  induction h as [|h IH]; intros level parent tree r Hwf Hr.
  - simpl in Hwf. subst tree. destruct Hr.
  - induction tree as [|nd tree IHt]; [destruct Hr|].
    apply wf_cons in Hwf. destruct Hwf as (Hnd & Hkids & Htree).
    rewrite flatten_cons in Hr. apply in_app_or in Hr.
    destruct Hr as [Hr|Hr]; [|now apply IHt].
    rewrite (flatten_node_kids _ _ _ Hnd) in Hr.
    destruct Hr as [<-|Hr].
    + destruct Hnd as (Hl & _). lia.
    + specialize (IH _ _ _ _ Hkids Hr). lia.
Qed.

(** The roots of a forest are the rows of its level under its parent. *)
Lemma sub_roots h level parent tree :
  wf JSON_parse h level parent tree ->
  sub parent level (flatten tree) = map td_task tree.
Proof.
  destruct h as [|h]; [simpl; now intros ->|].
  induction tree as [|nd tree IHt]; intros Hwf; [reflexivity|].
  apply wf_cons in Hwf. destruct Hwf as (Hnd & Hkids & Htree).
  rewrite flatten_cons, sub_app, (flatten_node_kids _ _ _ Hnd), IHt by exact Htree.
  simpl. destruct Hnd as (Hl & Hp & _). rewrite Hl, Hp, !Z.eqb_refl. simpl.
  f_equal. replace (sub parent level (flatten (kids level nd))) with (@nil task);
    [reflexivity|].
  symmetry. apply filter_none. intros r Hr.
  pose proof (wf_levels _ _ _ _ _ Hkids Hr).
  replace (taskLevel r =? level) with false by (symmetry; apply Z.eqb_neq; lia).
  apply andb_false_r.
Qed.

(** The rows at the level of a forest are its roots. *)
Lemma wf_root_parent h level parent tree r :
  wf JSON_parse h level parent tree -> In r (flatten tree) -> taskLevel r = level ->
  parentID r = parent.
Proof.
  destruct h as [|h]; [simpl; intros ->; intros []|].
  induction tree as [|nd tree IHt]; intros Hwf Hr Hlev; [destruct Hr|].
  apply wf_cons in Hwf. destruct Hwf as (Hnd & Hkids & Htree).
  rewrite flatten_cons in Hr. apply in_app_or in Hr.
  destruct Hr as [Hr|Hr]; [|now apply IHt].
  rewrite (flatten_node_kids _ _ _ Hnd) in Hr.
  destruct Hr as [<-|Hr]; [apply Hnd|].
  pose proof (wf_levels _ _ _ _ _ Hkids Hr). lia.
Qed.

(** Below the roots, every row has its parent among the rows. *)
Lemma wf_parent h : forall level parent tree r,
    wf JSON_parse h level parent tree -> In r (flatten tree) ->
    taskLevel r = level \/
    exists d, In d (flatten tree) /\ id d = parentID r /\ taskLevel d + 1 = taskLevel r.
Proof.
  induction h as [|h IH]; intros level parent tree r Hwf Hr.
  - simpl in Hwf. subst tree. destruct Hr.
  - induction tree as [|nd tree IHt]; [destruct Hr|].
    apply wf_cons in Hwf. destruct Hwf as (Hnd & Hkids & Htree).
    rewrite flatten_cons in *. apply in_app_or in Hr.
    destruct Hr as [Hr|Hr].
    + rewrite (flatten_node_kids _ _ _ Hnd) in *.
      destruct Hr as [<-|Hr]; [left; apply Hnd|].
      right.
      destruct (IH _ _ _ _ Hkids Hr) as [Hlev|[d (Hd & Hid & Hlv)]].
      * exists (td_task nd). split; [now left|].
        rewrite (wf_root_parent _ _ _ _ _ Hkids Hr Hlev).
        destruct Hnd as (Hl & _). split; [reflexivity|lia].
      * exists d. split; [|auto]. apply in_or_app. left. now right.
    + destruct (IHt Htree Hr) as [Hlev|[d (Hd & Hid & Hlv)]]; [now left|].
      right. exists d. split; [|auto]. apply in_or_app. now right.
Qed.

Lemma NoDup_ids_apart (l1 l2 : list task) (a b : task) :
  NoDup (map id (l1 ++ l2)) -> In a l1 -> In b l2 -> id a <> id b.
Proof.
  rewrite map_app. intros Hnd Ha Hb Heq.
  induction l1 as [|x l1 IH]; [destruct Ha|].
  simpl in Hnd. inversion Hnd as [|y ys Hnotin Hnd']; subst.
  destruct Ha as [->|Ha]; [|now apply IH].
  apply Hnotin, in_or_app. right. rewrite Heq. now apply in_map.
Qed.

Lemma NoDup_ids_app (l1 l2 : list task) :
  NoDup (map id (l1 ++ l2)) -> NoDup (map id l1) /\ NoDup (map id l2).
Proof.
  rewrite map_app. intros H. split.
  - eapply NoDup_app_remove_r, H.
  - eapply NoDup_app_remove_l, H.
Qed.

(** A forest holds no child of a row that lies at its level or below and
    shares its identifier with none of its rows. *)
Lemma sub_outside h level parent tree (d : task) :
  wf JSON_parse h level parent tree ->
  level <= taskLevel d ->
  (forall d', In d' (flatten tree) -> id d' <> id d) ->
  sub (id d) (taskLevel d + 1) (flatten tree) = [].
Proof.
  intros Hwf Hlev Hapart. apply filter_none. intros r Hr.
  destruct ((parentID r =? id d) && (taskLevel r =? taskLevel d + 1)) eqn:E;
    [|reflexivity].
  exfalso. apply andb_true_iff in E. destruct E as [Hp Hl].
  apply Z.eqb_eq in Hp, Hl.
  destruct (wf_parent _ _ _ _ _ Hwf Hr) as [Hroot|[d' (Hd' & Hid & _)]]; [lia|].
  apply (Hapart d' Hd'). congruence.
Qed.

(** Inside a forest with identifiers of their own, the children of a row
    are found in the tree of its root. *)
Lemma sub_within h level parent tree nd d :
  wf JSON_parse (S h) level parent tree ->
  NoDup (map id (flatten tree)) ->
  In nd tree -> In d (flatten_node nd) ->
  sub (id d) (taskLevel d + 1) (flatten tree)
  = sub (id d) (taskLevel d + 1) (flatten_node nd).
Proof.
  intros Hwf Hnd Hin Hd.
  destruct (in_split _ _ Hin) as [t1 [t2 ->]].
  apply wf_app in Hwf. destruct Hwf as [Hwf1 Hwf2].
  pose proof Hwf2 as Hwf2'. apply wf_cons in Hwf2'.
  destruct Hwf2' as (Hnode & Hkids & Hwf3).
  assert (Hlev : level <= taskLevel d).
  { apply (wf_levels (S h) level parent [nd]).
    - apply wf_cons. split; [exact Hnode|]. split; [exact Hkids|constructor].
    - rewrite flatten_cons. apply in_or_app. now left. }
  rewrite flatten_app, flatten_cons in *. rewrite !sub_app.
  rewrite (sub_outside (S h) level parent t1 d Hwf1 Hlev).
  - rewrite (sub_outside (S h) level parent t2 d Hwf3 Hlev).
    + now rewrite app_nil_r.
    + intros d' Hd' Heq. apply NoDup_ids_app in Hnd. destruct Hnd as [_ Hnd].
      apply (NoDup_ids_apart _ _ d d' Hnd Hd Hd'). now symmetry.
  - intros d' Hd'.
    apply (NoDup_ids_apart _ _ d' d Hnd Hd'). apply in_or_app. now left.
Qed.

Lemma in_flatten tree nd d :
  In nd tree -> In d (flatten_node nd) -> In d (flatten tree).
Proof. intros H1 H2. apply in_flat_map. eauto. Qed.

Lemma NoDup_kids h level parent tree nd :
  wf JSON_parse (S h) level parent tree ->
  NoDup (map id (flatten tree)) ->
  In nd tree ->
  NoDup (map id (flatten (kids level nd))).
Proof.
  intros Hwf Hnd Hin.
  destruct (in_split _ _ Hin) as [t1 [t2 ->]].
  apply wf_app in Hwf. destruct Hwf as [_ Hwf].
  apply wf_cons in Hwf. destruct Hwf as (Hnode & _).
  rewrite flatten_app, flatten_cons, (flatten_node_kids _ _ _ Hnode) in Hnd.
  apply NoDup_ids_app in Hnd. destruct Hnd as [_ Hnd].
  apply NoDup_ids_app in Hnd. destruct Hnd as [Hnd _].
  simpl in Hnd. now inversion Hnd.
Qed.

Lemma sub_skip_root p lvl (row : task) (rows : list task) :
  taskLevel row <> lvl -> sub p lvl (row :: rows) = sub p lvl rows.
Proof.
  intros H. unfold sub. simpl.
  replace (taskLevel row =? lvl) with false by (symmetry; now apply Z.eqb_neq).
  now rewrite andb_false_r.
Qed.

(** [build] gives back a forest when the table holds, for the parent of
    the forest and for each of its rows, the children the forest has. *)
Lemma build_ok (n : nat) : forall (parent : Z) (tree : list taskData) (T : list task),
    wf JSON_parse n (5 - Z.of_nat n) parent tree ->
    NoDup (map id (flatten tree)) ->
    sub parent (5 - Z.of_nat n) T = map td_task tree ->
    (forall d, In d (flatten tree) ->
               sub (id d) (taskLevel d + 1) T
               = sub (id d) (taskLevel d + 1) (flatten tree)) ->
    build JSON_parse n T parent (5 - Z.of_nat n) = tree.
Proof.
  induction n as [|n IH]; intros parent tree T Hwf Hnd Hroots Hrows.
  - simpl in *. now subst tree.
  - set (L := 5 - Z.of_nat (S n)) in *.
    assert (HL : 5 - Z.of_nat n = L + 1) by (subst L; lia).
    cbn [build]. fold (sub parent L T). rewrite Hroots, map_map.
    rewrite <- (map_id tree) at 2. apply map_ext_in. intros nd Hin.
    assert (Hnode : node_ok JSON_parse L parent nd /\
                    wf JSON_parse n (L + 1) (id (td_task nd)) (kids L nd)).
    { simpl in Hwf. rewrite Forall_forall in Hwf. now apply Hwf. }
    destruct Hnode as [Hnode Hkids].
    assert (Hflat := flatten_node_kids _ _ _ Hnode).
    assert (Hrow : In (td_task nd) (flatten_node nd))
      by (rewrite Hflat; now left).
    assert (Hlev : taskLevel (td_task nd) = L) by apply Hnode.
    assert (Hchildren : build JSON_parse n T (id (td_task nd)) (L + 1) = kids L nd).
    { rewrite <- HL in *. apply IH.
      - exact Hkids.
      - eapply NoDup_kids; eauto.
      - rewrite <- (sub_roots _ _ _ _ Hkids), HL, <- Hlev.
        rewrite (Hrows _ (in_flatten _ _ _ Hin Hrow)).
        rewrite (sub_within _ _ _ _ _ _ Hwf Hnd Hin Hrow), Hflat.
        rewrite Hlev. apply sub_skip_root. lia.
      - intros d Hd.
        assert (Hd' : In d (flatten_node nd)) by (rewrite Hflat; now right).
        rewrite (Hrows _ (in_flatten _ _ _ Hin Hd')).
        rewrite (sub_within _ _ _ _ _ _ Hwf Hnd Hin Hd'), Hflat.
        apply sub_skip_root.
        pose proof (wf_levels _ _ _ _ _ Hkids Hd). lia. }
    destruct Hnode as (_ & _ & Hid & He & Hi & Hshape).
    destruct nd as [row i e inf subs acts subacts].
    cbn [td_task td_id td_estPrevHours td_info subtasks actionItems
         subactionItems] in *.
    rewrite <- Hid, <- He, <- Hi.
    destruct (Z.eqb_spec L 1) as [H1|H1].
    + rewrite H1 in Hchildren. simpl in Hchildren. rewrite Hchildren.
      inversion Hshape. subst. now rewrite H1.
    + destruct (Z.eqb_spec L 2) as [H2|H2].
      * rewrite H2 in Hchildren. simpl in Hchildren. rewrite Hchildren.
        inversion Hshape. subst. now rewrite H2.
      * destruct (Z.eqb_spec L 3) as [H3|H3].
        -- rewrite H3 in Hchildren. simpl in Hchildren. rewrite Hchildren.
           inversion Hshape. subst. now rewrite H3.
        -- inversion Hshape. now subst.
Qed.

(** *** The round trip *)

(** C5: nesting the rows of a well-formed 4-level tree, from parent 0 at
    level 1, gives the tree back. *)
Theorem buildTaskHierarchy_flatten (tree : list taskData) :
  well_formed JSON_parse tree ->
  buildTaskHierarchy JSON_parse (flatten tree) 0 1 = tree.
Proof.
  intros [Hwf Hnd]. unfold buildTaskHierarchy.
  apply (build_ok 4 0 tree (flatten tree) Hwf Hnd).
  - exact (sub_roots 4 1 0 tree Hwf).
  - reflexivity.
Qed.

End RoundTrip.

(** ** DELETE /tasks/:id: the rows removed and the count returned *)

Section DeletedCount.

Variable taskId : string.
Variable allTasks : list task.

Lemma mem_In (k : Z) (ks : list Z) : mem k ks = true <-> In k ks.
Proof.
  unfold mem. rewrite existsb_exists. split.
  - intros [x [Hx Heq]]. apply Z.eqb_eq in Heq. now subst.
  - intros H. exists k. split; [exact H|apply Z.eqb_refl].
Qed.

Lemma set_has_numbers (ks : list Z) (k : Z) :
  set_has (VStr taskId :: map VNum ks) (VNum k) = mem k ks.
Proof.
  unfold set_has, mem. simpl. induction ks as [|a ks IH]; simpl; [reflexivity|].
  now rewrite IH.
Qed.

Lemma id_set_add (ids : list value) (ks : list Z) (x : task) :
  id_set taskId allTasks ids ks -> In x allTasks ->
  exists ks', id_set taskId allTasks (set_add ids (VNum (id x))) ks'.
Proof.
  intros (-> & Hnd & Hks) Hx. unfold set_add. rewrite set_has_numbers.
  destruct (mem (id x) ks) eqn:Hm.
  - exists ks. repeat split; auto.
  - exists (ks ++ [id x]). split; [|split].
    + simpl. now rewrite map_app.
    + apply NoDup_app; auto.
      * repeat constructor. intros [].
      * intros a Ha [<-|[]]. apply mem_In in Ha. congruence.
    + intros k Hk. apply in_app_or in Hk. destruct Hk as [Hk|[<-|[]]]; eauto.
Qed.

Lemma fold_id_set (test : list value -> task -> bool) (l : list task) :
  incl l allTasks ->
  forall ids ks, id_set taskId allTasks ids ks ->
  exists ks', id_set taskId allTasks (fold_left (fun ids task => if test ids task
                                                 then set_add ids (VNum (id task))
                                                 else ids) l ids) ks'.
Proof.
  induction l as [|a l IH]; intros Hincl ids ks H; simpl; [eauto|].
  assert (Hl : incl l allTasks) by (intros x Hx; apply Hincl; now right).
  destruct (test ids a); [|eauto].
  destruct (id_set_add ids ks a H (Hincl a (or_introl eq_refl))) as [ks' H'].
  eauto.
Qed.

Lemma do_while_id_set (f : levelField) (n : nat) :
  forall ids ks, id_set taskId allTasks ids ks -> exists ks', id_set taskId allTasks (do_while n f allTasks ids) ks'.
Proof.
  induction n as [|n IH]; intros ids ks H; simpl; [eauto|].
  destruct (fold_id_set (fun ids task => set_has ids (VNum (get_level f task))
                                         && negb (set_has ids (VNum (id task))))
                        allTasks (incl_refl _) ids ks H) as [ks' H'].
  fold (next_pass f allTasks ids) in H'.
  destruct (_ =? _); eauto.
Qed.

Lemma collect_ids_id_set (f : levelField) :
  exists ks, id_set taskId allTasks (collect_ids f taskId allTasks) ks.
Proof.
  unfold collect_ids.
  destruct (fold_id_set (fun _ task => loose_eq (get_level f task) (VStr taskId))
                        allTasks (incl_refl _) [VStr taskId] []) as [ks H].
  { split; [reflexivity|]. split; [constructor|intros k []]. }
  fold (first_pass f taskId allTasks [VStr taskId]) in H.
  eapply do_while_id_set, H.
Qed.

(** A member stays a member. *)
Lemma set_add_keeps (ids : list value) (v w : value) :
  set_has ids w = true -> set_has (set_add ids v) w = true.
Proof.
  intros H. unfold set_add. destruct (set_has ids v); [exact H|].
  rewrite set_has_app, H. reflexivity.
Qed.

Lemma set_add_has (ids : list value) (k : Z) :
  set_has (set_add ids (VNum k)) (VNum k) = true.
Proof.
  unfold set_add. destruct (set_has ids (VNum k)) eqn:H; [exact H|].
  rewrite set_has_app. simpl. now rewrite Z.eqb_refl, orb_true_r.
Qed.

Lemma fold_keeps (test : list value -> task -> bool) (l : list task) (w : value) :
  forall ids, set_has ids w = true ->
  set_has (fold_left (fun ids task => if test ids task
                                      then set_add ids (VNum (id task)) else ids)
                     l ids) w = true.
Proof.
  induction l as [|a l IH]; intros ids H; simpl; [exact H|].
  apply IH. destruct (test ids a); [now apply set_add_keeps|exact H].
Qed.

Lemma do_while_keeps (f : levelField) (n : nat) (w : value) :
  forall ids, set_has ids w = true ->
              set_has (do_while n f allTasks ids) w = true.
Proof.
  induction n as [|n IH]; intros ids H; simpl; [exact H|].
  assert (H' : set_has (next_pass f allTasks ids) w = true)
    by (unfold next_pass; now apply fold_keeps).
  destruct (_ =? _); [exact H'|now apply IH].
Qed.

(** The first pass puts in the identifier of every row whose ancestor
    column equals the route parameter. *)
Lemma first_pass_has (f : levelField) (l : list task) (x : task) :
  In x l -> loose_eq (get_level f x) (VStr taskId) = true ->
  forall ids, set_has (first_pass f taskId l ids) (VNum (id x)) = true.
Proof.
  unfold first_pass.
  induction l as [|a l IH]; intros Hx Heq ids; [destruct Hx|]. simpl.
  destruct Hx as [->|Hx]; [|now apply IH].
  rewrite Heq.
  apply (fold_keeps (fun _ task => loose_eq (get_level f task) (VStr taskId))).
  apply set_add_has.
Qed.

Lemma collect_ids_has (f : levelField) (x : task) :
  In x allTasks -> loose_eq (get_level f x) (VStr taskId) = true ->
  set_has (collect_ids f taskId allTasks) (VNum (id x)) = true.
Proof.
  intros Hx Heq. unfold collect_ids.
  apply do_while_keeps. now apply first_pass_has.
Qed.

End DeletedCount.

Lemma NoDup_map_filter {A B} (f : A -> B) (P : A -> bool) (l : list A) :
  NoDup (map f l) -> NoDup (map f (filter P l)).
Proof.
  induction l as [|a l IH]; intros H; simpl; [constructor|].
  simpl in H. inversion H as [|x xs Hnotin Hnd]; subst.
  destruct (P a); [|now apply IH].
  simpl. constructor; [|now apply IH].
  intros Hin. apply Hnotin. apply in_map_iff in Hin.
  destruct Hin as [y [Hy Hin]]. apply filter_In in Hin.
  rewrite <- Hy. apply in_map. apply Hin.
Qed.

Lemma filter_length_split {A} (P : A -> bool) (l : list A) :
  (List.length (filter P l) + List.length (filter (fun x => negb (P x)) l))%nat
  = List.length l.
Proof.
  induction l as [|a l IH]; simpl; [reflexivity|].
  destruct (P a); simpl; lia.
Qed.

(** As many rows have their identifier among distinct numbers as there are
    numbers, when each number is the identifier of a row. *)
Lemma length_filter_mem (l : list task) (ks : list Z) :
  NoDup (map id l) -> NoDup ks ->
  (forall k, In k ks -> exists x, In x l /\ id x = k) ->
  List.length (filter (fun r => mem (id r) ks) l) = List.length ks.
Proof.
  intros Hl Hks Hin.
  rewrite <- (length_map id (filter (fun r => mem (id r) ks) l)).
  apply Nat.le_antisymm.
  - apply NoDup_incl_length; [now apply NoDup_map_filter|].
    intros k Hk. apply in_map_iff in Hk. destruct Hk as [r [<- Hr]].
    apply filter_In in Hr. now apply mem_In.
  - apply NoDup_incl_length; [exact Hks|].
    intros k Hk. destruct (Hin k Hk) as [x [Hx <-]].
    apply in_map, filter_In. split; [exact Hx|now apply mem_In].
Qed.

(** X1: on a table with a primary key, deleting a task that carries its own
    identifier in the ancestor column of its level (as every created task
    does) answers a [deletedCount] one above the number of rows removed. *)
Lemma deleteTask_deletedCount (s : store) (taskId : string) (t : task)
      (rest : list task) (f : levelField) :
  unique_ids s ->
  filter (fun r => sql_eq (id r) (VStr taskId)) (tasks s) = t :: rest ->
  levelMap (taskLevel t) = Some f ->
  get_level f t = id t ->
  exists n s',
    run (deleteTask taskId) s = (Ok (mkResponse 200 (JDeleted n)), s') /\
    n = Z.of_nat (List.length (tasks s) - List.length (tasks s')) + 1.
Proof.
  intros Huniq Hsel Hf Hself.
  pose proof (deleteTask_run s taskId t rest f Hsel Hf) as Hrun. cbv zeta in Hrun.
  set (allTasks := filter (fun r => sql_eq (projectID r) (VNum (projectID t)))
                          (tasks s)) in *.
  set (ids := collect_ids f taskId allTasks) in *.
  do 2 eexists. split; [exact Hrun|]. cbn [tasks].
  assert (Ht : In t (tasks s) /\ sql_eq (id t) (VStr taskId) = true).
  { apply (filter_In (fun r => sql_eq (id r) (VStr taskId))). rewrite Hsel. now left. }
  destruct Ht as [Hin Hid].
  assert (HtAll : In t allTasks).
  { apply filter_In. split; [exact Hin|]. rewrite sql_eq_num. apply Z.eqb_refl. }
  destruct (collect_ids_id_set taskId allTasks f) as [ks (Hids & Hnd & Hks)].
  fold ids in Hids.
  assert (Hself_in : mem (id t) ks = true).
  { rewrite <- (set_has_numbers taskId), <- Hids.
    apply collect_ids_has; [exact HtAll|]. now rewrite Hself. }
  assert (Hdel : forall r, In r (tasks s) ->
                           existsb (sql_eq (id r)) ids = mem (id r) ks).
  { intros r Hr. rewrite Hids. simpl.
    assert (Hnum : existsb (sql_eq (id r)) (map VNum ks) = mem (id r) ks).
    { unfold mem. clear. induction ks as [|k ks IH]; simpl; [reflexivity|].
      now rewrite sql_eq_num, IH. }
    rewrite Hnum.
    destruct (sql_eq (id r) (VStr taskId)) eqn:Hr'; [|reflexivity]. simpl.
    unfold sql_eq in Hr', Hid. destruct (to_number (VStr taskId)); [|discriminate].
    apply Z.eqb_eq in Hr', Hid. symmetry. now rewrite Hr', <- Hid. }
  rewrite (filter_ext_in _ (fun r => negb (mem (id r) ks)))
    by (intros r Hr; now rewrite (Hdel r Hr)).
  pose proof (filter_length_split (fun r => mem (id r) ks) (tasks s)) as Hsplit.
  rewrite length_filter_mem in Hsplit; auto.
  - unfold set_size. rewrite Hids. simpl. rewrite length_map. lia.
  - intros k Hk. destruct (Hks k Hk) as [x [Hx Hidx]].
    exists x. split; [|exact Hidx]. now apply filter_In in Hx.
Qed.


(** *** DELETE /tasks/:id: the count it returns *)

(** C1 on the code: deleting the only task of the table removes one row and
    answers [deletedCount] 2; deleting T1 with its subtask T2 removes two
    rows and answers 3.  The set starts with the route parameter, a string,
    and the first pass adds the identifier of the task itself as a number. *)
Theorem deleteTask_deletedCount_off_by_one :
  run (deleteTask "1") Scenario.store1
  = (Ok (mkResponse 200 (JDeleted 2)),
     mkStore (projects Scenario.store1) [] (nextTaskId Scenario.store1))
  /\ List.length (tasks Scenario.store1) = 1%nat
  /\ run (deleteTask "1") Scenario.store2
     = (Ok (mkResponse 200 (JDeleted 3)),
        mkStore (projects Scenario.store2) [] (nextTaskId Scenario.store2))
  /\ List.length (tasks Scenario.store2) = 2%nat.
Proof. repeat split; vm_compute; reflexivity. Qed.

Lemma deleteTask_unknown_id_witness :
  run (deleteTask "7") Scenario.store2
  = (Ok (mkResponse 404 (JError "Task not found")), Scenario.store2).
Proof.
  apply deleteTask_unknown_id.
  intros t [<-|[<-|[]]]; reflexivity.
Defined.





Lemma createTask_inherits_ancestors_witness :
  exists row,
    created (fst (run (Sample.create (Sample.request 3 2)) Scenario.store2))
    = Some row
    /\ level1ID row = 1 /\ level2ID row = 2.
Proof.
  eexists. split; [vm_compute; reflexivity|].
  pose (P := nth 1 (tasks Scenario.store2) (Scenario.plain_row 0 0 0 0 0 0 0 0 None)).
  assert (H : forall g, level_of g < 3 ->
                        get_level g (nth 2 (tasks Scenario.store3) P)
                        = num_or (get_level g P)
                                 (if taskLevel P =? level_of g then id P else 0)).
  { intros g Hg.
    refine (proj1 (createTask_inherits_ancestors Sample.parse Sample.stringify
                     Sample.now Scenario.store2 Scenario.store3 (Sample.request 3 2)
                     _ P _ _ _ _ _ _ _ _ g _)).
    - intros t [<-|[<-|[]]]; simpl; lia.
    - unfold unique_ids. simpl. repeat constructor; simpl; intuition lia.
    - vm_compute. reflexivity.
    - simpl. lia.
    - right. now left.
    - reflexivity.
    - simpl. exact Hg. }
  split.
  - apply (H Level1ID). simpl. lia.
  - apply (H Level2ID). simpl. lia.
Defined.

Lemma updateTask_replaces_estPrevHours_witness :
  let s' := snd (run (Sample.update "2" [("estHours"%string, VNum 8)])
                     Scenario.damaged) in
  (exists r', In r' (tasks s') /\ sql_eq (id r') (VStr "2") = true) /\
  (forall r', In r' (tasks s') -> sql_eq (id r') (VStr "2") = true ->
              estPrevHours r' = Some "[5]"%string).
Proof.
  apply (updateTask_replaces_estPrevHours Sample.parse Sample.stringify
           Sample.toISODate Sample.now Scenario.damaged "2"
           [("estHours"%string, VNum 8)]
           (Scenario.plain_row 2 1 2 1 1 2 0 0 (Some "oops"%string)) []).
  - reflexivity.
  - reflexivity.
  - simpl. lia.
  - intros H. discriminate H.
Defined.

(** C4 as stated fails: a request that gives [estHours] for the subtask T2
    (level 2, estimate 0) together with a [dueDate] that is not a date is
    answered 500 "Failed to update task" before the UPDATE; the
    [estPrevHours] of T2 is the text it was, not the one-element array of
    the estimate T2 had. *)
Lemma updateTask_bad_date_keeps_estPrevHours :
  let updates := [("estHours"%string, VNum 8);
                  ("dueDate"%string, VStr "not a date")] in
  let r := run (updateTask Sample.parse Sample.stringify Cases.toISODate
                           Sample.now "2" updates) Scenario.store2 in
  is_undefined (lookup "estHours" updates) = false
  /\ taskLevel (Cases.row Scenario.store2 1) = 2
  /\ estHours (Cases.row Scenario.store2 1) = VNum 0
  /\ fst r = Ok (mkResponse 500 (JError "Failed to update task"))
  /\ estPrevHours (Cases.row (snd r) 1) = Some "[]"%string
  /\ estPrevHours (Cases.row (snd r) 1) <> Some (Sample.stringify (VArr [VNum 0])).
Proof.
  vm_compute. repeat split; try reflexivity. discriminate.
Qed.

Lemma updateTask_surfaces_decode_failure_witness :
  fst (run (Sample.update "2" [("name"%string, VStr "renamed")]) Scenario.damaged)
  = Ok (mkResponse 500 (JError "Failed to update task")).
Proof.
  apply (updateTask_surfaces_decode_failure Sample.parse Sample.stringify
           Sample.toISODate Sample.now Scenario.damaged "2"
           [("name"%string, VStr "renamed")]
           (Scenario.plain_row 2 1 2 1 1 2 0 0 (Some "oops"%string)) []
           "oops" "name").
  - reflexivity.
  - reflexivity.
  - reflexivity.
  - now left.
  - reflexivity.
  - reflexivity.
  - intros H. discriminate H.
Defined.

Lemma deleteTask_other_projects_unchanged_witness :
  let s' := snd (run (deleteTask "1") Scenario.two_projects) in
  filter (fun r => negb (projectID r =? 1)) (tasks s')
  = [Scenario.plain_row 2 2 2 1 1 2 0 0 (Some "[]"%string)]
  /\ projects s' = projects Scenario.two_projects.
Proof.
  apply (deleteTask_other_projects_unchanged Scenario.two_projects "1"
           (Scenario.plain_row 1 1 1 0 1 0 0 0 (Some "[]"%string)) []).
  - unfold unique_ids. simpl. repeat constructor; simpl; intuition lia.
  - reflexivity.
Defined.

Lemma buildTaskHierarchy_flatten_witness :
  Sample.hierarchy (flatten Scenario.tree6) 0 1 = Scenario.tree6.
Proof.
  apply (buildTaskHierarchy_flatten Sample.parse Scenario.tree6).
  split.
  - simpl. repeat (constructor; [split; [repeat split|]|]); try constructor;
      reflexivity.
  - vm_compute. repeat constructor; simpl; intuition lia.
Defined.

(** * Further properties of the handlers *)

(** ** DELETE /tasks/:id: the closure *)

Lemma set_has_sql (ids : list value) (k : Z) :
  set_has ids (VNum k) = true -> existsb (sql_eq k) ids = true.
Proof.
  unfold set_has. rewrite !existsb_exists. intros [v [Hv Heq]].
  exists v. split; [exact Hv|].
  destruct v; simpl in Heq; try discriminate.
  rewrite sql_eq_num. exact Heq.
Qed.

(** A pass whose test fails on every row, or finds the row in the set
    already, leaves the set as it is. *)
Lemma fold_unchanged (test : list value -> task -> bool) (l : list task)
      (ids : list value) :
  (forall x, In x l -> test ids x = false \/ set_has ids (VNum (id x)) = true) ->
  fold_left (fun ids task => if test ids task
                             then set_add ids (VNum (id task)) else ids) l ids
  = ids.
Proof.
  induction l as [|a l IH]; intros H; simpl; [reflexivity|].
  assert (Hstep : (if test ids a then set_add ids (VNum (id a)) else ids) = ids).
  { destruct (H a (or_introl eq_refl)) as [Ht|Hin].
    - now rewrite Ht.
    - destruct (test ids a); [|reflexivity]. unfold set_add. now rewrite Hin. }
  rewrite Hstep. apply IH. intros x Hx. apply H. now right.
Qed.

(** A pass that leaves the size of the set leaves the set, and its test
    failed on every row. *)
Lemma fold_same_length (test : list value -> task -> bool) (l : list task)
      (ids : list value) :
  List.length (fold_left (fun ids task => if test ids task
                                          then set_add ids (VNum (id task)) else ids)
                         l ids) = List.length ids ->
  fold_left (fun ids task => if test ids task
                             then set_add ids (VNum (id task)) else ids) l ids = ids
  /\ forall x, In x l ->
               test ids x = false \/ set_has ids (VNum (id x)) = true.
Proof.
  revert ids. induction l as [|a l IH]; intros ids Hlen; simpl in *.
  - split; [reflexivity|intros x []].
  - set (ids1 := if test ids a then set_add ids (VNum (id a)) else ids) in *.
    destruct (fold_outside l test l ids1 (incl_refl _)) as [Hge _].
    cbv zeta in Hge.
    assert (Hstep : ids1 = ids /\
                    (test ids a = false \/ set_has ids (VNum (id a)) = true)).
    { subst ids1. destruct (test ids a); [|auto]. unfold set_add in *.
      destruct (set_has ids (VNum (id a))); [auto|].
      rewrite length_app in Hge. simpl in Hge. lia. }
    destruct Hstep as [Heq Ha]. rewrite Heq in *.
    destruct (IH ids Hlen) as [Hfold Hall].
    split; [exact Hfold|].
    intros x [<-|Hx]; auto.
Qed.

Lemma next_pass_fixed (f : levelField) (allTasks : list task) (ids : list value) :
  (forall x, In x allTasks ->
             set_has ids (VNum (get_level f x)) = true ->
             set_has ids (VNum (id x)) = true) ->
  next_pass f allTasks ids = ids.
Proof.
  intros H. unfold next_pass. apply fold_unchanged. intros x Hx.
  destruct (set_has ids (VNum (get_level f x))) eqn:Hf; [|now left].
  right. now apply H.
Qed.

Lemma do_while_at_fixed (f : levelField) (allTasks : list task) (ids : list value)
      (n : nat) :
  next_pass f allTasks ids = ids -> do_while (S n) f allTasks ids = ids.
Proof. intros H. simpl. rewrite H, Z.eqb_refl. reflexivity. Qed.

(** With rounds enough, the loop ends on a set the pass leaves as it is. *)
Lemma do_while_fixed (f : levelField) (allTasks : list task) (n : nat) :
  forall ids, (outside allTasks ids < n)%nat ->
              next_pass f allTasks (do_while n f allTasks ids)
              = do_while n f allTasks ids.
Proof.
  induction n as [|n IH]; intros ids Hlt; [lia|]. simpl.
  destruct (Z.eqb_spec (set_size ids) (set_size (next_pass f allTasks ids)))
    as [Heq|Hne].
  - unfold next_pass in *.
    destruct (fold_same_length
                (fun ids task => set_has ids (VNum (get_level f task))
                                 && negb (set_has ids (VNum (id task))))
                allTasks ids) as [Hsame _].
    { unfold set_size in Heq. lia. }
    now rewrite !Hsame.
  - apply IH. pose proof (next_pass_outside f allTasks ids Hne). lia.
Qed.

Lemma outside_le_length (allTasks : list task) (ids : list value) :
  (outside allTasks ids <= List.length allTasks)%nat.
Proof.
  unfold outside.
  pose proof (filter_length_le (fun x => negb (set_has ids (VNum (id x))))
                               (fun _ => true) allTasks (fun _ _ _ => eq_refl)) as H.
  rewrite (filter_all (fun _ => true)) in H by reflexivity. exact H.
Qed.

Lemma collect_ids_fixed (f : levelField) (taskId : string) (allTasks : list task) :
  next_pass f allTasks (collect_ids f taskId allTasks) = collect_ids f taskId allTasks.
Proof.
  unfold collect_ids. apply do_while_fixed.
  pose proof (outside_le_length allTasks (first_pass f taskId allTasks [VStr taskId])).
  lia.
Qed.

(** X2: the set [deleteTask] collects is closed: a row of the project whose
    ancestor column holds a number of the set has its identifier in the
    set. *)
Theorem collect_ids_closed (f : levelField) (taskId : string)
        (allTasks : list task) (x : task) :
  In x allTasks ->
  set_has (collect_ids f taskId allTasks) (VNum (get_level f x)) = true ->
  set_has (collect_ids f taskId allTasks) (VNum (id x)) = true.
Proof.
  intros Hx Hfield.
  pose proof (collect_ids_fixed f taskId allTasks) as Hfix.
  unfold next_pass in Hfix.
  destruct (fold_same_length
              (fun ids task => set_has ids (VNum (get_level f task))
                               && negb (set_has ids (VNum (id task))))
              allTasks (collect_ids f taskId allTasks)) as [_ Hall].
  { now rewrite Hfix. }
  destruct (Hall x Hx) as [Htest|Hin]; [|exact Hin].
  rewrite Hfield in Htest. simpl in Htest. now apply negb_false_iff in Htest.
Qed.

Lemma select_number (s : store) (taskId : string) (t : task) (rest : list task) :
  filter (fun r => sql_eq (id r) (VStr taskId)) (tasks s) = t :: rest ->
  In t (tasks s) /\ to_number (VStr taskId) = Some (id t).
Proof.
  intros Hsel.
  assert (Ht : In t (tasks s) /\ sql_eq (id t) (VStr taskId) = true).
  { apply (filter_In (fun r => sql_eq (id r) (VStr taskId))). rewrite Hsel. now left. }
  destruct Ht as [Hin Hid]. split; [exact Hin|].
  unfold sql_eq in Hid. destruct (to_number (VStr taskId)) as [m|]; [|discriminate].
  apply Z.eqb_eq in Hid. now subst.
Qed.

Lemma loose_eq_number (k n : Z) (v : value) :
  to_number v = Some n -> loose_eq k v = (k =? n).
Proof. intros H. unfold loose_eq. now rewrite H. Qed.

Lemma sql_eq_number (k n : Z) (v : value) :
  to_number v = Some n -> sql_eq k v = (k =? n).
Proof. intros H. unfold sql_eq. now rewrite H. Qed.

Lemma filter_filter {A} (P Q : A -> bool) (l : list A) :
  filter Q (filter P l) = filter (fun x => P x && Q x) l.
Proof.
  induction l as [|a l IH]; simpl; [reflexivity|].
  destruct (P a); simpl; [|exact IH]. destruct (Q a); now rewrite IH.
Qed.

Lemma mem_map_id (k : Z) (l : list task) :
  mem k (map id l) = existsb (fun x => k =? id x) l.
Proof. unfold mem. induction l as [|a l IH]; simpl; [reflexivity|]. now rewrite IH. Qed.

(** On rows with identifiers of their own, the first pass collects, after
    the route parameter, the identifiers of the rows whose ancestor column
    equals it, in table order. *)
Lemma first_pass_exact (f : levelField) (taskId : string) (l : list task) :
  forall pre,
    NoDup (map id (pre ++ l)) ->
    first_pass f taskId l
      (VStr taskId
       :: map VNum (map id (filter (fun x => loose_eq (get_level f x) (VStr taskId)) pre)))
    = VStr taskId
      :: map VNum (map id (filter (fun x => loose_eq (get_level f x) (VStr taskId))
                                  (pre ++ l))).
Proof.
  unfold first_pass.
  induction l as [|a l IH]; intros pre Hnd; simpl.
  - now rewrite app_nil_r.
  - replace (pre ++ a :: l) with ((pre ++ [a]) ++ l) in *
      by (rewrite <- app_assoc; reflexivity).
    rewrite <- (IH (pre ++ [a]) Hnd). f_equal.
    rewrite filter_app. simpl.
    destruct (loose_eq (get_level f a) (VStr taskId)); [|now rewrite app_nil_r].
    unfold set_add. rewrite set_has_numbers.
    assert (Hnot : mem (id a) (map id (filter (fun x => loose_eq (get_level f x)
                                                               (VStr taskId)) pre))
                   = false).
    { destruct (mem _ _) eqn:Hm; [|reflexivity]. exfalso.
      apply mem_In, in_map_iff in Hm. destruct Hm as [y [Hy Hin]].
      apply filter_In in Hin. destruct Hin as [Hin _].
      rewrite !map_app in Hnd. apply NoDup_app_remove_r in Hnd.
      rewrite <- map_app in Hnd.
      apply (NoDup_ids_apart pre [a] y a Hnd Hin (or_introl eq_refl) Hy). }
    rewrite Hnot. simpl. now rewrite !map_app.
Qed.

(** The run of [deleteTask] on a table with a primary key where whatever
    points at a row under the task is itself under the task. *)
Lemma deleteTask_closed_run (s : store) (taskId : string) (t : task)
      (rest : list task) (f : levelField) :
  unique_ids s ->
  filter (fun r => sql_eq (id r) (VStr taskId)) (tasks s) = t :: rest ->
  levelMap (taskLevel t) = Some f ->
  level_closed f (id t) (filter (fun r => projectID r =? projectID t) (tasks s)) ->
  run (deleteTask taskId) s
  = (Ok (mkResponse 200
           (JDeleted (Z.of_nat (List.length
                                  (filter (fun r => (projectID r =? projectID t)
                                                    && (get_level f r =? id t))
                                          (tasks s))) + 1))),
     mkStore (projects s)
             (filter (fun r => negb ((id r =? id t)
                                     || ((projectID r =? projectID t)
                                         && (get_level f r =? id t))))
                     (tasks s))
             (nextTaskId s)).
Proof.
  intros Huniq Hsel Hf Hclosed.
  destruct (select_number s taskId t rest Hsel) as [Hin Hnum].
  rewrite (deleteTask_run s taskId t rest f Hsel Hf). cbv zeta.
  rewrite (filter_ext (fun r => sql_eq (projectID r) (VNum (projectID t)))
                      (fun r => projectID r =? projectID t))
    by (intros r; apply sql_eq_num).
  set (allTasks := filter (fun r => projectID r =? projectID t) (tasks s)) in *.
  set (m := fun x => loose_eq (get_level f x) (VStr taskId)).
  set (S1 := VStr taskId :: map VNum (map id (filter m allTasks))).
  assert (HndAll : NoDup (map id allTasks)) by (apply NoDup_map_filter, Huniq).
  assert (Hfirst : first_pass f taskId allTasks [VStr taskId] = S1).
  { exact (first_pass_exact f taskId allTasks [] HndAll). }
  assert (Hm : forall x, m x = (get_level f x =? id t)).
  { intros x. apply loose_eq_number, Hnum. }
  assert (Hhas : forall k, set_has S1 (VNum k) = true <->
                           exists y, In y allTasks /\ get_level f y = id t /\ id y = k).
  { intros k. unfold S1. rewrite set_has_numbers, mem_In, in_map_iff. split.
    - intros [y [Hy Hy']]. apply filter_In in Hy'. destruct Hy' as [Hy1 Hy2].
      rewrite Hm in Hy2. apply Z.eqb_eq in Hy2. eauto.
    - intros [y (Hy1 & Hy2 & Hy3)]. exists y. split; [exact Hy3|].
      apply filter_In. split; [exact Hy1|]. rewrite Hm. now apply Z.eqb_eq. }
  assert (Hids : collect_ids f taskId allTasks = S1).
  { unfold collect_ids. rewrite Hfirst. apply do_while_at_fixed, next_pass_fixed.
    intros x Hx Hfield. apply Hhas in Hfield. destruct Hfield as [y (Hy1 & Hy2 & Hy3)].
    apply Hhas. exists x. split; [exact Hx|]. split; [|reflexivity].
    apply (Hclosed x y Hx Hy1 Hy2). now symmetry. }
  rewrite Hids. f_equal.
  - do 2 f_equal. unfold set_size, S1. cbn [List.length]. rewrite !length_map.
    unfold allTasks. rewrite filter_filter.
    rewrite (filter_ext (fun x => (projectID x =? projectID t) && m x)
                        (fun r => (projectID r =? projectID t)
                                  && (get_level f r =? id t)))
      by (intros r; now rewrite Hm).
    f_equal. lia.
  - f_equal. apply filter_ext_in. intros r Hr. f_equal.
    unfold S1. cbn [existsb]. rewrite (sql_eq_number _ _ _ Hnum). f_equal.
    apply eq_true_iff_eq. rewrite existsb_exists. split.
    + intros [v [Hv Heq]]. apply in_map_iff in Hv. destruct Hv as [k [<- Hk]].
      rewrite sql_eq_num in Heq. apply Z.eqb_eq in Heq. subst k.
      apply in_map_iff in Hk. destruct Hk as [y [Hy Hy']].
      apply filter_In in Hy'. destruct Hy' as [Hy1 Hy2].
      assert (y = r).
      { apply (unique_id_inj (tasks s)); auto.
        now apply filter_In in Hy1. }
      subst y. apply filter_In in Hy1. destruct Hy1 as [_ Hp].
      rewrite Hm in Hy2. now rewrite Hp, Hy2.
    + intros H. apply andb_true_iff in H. destruct H as [Hp Hl].
      exists (VNum (id r)). split; [|rewrite sql_eq_num; apply Z.eqb_refl].
      apply in_map, in_map, filter_In. split.
      * apply filter_In. auto.
      * now rewrite Hm.
Qed.

(** ** DELETE /tasks/:id: what is removed *)

Lemma deleteTask_run_unknown (s : store) (taskId : string) :
  filter (fun r => sql_eq (id r) (VStr taskId)) (tasks s) = [] ->
  run (deleteTask taskId) s
  = (Ok (mkResponse 404 (JError "Task not found")), s).
Proof.
  intros Hnone.
  unfold run, deleteTask, try_catch, bind, beginTransaction,
    select_tasks_by_id, query; simpl.
  now rewrite Hnone.
Qed.

Lemma collect_ids_head (f : levelField) (taskId : string) (allTasks : list task) :
  exists more, collect_ids f taskId allTasks = VStr taskId :: more.
Proof.
  destruct (collect_ids_id_set taskId allTasks f) as [ks (Hids & _)]. eauto.
Qed.

(** After a deletion no row answers to the identifier any more. *)
Lemma deleteTask_task_gone (s : store) (taskId : string) (t : task)
      (rest : list task) (f : levelField) :
  filter (fun r => sql_eq (id r) (VStr taskId)) (tasks s) = t :: rest ->
  levelMap (taskLevel t) = Some f ->
  filter (fun r => sql_eq (id r) (VStr taskId))
         (tasks (snd (run (deleteTask taskId) s))) = [].
Proof.
  intros Hsel Hf. rewrite (deleteTask_run s taskId t rest f Hsel Hf).
  cbn [snd tasks]. apply filter_none. intros r Hr.
  apply filter_In in Hr. destruct Hr as [_ Hr]. apply negb_true_iff in Hr.
  destruct (collect_ids_head f taskId
              (filter (fun r => sql_eq (projectID r) (VNum (projectID t))) (tasks s)))
    as [more Hids].
  rewrite Hids in Hr. cbn [existsb] in Hr. now apply orb_false_iff in Hr.
Qed.

(** X5: a row whose stored level is not 1, 2, 3 or 4 cannot be deleted: the
    handler answers 400 "Invalid task level" and the store is as before. *)
Theorem deleteTask_invalid_level (s : store) (taskId : string) (t : task)
        (rest : list task) :
  filter (fun r => sql_eq (id r) (VStr taskId)) (tasks s) = t :: rest ->
  taskLevel t < 1 \/ 4 < taskLevel t ->
  run (deleteTask taskId) s
  = (Ok (mkResponse 400 (JError "Invalid task level")), s).
Proof.
  intros Hsel Hlevel. apply (deleteTask_run_bad_level s taskId t rest Hsel).
  rewrite levelMap_spec.
  repeat match goal with
         | |- context [?a =? ?b] => destruct (Z.eqb_spec a b); [lia|]
         end.
  reflexivity.
Qed.

Lemma deleteTask_invalid_level_witness :
  run (deleteTask "1") Cases.bad_level
  = (Ok (mkResponse 400 (JError "Invalid task level")), Cases.bad_level).
Proof.
  apply (deleteTask_invalid_level Cases.bad_level "1"
           (Cases.row Cases.bad_level 0) []).
  - reflexivity.
  - right. simpl. lia.
Defined.

(** X4: after a deletion that found its task, no remaining row has the
    identifier of the request, and no remaining row of the task's project
    carries it in the ancestor column of the task's level. *)
Theorem deleteTask_removes_subtree (s : store) (taskId : string) (t : task)
        (rest : list task) (f : levelField) :
  filter (fun r => sql_eq (id r) (VStr taskId)) (tasks s) = t :: rest ->
  levelMap (taskLevel t) = Some f ->
  forall r, In r (tasks (snd (run (deleteTask taskId) s))) ->
            sql_eq (id r) (VStr taskId) = false /\
            (projectID r = projectID t ->
             loose_eq (get_level f r) (VStr taskId) = false).
Proof.
  intros Hsel Hf r Hr. split.
  - pose proof (deleteTask_task_gone s taskId t rest f Hsel Hf) as Hgone.
    destruct (sql_eq (id r) (VStr taskId)) eqn:E; [|reflexivity].
    assert (Hin : In r (filter (fun r => sql_eq (id r) (VStr taskId))
                               (tasks (snd (run (deleteTask taskId) s)))))
      by (apply filter_In; auto).
    rewrite Hgone in Hin. destruct Hin.
  - intros Hproj. rewrite (deleteTask_run s taskId t rest f Hsel Hf) in Hr.
    cbn [snd tasks] in Hr. apply filter_In in Hr. destruct Hr as [Hin Hr].
    apply negb_true_iff in Hr.
    destruct (loose_eq (get_level f r) (VStr taskId)) eqn:E; [|reflexivity].
    rewrite set_has_sql in Hr; [discriminate|].
    apply collect_ids_has; [|exact E].
    apply filter_In. split; [exact Hin|].
    rewrite sql_eq_num, Hproj. apply Z.eqb_refl.
Qed.

Lemma deleteTask_removes_subtree_witness :
  sql_eq (id (Cases.row Scenario.store6 4)) (VStr "2") = false /\
  (projectID (Cases.row Scenario.store6 4) = 1 ->
   loose_eq (level2ID (Cases.row Scenario.store6 4)) (VStr "2") = false).
Proof.
  apply (deleteTask_removes_subtree Scenario.store6 "2"
           (Cases.row Scenario.store6 1) [] Level2ID).
  - reflexivity.
  - reflexivity.
  - vm_compute. tauto.
Defined.

(** X6: deleting the same task again is answered 404 "Task not found" and
    changes nothing. *)
Theorem deleteTask_twice (s : store) (taskId : string) (t : task)
        (rest : list task) (f : levelField) :
  filter (fun r => sql_eq (id r) (VStr taskId)) (tasks s) = t :: rest ->
  levelMap (taskLevel t) = Some f ->
  run (deleteTask taskId) (snd (run (deleteTask taskId) s))
  = (Ok (mkResponse 404 (JError "Task not found")),
     snd (run (deleteTask taskId) s)).
Proof.
  intros Hsel Hf. apply deleteTask_run_unknown.
  exact (deleteTask_task_gone s taskId t rest f Hsel Hf).
Qed.

Lemma deleteTask_twice_witness :
  run (deleteTask "2") (snd (run (deleteTask "2") Scenario.store6))
  = (Ok (mkResponse 404 (JError "Task not found")),
     snd (run (deleteTask "2") Scenario.store6)).
Proof.
  apply (deleteTask_twice Scenario.store6 "2" (Cases.row Scenario.store6 1) []
           Level2ID).
  - reflexivity.
  - reflexivity.
Defined.

(** X7: on a table with a primary key where whatever points at a row under
    the task is itself under the task, [deleteTask] removes the task and
    the rows of its project that carry its identifier in the ancestor
    column of its level, keeps every other row, and answers the number of
    those rows plus one. *)
Theorem deleteTask_removes_exactly (s : store) (taskId : string) (t : task)
        (rest : list task) (f : levelField) :
  unique_ids s ->
  filter (fun r => sql_eq (id r) (VStr taskId)) (tasks s) = t :: rest ->
  levelMap (taskLevel t) = Some f ->
  level_closed f (id t) (filter (fun r => projectID r =? projectID t) (tasks s)) ->
  exists s',
    run (deleteTask taskId) s
    = (Ok (mkResponse 200
             (JDeleted (Z.of_nat (List.length
                                    (filter (fun r => (projectID r =? projectID t)
                                                      && (get_level f r =? id t))
                                            (tasks s))) + 1))),
       s')
    /\ projects s' = projects s
    /\ forall r, In r (tasks s') <->
                 In r (tasks s) /\ id r <> id t /\
                 ~ (projectID r = projectID t /\ get_level f r = id t).
Proof.
  intros Huniq Hsel Hf Hclosed.
  eexists. split; [exact (deleteTask_closed_run s taskId t rest f Huniq Hsel Hf Hclosed)|].
  split; [reflexivity|]. intros r. cbn [tasks]. rewrite filter_In. split.
  - intros [Hin Hkeep]. split; [exact Hin|].
    apply negb_true_iff, orb_false_iff in Hkeep. destruct Hkeep as [Hid Hunder].
    split; [now apply Z.eqb_neq|].
    intros [Hp Hl]. rewrite Hp, Hl, !Z.eqb_refl in Hunder. discriminate.
  - intros (Hin & Hid & Hunder). split; [exact Hin|].
    apply negb_true_iff, orb_false_iff. split; [now apply Z.eqb_neq|].
    destruct (Z.eqb_spec (projectID r) (projectID t)) as [Hp|Hp]; [|reflexivity].
    destruct (Z.eqb_spec (get_level f r) (id t)) as [Hl|Hl]; [|reflexivity].
    exfalso. apply Hunder. auto.
Qed.

Lemma deleteTask_removes_exactly_witness :
  exists s',
    run (deleteTask "2") Scenario.store6 = (Ok (mkResponse 200 (JDeleted 4)), s')
    /\ projects s' = projects Scenario.store6
    /\ forall r, In r (tasks s') <->
                 In r (tasks Scenario.store6) /\ id r <> 2 /\
                 ~ (projectID r = 1 /\ level2ID r = 2).
Proof.
  apply (deleteTask_removes_exactly Scenario.store6 "2"
           (Cases.row Scenario.store6 1) [] Level2ID).
  - unfold unique_ids. simpl. repeat constructor; simpl; intuition lia.
  - reflexivity.
  - reflexivity.
  - intros x y Hx Hy. vm_compute in Hx, Hy.
    repeat (destruct Hx as [<-|Hx]; [|]); try (destruct Hx);
      repeat (destruct Hy as [<-|Hy]; [|]); try (destruct Hy);
      vm_compute; intros H1 H2; (reflexivity || discriminate).
Defined.

Lemma deleteTask_deletedCount_witness :
  exists n s',
    run (deleteTask "1") Scenario.store2 = (Ok (mkResponse 200 (JDeleted n)), s') /\
    n = Z.of_nat (List.length (tasks Scenario.store2) - List.length (tasks s')) + 1.
Proof.
  apply (deleteTask_deletedCount Scenario.store2 "1"
           (Cases.row Scenario.store2 0) [] Level1ID).
  - unfold unique_ids. simpl. repeat constructor; simpl; intuition lia.
  - reflexivity.
  - reflexivity.
  - reflexivity.
Defined.

Lemma collect_ids_closed_witness :
  set_has (collect_ids Level1ID "1" (tasks Scenario.store3)) (VNum 3) = true.
Proof.
  apply (collect_ids_closed Level1ID "1" (tasks Scenario.store3)
           (Cases.row Scenario.store3 2)).
  - right. right. now left.
  - reflexivity.
Defined.

(** ** POST /tasks: the table after a request *)

Section MoreProperties.

Variable JSON_parse : string -> option value.
Variable JSON_stringify : value -> string.
Variable toISODate : value -> option value.
Variable now : value.

Lemma created_row_columns (input : taskInput) (L P : Z) (levels : Z * Z * Z * Z)
      (n : Z) :
  projectID (created_row JSON_stringify now input L P levels n) = in_projectID input /\
  parentID (created_row JSON_stringify now input L P levels n) = P.
Proof.
  unfold created_row, self_patch, new_row. destruct levels as [[[? ?] ?] ?].
  destruct (own_field _) as [[]|]; simpl; auto.
Qed.

(** X8: a request for a project that is not in the table is answered 404
    "Project not found" and changes nothing, whatever else it holds. *)
Theorem createTask_unknown_project (s : store) (input : taskInput) :
  (forall p, In p (projects s) -> p_id p <> in_projectID input) ->
  run (createTask JSON_parse JSON_stringify now input) s
  = (Ok (mkResponse 404 (JError "Project not found")), s).
Proof.
  intros Hnone.
  unfold run, createTask, try_catch, bind, beginTransaction,
    select_projects_by_id, query, pooled, written; simpl.
  rewrite filter_none; [reflexivity|].
  intros p Hp. rewrite sql_eq_num. apply Z.eqb_neq. now apply Hnone.
Qed.

(** X9: a request whose project exists, whose level and parent the store
    reads as the integers L and P, and which is not at a level above 1, or
    names no parent, or names a parent that is in the table, is answered
    201 whatever the stored texts decode to; the table gains the created
    row at its end and nothing else changes.  At level 1 the parent of the
    request is stored without being looked up. *)
Theorem createTask_appends_one_row (s : store) (input : taskInput) (L P : Z) :
  fresh_ids s ->
  project_exists s (in_projectID input) ->
  stored_level input = Some L ->
  stored_parent input = Some P ->
  js_gt (req_taskLevel input) 1 = false
  \/ truthy (req_parentID input) = false
  \/ (exists parent, In parent (tasks s)
                     /\ sql_eq (id parent) (req_parentID input) = true) ->
  exists row e i,
    run (createTask JSON_parse JSON_stringify now input) s
    = (Ok (mkResponse 201 (JTask row e i)),
       mkStore (projects s) (tasks s ++ [row]) (nextTaskId s + 1))
    /\ id row = nextTaskId s
    /\ projectID row = in_projectID input
    /\ taskLevel row = L
    /\ parentID row = P.
Proof.
  intros Hfresh [q [Hq Hpid]] HL HP Hparent.
  destruct (createTask_run JSON_parse JSON_stringify now s input Hfresh)
    as [e [i Hrun]].
  destruct (filter_some (fun r => sql_eq (p_id r) (VNum (in_projectID input)))
                        (projects s) q Hq) as [a [r Hf]].
  { rewrite sql_eq_num, Hpid. apply Z.eqb_refl. }
  rewrite Hf in Hrun.
  assert (Hlv : exists levels, levels_for s input = Some levels).
  { unfold levels_for.
    destruct (js_gt (req_taskLevel input) 1) eqn:H1; [|simpl; eauto].
    destruct (truthy (req_parentID input)) eqn:H0; [|simpl; eauto].
    simpl. destruct Hparent as [H|[H|[parent [Hin Hid]]]]; [discriminate..|].
    destruct (filter_some (fun r => sql_eq (id r) (req_parentID input))
                          (tasks s) parent Hin Hid) as [p0 [ps Hsel]].
    rewrite Hsel. eauto. }
  destruct Hlv as [levels Hlv]. rewrite Hlv, HL, HP in Hrun. cbv zeta in Hrun.
  exists (created_row JSON_stringify now input L P levels (nextTaskId s)), e, i.
  split; [exact Hrun|].
  split; [apply created_row_id|].
  destruct (created_row_columns input L P levels (nextTaskId s)) as [Hp Hpar].
  split; [exact Hp|]. split; [apply created_row_taskLevel|exact Hpar].
Qed.

(** X10: [createTask] keeps the identifiers of the table distinct, positive
    and below the next identifier, whatever it answers. *)
Theorem createTask_keeps_identifiers (s : store) (input : taskInput) :
  fresh_ids s ->
  unique_ids s ->
  0 < nextTaskId s ->
  let s' := snd (run (createTask JSON_parse JSON_stringify now input) s) in
  fresh_ids s' /\ unique_ids s' /\ 0 < nextTaskId s'.
Proof.
  intros Hfresh Huniq Hpos s'.
  destruct (createTask_run JSON_parse JSON_stringify now s input Hfresh)
    as [e [i Hrun]].
  subst s'. rewrite Hrun.
  destruct (filter _ (projects s)); [auto|].
  destruct (levels_for s input) as [levels|]; [|auto].
  destruct (stored_level input) as [L|]; [|auto].
  destruct (stored_parent input) as [P|]; [|auto].
  cbn [snd]. split; [|split].
  - intros t Ht. cbn [tasks nextTaskId] in *. apply in_app_or in Ht.
    destruct Ht as [Ht|[<-|[]]].
    + apply Hfresh in Ht. lia.
    + rewrite created_row_id. lia.
  - unfold unique_ids in *. cbn [tasks]. rewrite map_app. apply NoDup_app.
    + exact Huniq.
    + repeat constructor. intros [].
    + intros k Hk [<-|[]]. rewrite created_row_id in Hk.
      apply in_map_iff in Hk. destruct Hk as [t [Hid Ht]].
      apply Hfresh in Ht. lia.
  - cbn [nextTaskId]. lia.
Qed.

(** The ancestor columns a request inherits hold identifiers of the table
    or 0, or what a column of the parent held. *)
Lemma levels_for_old (s : store) (input : taskInput) (levels : Z * Z * Z * Z)
      (f : levelField) (n : Z) :
  levels_for s input = Some levels ->
  strict_eq (req_taskLevel input) (level_of f) = false ->
  n <> 0 ->
  (forall x, In x (tasks s) -> id x <> n /\ get_level f x <> n) ->
  nth_level f levels <> n.
Proof.
  intros Hlv Hstrict Hn Hold. unfold levels_for in Hlv.
  destruct (js_gt _ 1 && _);
    [|inversion Hlv; subst; destruct f; simpl; congruence].
  destruct (filter _ (tasks s)) as [|P rest] eqn:Hsel; [discriminate|].
  inversion Hlv; subst levels.
  assert (HP : In P (tasks s)).
  { apply (filter_In (fun r => sql_eq (id r) (req_parentID input))).
    rewrite Hsel. now left. }
  destruct (Hold P HP) as [Hid Hcol].
  rewrite inherit_levels_other by exact Hstrict.
  unfold num_or. destruct (get_level f P =? 0); [|exact Hcol].
  destruct (taskLevel P =? level_of f); congruence.
Qed.

(** X11: creating a task and deleting it by its identifier gives the table
    back, when no row pointed at the new identifier beforehand.  The
    deletion removes the one row and answers [deletedCount] 2 when the
    request gave the level as a number: the row then carries its own
    identifier, which the set holds beside the route parameter.  It
    answers 1 when the level came as any other value the store reads as
    that level, a numeral for one: the row then has no pointer to itself. *)
Theorem createTask_then_deleteTask (s s1 : store) (input : taskInput)
        (row : task) (e i : value) (taskId : string) (f : levelField) :
  fresh_ids s ->
  unique_ids s ->
  0 < nextTaskId s ->
  run (createTask JSON_parse JSON_stringify now input) s
  = (Ok (mkResponse 201 (JTask row e i)), s1) ->
  levelMap (taskLevel row) = Some f ->
  to_number (VStr taskId) = Some (id row) ->
  (forall x, In x (tasks s) -> get_level f x <> id row) ->
  run (deleteTask taskId) s1
  = (Ok (mkResponse 200
           (JDeleted (if strict_eq (req_taskLevel input) (taskLevel row)
                      then 2 else 1))),
     mkStore (projects s) (tasks s) (nextTaskId s + 1)).
Proof.
  intros Hfresh Huniq Hpos Hrun Hf Hnum Hnone.
  destruct (createTask_run JSON_parse JSON_stringify now s input Hfresh)
    as [e' [i' Hcase]].
  rewrite Hrun in Hcase.
  destruct (filter _ (projects s)); [discriminate|].
  destruct (levels_for s input) as [levels|] eqn:Hlv; [|discriminate].
  destruct (stored_level input) as [L|]; [|discriminate].
  destruct (stored_parent input) as [P|]; [|discriminate].
  cbv zeta in Hcase. inversion Hcase as [[Hrow He Hi Hs1]]. clear Hcase.
  assert (Hid : id row = nextTaskId s) by (rewrite Hrow; apply created_row_id).
  apply levelMap_level_of in Hf.
  assert (Hself : (get_level f row =? id row)
                  = strict_eq (req_taskLevel input) (taskLevel row)).
  { rewrite <- Hf.
    destruct (strict_eq (req_taskLevel input) (level_of f)) eqn:Hstrict.
    - rewrite Hrow at 1. rewrite created_row_level, Hstrict, Hid.
      apply Z.eqb_refl.
    - apply Z.eqb_neq. rewrite Hrow at 1. rewrite created_row_level, Hstrict.
      apply (levels_for_old s input levels f (id row) Hlv Hstrict); [lia|].
      intros x Hx. split; [apply Hfresh in Hx; lia|now apply Hnone]. }
  apply levelMap_level_of in Hf.
  assert (Hold : forall x, In x (tasks s) -> (id x =? id row) = false).
  { intros x Hx. apply Z.eqb_neq. apply Hfresh in Hx. lia. }
  rewrite <- Hrow in *.
  assert (Hsel : filter (fun r => sql_eq (id r) (VStr taskId)) (tasks s ++ [row])
                 = [row]).
  { rewrite filter_app, filter_none.
    - simpl. now rewrite (sql_eq_number _ _ _ Hnum), Z.eqb_refl.
    - intros x Hx. rewrite (sql_eq_number _ _ _ Hnum). now apply Hold. }
  assert (Huniq1 : unique_ids (mkStore (projects s) (tasks s ++ [row])
                                       (nextTaskId s + 1))).
  { unfold unique_ids in *. cbn [tasks]. rewrite map_app. apply NoDup_app.
    - exact Huniq.
    - repeat constructor. intros [].
    - intros k Hk [<-|[]]. apply in_map_iff in Hk. destruct Hk as [x [Hx Hin]].
      apply Hold in Hin. apply Z.eqb_neq in Hin. congruence. }
  rewrite (deleteTask_closed_run _ taskId row [] f Huniq1 Hsel Hf).
  - cbn [projects tasks nextTaskId]. rewrite !filter_app.
    rewrite (filter_none (fun r => (projectID r =? projectID row)
                                   && (get_level f r =? id row)) (tasks s)).
    + rewrite (filter_all (fun r => negb ((id r =? id row)
                                          || (projectID r =? projectID row)
                                             && (get_level f r =? id row)))
                          (tasks s)).
      * simpl. rewrite Hself, !Z.eqb_refl. simpl.
        rewrite app_nil_r.
        now destruct (strict_eq (req_taskLevel input) (taskLevel row)).
      * intros x Hx. rewrite (Hold x Hx).
        replace (get_level f x =? id row) with false
          by (symmetry; apply Z.eqb_neq; now apply Hnone).
        now rewrite andb_false_r.
    + intros x Hx.
      replace (get_level f x =? id row) with false
        by (symmetry; apply Z.eqb_neq; now apply Hnone).
      apply andb_false_r.
  - intros x y Hx Hy Hy1 Hxy. cbn [tasks] in Hx, Hy.
    apply filter_In in Hy. destruct Hy as [Hy _].
    apply in_app_or in Hy. destruct Hy as [Hy|[<-|[]]].
    + exfalso. now apply (Hnone y Hy).
    + exact Hxy.
Qed.

(** X30: the handler recognises the level of the request with [===],
    which holds for a number only.  A request that gives its level as a
    text the store reads as a level above 1 (the numeral "2" for one) and
    names an existing parent P is stored at that level with all four
    ancestor columns inherited from P, the column of its own level
    included: that column is neither set to 0 before the insertion nor to
    the new identifier after it. *)
Theorem createTask_level_as_text (s s' : store) (input : taskInput)
        (row P : task) (e i : value) (w : string) :
  fresh_ids s ->
  unique_ids s ->
  run (createTask JSON_parse JSON_stringify now input) s
  = (Ok (mkResponse 201 (JTask row e i)), s') ->
  req_taskLevel input = VStr w ->
  1 < taskLevel row ->
  In P (tasks s) ->
  to_number (req_parentID input) = Some (id P) ->
  int_column (VStr w) = Some (taskLevel row) /\
  id row = nextTaskId s /\
  forall g,
    get_level g row
    = num_or (get_level g P) (if taskLevel P =? level_of g then id P else 0).
Proof.
  intros Hfresh Huniq Hrun Htext HL HP Hpar.
  destruct (createTask_created JSON_parse JSON_stringify now s s' input row e i
              Hfresh Hrun)
    as (levels & L' & P' & Hlv & HL' & HP' & Hrow & Htasks).
  assert (Hlevel : taskLevel row = L')
    by (rewrite Hrow; apply created_row_taskLevel).
  subst L'. unfold stored_level in HL'.
  split; [now rewrite <- Htext|].
  split; [rewrite Hrow; apply created_row_id|].
  intros g.
  assert (HidP : id P <> 0) by (apply Hfresh in HP; lia).
  unfold levels_for in Hlv.
  rewrite (int_column_gt _ _ HL' HL), (to_number_truthy _ _ Hpar HidP) in Hlv.
  simpl in Hlv.
  rewrite (select_unique (tasks s) P (req_parentID input) Huniq HP Hpar) in Hlv.
  inversion Hlv; subst levels.
  rewrite Hrow at 1. rewrite created_row_level, Htext.
  cbn [strict_eq]. now apply inherit_levels_other.
Qed.

End MoreProperties.

Lemma createTask_unknown_project_witness :
  run (Sample.create (mkTaskInput 9 (VNum 1) VUndef [])) Scenario.store2
  = (Ok (mkResponse 404 (JError "Project not found")), Scenario.store2).
Proof.
  apply (createTask_unknown_project Sample.parse Sample.stringify Sample.now).
  intros p [<-|[]]. simpl. lia.
Defined.

Lemma createTask_appends_one_row_witness :
  exists row e i,
    run (Sample.create (Sample.request 1 5)) Scenario.store1
    = (Ok (mkResponse 201 (JTask row e i)),
       mkStore (projects Scenario.store1) (tasks Scenario.store1 ++ [row]) 3)
    /\ id row = 2 /\ projectID row = 1 /\ taskLevel row = 1 /\ parentID row = 5.
Proof.
  apply (createTask_appends_one_row Sample.parse Sample.stringify Sample.now
           Scenario.store1 (Sample.request 1 5) 1 5).
  - intros t [<-|[]]. simpl. lia.
  - exists (mkProject 1 [("name"%string, VStr "P1")]). split; [now left|reflexivity].
  - reflexivity.
  - reflexivity.
  - left. reflexivity.
Defined.

Lemma createTask_keeps_identifiers_witness :
  let s' := snd (run (Sample.create (Sample.request 2 1)) Scenario.store1) in
  fresh_ids s' /\ unique_ids s' /\ 0 < nextTaskId s'.
Proof.
  apply (createTask_keeps_identifiers Sample.parse Sample.stringify Sample.now
           Scenario.store1 (Sample.request 2 1)).
  - intros t [<-|[]]. simpl. lia.
  - unfold unique_ids. simpl. repeat constructor. intros [].
  - simpl. lia.
Defined.

Lemma createTask_then_deleteTask_witness :
  run (deleteTask "3") Scenario.store3
  = (Ok (mkResponse 200 (JDeleted 2)),
     mkStore (projects Scenario.store2) (tasks Scenario.store2) 4)
  /\ run (deleteTask "3")
         (snd (run (Sample.create (Sample.request_text "3" 2)) Scenario.store2))
     = (Ok (mkResponse 200 (JDeleted 1)),
        mkStore (projects Scenario.store2) (tasks Scenario.store2) 4).
Proof.
  split.
  - refine (createTask_then_deleteTask Sample.parse Sample.stringify Sample.now
              Scenario.store2 Scenario.store3 (Sample.request 3 2)
              (Cases.row Scenario.store3 2) (VArr []) (VObj []) "3" Level3ID
              _ _ _ _ _ _ _).
    + intros t [<-|[<-|[]]]; simpl; lia.
    + unfold unique_ids. simpl. repeat constructor; simpl; intuition lia.
    + simpl. lia.
    + vm_compute. reflexivity.
    + reflexivity.
    + reflexivity.
    + intros x [<-|[<-|[]]]; simpl; lia.
  - refine (createTask_then_deleteTask Sample.parse Sample.stringify Sample.now
              Scenario.store2
              (snd (run (Sample.create (Sample.request_text "3" 2)) Scenario.store2))
              (Sample.request_text "3" 2)
              (Cases.row (snd (run (Sample.create (Sample.request_text "3" 2))
                                   Scenario.store2)) 2)
              (VArr []) (VObj []) "3" Level3ID
              _ _ _ _ _ _ _).
    + intros t [<-|[<-|[]]]; simpl; lia.
    + unfold unique_ids. simpl. repeat constructor; simpl; intuition lia.
    + simpl. lia.
    + vm_compute. reflexivity.
    + reflexivity.
    + reflexivity.
    + intros x [<-|[<-|[]]]; simpl; lia.
Defined.

Lemma createTask_level_as_text_witness :
  exists row,
    created (fst (run (Sample.create (Sample.request_text "2" 1)) Scenario.store1))
    = Some row
    /\ taskLevel row = 2 /\ id row = 2
    /\ level1ID row = 1 /\ level2ID row = 0.
Proof.
  eexists. split; [vm_compute; reflexivity|].
  pose (s' := snd (run (Sample.create (Sample.request_text "2" 1)) Scenario.store1)).
  pose (P := Cases.row Scenario.store1 0).
  destruct (createTask_level_as_text Sample.parse Sample.stringify Sample.now
              Scenario.store1 s' (Sample.request_text "2" 1) (Cases.row s' 1) P
              (VArr []) (VObj []) "2") as (Hlevel & Hid & Hcols).
  - intros t [<-|[]]. simpl. lia.
  - unfold unique_ids. simpl. repeat constructor. intros [].
  - vm_compute. reflexivity.
  - reflexivity.
  - vm_compute. reflexivity.
  - now left.
  - reflexivity.
  - split; [reflexivity|]. split; [exact Hid|].
    split; [exact (Hcols Level1ID)|exact (Hcols Level2ID)].
Defined.

(** ** PUT /tasks/:id: every outcome *)

Section UpdateTask.

Variable JSON_parse : string -> option value.
Variable JSON_stringify : value -> string.
Variable toISODate : value -> option value.
Variable now : value.

(** The loop over the allow-list does not touch the connection: it gives
    its assignments or throws. *)
Lemma collect_updates_total (updates : list (string * value)) (fields : list string) :
  exists o,
    (forall c, collect_updates toISODate fields updates c = (o, c)) /\
    (forall asg, o = Ok asg ->
                 Forall is_SetCol asg /\
                 forall f v, In (SetCol f v) asg <->
                             In f fields /\ is_undefined (lookup f updates) = false
                             /\ v = stored_value toISODate f updates).
Proof.
  induction fields as [|f fields IH]; simpl.
  - exists (Ok []). split; [reflexivity|]. intros asg [= <-].
    split; [constructor|]. intros f v. split; [intros []|intros [[] _]].
  - destruct IH as [o [Hrun Hspec]].
    destruct (is_undefined (lookup f updates)) eqn:Hu.
    + exists o. split; [exact Hrun|]. intros asg Ho.
      destruct (Hspec asg Ho) as [Hall Hin]. split; [exact Hall|].
      intros g v. rewrite Hin. split.
      * intros (H1 & H2 & H3). auto.
      * intros ([<-|H1] & H2 & H3); [congruence|auto].
    + assert (Hv : (exists e, forall c,
                       (if String.eqb f "dueDate" && truthy (lookup f updates)
                        then formatDateForMySQL toISODate (lookup f updates)
                        else ret (lookup f updates)) c = (Thrown e, c))
                   \/ forall c,
                       (if String.eqb f "dueDate" && truthy (lookup f updates)
                        then formatDateForMySQL toISODate (lookup f updates)
                        else ret (lookup f updates)) c
                       = (Ok (stored_value toISODate f updates), c)).
      { unfold stored_value, formatDateForMySQL.
        destruct (String.eqb f "dueDate" && truthy (lookup f updates)) eqn:Hd;
          [|now right].
        apply andb_true_iff in Hd. destruct Hd as [_ Ht]. rewrite Ht. simpl.
        destruct (toISODate (lookup f updates));
          [now right|left; exists "RangeError"%string; reflexivity]. }
      destruct Hv as [[e Hv]|Hv].
      * exists (Thrown e). split; [|discriminate].
        intros c. unfold bind. now rewrite Hv.
      * destruct o as [asg|e].
        -- exists (Ok (SetCol f (stored_value toISODate f updates) :: asg)).
           split; [intros c; unfold bind; now rewrite Hv, Hrun|].
           intros asg' [= <-]. destruct (Hspec asg eq_refl) as [Hall Hin].
           split; [constructor; [exact I|exact Hall]|].
           intros g v. simpl. rewrite Hin. split.
           ++ intros [[= <- <-]|(H1 & H2 & H3)]; auto.
           ++ intros ([<-|H1] & H2 & H3); [left; now subst|right; auto].
        -- exists (Thrown e). split; [|discriminate].
           intros c. unfold bind. now rewrite Hv, Hrun.
Qed.

(** Whatever [updateTask] answers, the store is the one it started from or
    the one where the rows with the identifier went through the
    assignments of the request. *)
Lemma updateTask_outcomes (s : store) (taskId : string)
      (updates : list (string * value)) :
  let s' := snd (run (updateTask JSON_parse JSON_stringify toISODate now
                                 taskId updates) s) in
  s' = s \/
  exists cur rest asg,
    filter (fun r => sql_eq (id r) (VStr taskId)) (tasks s) = cur :: rest /\
    (forall c, collect_updates toISODate allowedUpdates updates c = (Ok asg, c)) /\
    update_fields JSON_stringify updates cur asg <> [] /\
    s' = mkStore (projects s)
                 (updated_tasks taskId
                    (update_fields JSON_stringify updates cur asg
                     ++ [SetCol "modifiedAt" now]) (tasks s))
                 (nextTaskId s).
Proof.
  intros s'.
  destruct (filter (fun r => sql_eq (id r) (VStr taskId)) (tasks s))
    as [|cur rest] eqn:Hsel.
  - left. subst s'.
    unfold run, updateTask, try_catch, bind, beginTransaction,
      select_tasks_by_id, query; simpl. now rewrite Hsel.
  - destruct (collect_updates_total updates allowedUpdates) as [o [Hcol _]].
    destruct o as [asg|e].
    + destruct (update_fields JSON_stringify updates cur asg) as [|a0 fs] eqn:Hf.
      * left. subst s'.
        unfold run, updateTask, try_catch, bind, beginTransaction,
          select_tasks_by_id, query; cbn -[allowedUpdates].
        rewrite Hsel, Hcol. fold (update_fields JSON_stringify updates cur asg).
        now rewrite Hf.
      * right. exists cur, rest, asg.
        assert (Hne : update_fields JSON_stringify updates cur asg <> [])
          by (rewrite Hf; discriminate).
        split; [reflexivity|]. split; [exact Hcol|]. split; [exact Hne|].
        subst s'.
        now rewrite (updateTask_run JSON_parse JSON_stringify toISODate now
                       s taskId updates cur rest asg Hsel Hcol Hne).
    + left. subst s'.
      unfold run, updateTask, try_catch, bind, beginTransaction,
        select_tasks_by_id, query; cbn -[allowedUpdates].
      now rewrite Hsel, Hcol.
Qed.

Lemma apply_assignment_hierarchy (t : task) (a : assignment) :
  hierarchy_columns (apply_assignment t a) = hierarchy_columns t /\
  info (apply_assignment t a) = info t.
Proof.
  destruct a; simpl; [|auto]. now destruct (String.eqb column "estHours").
Qed.

Lemma fold_assignments_hierarchy (asg : list assignment) (t : task) :
  hierarchy_columns (fold_left apply_assignment asg t) = hierarchy_columns t /\
  info (fold_left apply_assignment asg t) = info t.
Proof.
  revert t. induction asg as [|a asg IH]; intros t; simpl; [auto|].
  destruct (IH (apply_assignment t a)) as [H1 H2].
  destruct (apply_assignment_hierarchy t a) as [H3 H4].
  split; congruence.
Qed.

Lemma filter_others_updated (taskId : string) (fields : list assignment)
      (l : list task) :
  filter (fun r => negb (sql_eq (id r) (VStr taskId)))
         (map (fun r => if sql_eq (id r) (VStr taskId)
                        then fold_left apply_assignment fields r else r) l)
  = filter (fun r => negb (sql_eq (id r) (VStr taskId))) l.
Proof.
  induction l as [|a l IH]; simpl; [reflexivity|].
  destruct (sql_eq (id a) (VStr taskId)) eqn:Ha.
  - rewrite fold_assignments_id, Ha. simpl. exact IH.
  - rewrite Ha. simpl. now rewrite IH.
Qed.

(** X15: whatever the request holds and whatever the answer is, [updateTask]
    leaves the projects, the next identifier, the number and order of the
    rows, their hierarchy columns (identifier, project, level, parent and
    the four ancestor columns) and their [info], and every row with another
    identifier, as they were. *)
Theorem updateTask_keeps_hierarchy (s : store) (taskId : string)
        (updates : list (string * value)) :
  let s' := snd (run (updateTask JSON_parse JSON_stringify toISODate now
                                 taskId updates) s) in
  projects s' = projects s /\
  nextTaskId s' = nextTaskId s /\
  map hierarchy_columns (tasks s') = map hierarchy_columns (tasks s) /\
  map info (tasks s') = map info (tasks s) /\
  filter (fun r => negb (sql_eq (id r) (VStr taskId))) (tasks s')
  = filter (fun r => negb (sql_eq (id r) (VStr taskId))) (tasks s).
Proof.
  intros s'.
  destruct (updateTask_outcomes s taskId updates)
    as [Hsame|(cur & rest & asg & _ & _ & _ & Hs')]; fold s' in Hsame || fold s' in Hs'.
  - rewrite Hsame. auto.
  - rewrite Hs'. cbn [projects nextTaskId tasks]. unfold updated_tasks.
    split; [reflexivity|]. split; [reflexivity|].
    set (fields := update_fields JSON_stringify updates cur asg
                   ++ [SetCol "modifiedAt" now]).
    repeat split.
    + rewrite map_map. apply map_ext. intros r.
      destruct (sql_eq (id r) (VStr taskId)); [|reflexivity].
      apply fold_assignments_hierarchy.
    + rewrite map_map. apply map_ext. intros r.
      destruct (sql_eq (id r) (VStr taskId)); [|reflexivity].
      apply fold_assignments_hierarchy.
    + apply filter_others_updated.
Qed.

(** X12: an update of an identifier no row has is answered 404 "Task not
    found" and changes nothing. *)
Theorem updateTask_unknown_id (s : store) (taskId : string)
        (updates : list (string * value)) :
  (forall t, In t (tasks s) -> sql_eq (id t) (VStr taskId) = false) ->
  run (updateTask JSON_parse JSON_stringify toISODate now taskId updates) s
  = (Ok (mkResponse 404 (JError "Task not found")), s).
Proof.
  intros Hnone.
  unfold run, updateTask, try_catch, bind, beginTransaction,
    select_tasks_by_id, query; simpl.
  now rewrite (filter_none _ _ Hnone).
Qed.

(** X13: a request that gives none of the allow-listed fields is answered
    400 "No valid fields to update" and changes nothing, not even
    [modifiedAt], whatever other fields it holds. *)
Theorem updateTask_no_valid_fields (s : store) (taskId : string)
        (updates : list (string * value)) (cur : task) (rest : list task) :
  filter (fun r => sql_eq (id r) (VStr taskId)) (tasks s) = cur :: rest ->
  (forall f, In f allowedUpdates -> is_undefined (lookup f updates) = true) ->
  run (updateTask JSON_parse JSON_stringify toISODate now taskId updates) s
  = (Ok (mkResponse 400 (JError "No valid fields to update")), s).
Proof.
  intros Hsel Hnone.
  assert (Hcol : forall fields,
             incl fields allowedUpdates ->
             forall c, collect_updates toISODate fields updates c = (Ok [], c)).
  { induction fields as [|f fields IH]; intros Hincl c; [reflexivity|].
    cbn [collect_updates]. rewrite (Hnone f (Hincl f (or_introl eq_refl))).
    apply IH. intros g Hg. apply Hincl. now right. }
  unfold run, updateTask, try_catch, bind, beginTransaction,
    select_tasks_by_id, query; cbn -[allowedUpdates].
  rewrite Hsel, (Hcol allowedUpdates (incl_refl _)).
  rewrite (Hnone "estHours"%string) by (simpl; tauto).
  reflexivity.
Qed.

(** X14: a request whose [dueDate] is given, not empty and not a date the
    runtime can format is answered 500 "Failed to update task" and changes
    nothing: the fault comes before the UPDATE. *)
Theorem updateTask_invalid_dueDate (s : store) (taskId : string)
        (updates : list (string * value)) (cur : task) (rest : list task) :
  filter (fun r => sql_eq (id r) (VStr taskId)) (tasks s) = cur :: rest ->
  truthy (lookup "dueDate" updates) = true ->
  toISODate (lookup "dueDate" updates) = None ->
  run (updateTask JSON_parse JSON_stringify toISODate now taskId updates) s
  = (Ok (mkResponse 500 (JError "Failed to update task")), s).
Proof.
  intros Hsel Htruthy Hbad.
  assert (Hdef : is_undefined (lookup "dueDate" updates) = false)
    by (destruct (lookup "dueDate" updates); simpl in *; congruence).
  assert (Hcol : forall fields,
             In "dueDate"%string fields ->
             forall c, collect_updates toISODate fields updates c
                       = (Thrown "RangeError", c)).
  { induction fields as [|f fields IH]; intros Hin c; [destruct Hin|].
    cbn [collect_updates].
    destruct (String.eqb_spec f "dueDate") as [->|Hf].
    - rewrite Hdef. simpl. rewrite Htruthy. unfold bind, formatDateForMySQL.
      rewrite Htruthy. simpl. now rewrite Hbad.
    - destruct Hin as [Hin|Hin]; [congruence|].
      destruct (is_undefined (lookup f updates)); [now apply IH|].
      simpl. unfold bind, ret. now rewrite (IH Hin). }
  unfold run, updateTask, try_catch, bind, beginTransaction,
    select_tasks_by_id, query; cbn -[allowedUpdates].
  rewrite Hsel, Hcol by (simpl; tauto).
  reflexivity.
Qed.

(** X16: the history column is written only for a task above level 1 whose
    estimate the request gives: for a task at level 1 (or below), or when
    the request has no [estHours], every [estPrevHours] stays as it was. *)
Theorem updateTask_keeps_estPrevHours (s : store) (taskId : string)
        (updates : list (string * value)) (cur : task) (rest : list task) :
  filter (fun r => sql_eq (id r) (VStr taskId)) (tasks s) = cur :: rest ->
  taskLevel cur <= 1 \/ is_undefined (lookup "estHours" updates) = true ->
  map estPrevHours
      (tasks (snd (run (updateTask JSON_parse JSON_stringify toISODate now
                                   taskId updates) s)))
  = map estPrevHours (tasks s).
Proof.
  intros Hsel Hcond.
  destruct (updateTask_outcomes s taskId updates)
    as [Hsame|(cur' & rest' & asg & Hsel' & Hcol & _ & Hs')];
    cbv zeta in *; [now rewrite Hsame|].
  rewrite Hsel in Hsel'. inversion Hsel'; subst cur' rest'.
  rewrite Hs'. cbn [tasks]. unfold updated_tasks. rewrite map_map.
  apply map_ext. intros r.
  destruct (sql_eq (id r) (VStr taskId)); [|reflexivity].
  apply fold_SetCol_estPrevHours.
  destruct (collect_updates_total updates allowedUpdates) as [o [Hcol' Hspec]].
  assert (Ho : o = Ok asg).
  { specialize (Hcol (pooled s)). specialize (Hcol' (pooled s)). congruence. }
  destruct (Hspec asg Ho) as [Hall _].
  assert (Hfields : update_fields JSON_stringify updates cur asg = asg).
  { unfold update_fields. destruct Hcond as [Hl|Hu].
    - replace (1 <? taskLevel cur) with false
        by (symmetry; apply Z.ltb_ge; exact Hl).
      now rewrite andb_false_r.
    - now rewrite Hu. }
  rewrite Hfields. apply Forall_app. split; [exact Hall|].
  constructor; [exact I|constructor].
Qed.

Lemma lookup_assign_same (k : string) (v : value) (o : list (string * value)) :
  lookup k (assign k v o) = v.
Proof.
  induction o as [|[k' v'] o IH]; simpl.
  - now rewrite String.eqb_refl.
  - destruct (String.eqb k k') eqn:E; simpl; [now rewrite String.eqb_refl|].
    now rewrite E.
Qed.

Lemma lookup_assign_other (k g : string) (v : value) (o : list (string * value)) :
  k <> g -> lookup k (assign g v o) = lookup k o.
Proof.
  intros Hne. induction o as [|[k' v'] o IH]; simpl.
  - now replace (String.eqb k g) with false by (symmetry; now apply String.eqb_neq).
  - destruct (String.eqb_spec g k') as [->|Hg]; simpl.
    + now replace (String.eqb k k') with false
        by (symmetry; now apply String.eqb_neq).
    + destruct (String.eqb k k'); [reflexivity|exact IH].
Qed.

Lemma get_col_apply (f : string) (t : task) (a : assignment) :
  get_col f (apply_assignment t a)
  = match a with
    | SetCol g w => if String.eqb f g then w else get_col f t
    | SetEstPrevHours _ => get_col f t
    end.
Proof.
  destruct a as [g w|txt]; [|reflexivity]. unfold get_col, apply_assignment.
  destruct (String.eqb_spec g "estHours") as [->|Hg].
  - simpl. now destruct (String.eqb f "estHours").
  - simpl. destruct (String.eqb_spec f "estHours") as [->|Hf].
    + now replace (String.eqb "estHours" g) with false
        by (symmetry; apply String.eqb_neq; congruence).
    + destruct (String.eqb_spec f g) as [->|Hfg].
      * apply lookup_assign_same.
      * now apply lookup_assign_other.
Qed.

(** A column holds the value the assignments give it, when they all give
    it the same. *)
Lemma fold_get_col (f : string) (v : value) (l : list assignment) :
  forall t,
    (forall w, In (SetCol f w) l -> w = v) ->
    In (SetCol f v) l \/ get_col f t = v ->
    get_col f (fold_left apply_assignment l t) = v.
Proof.
  induction l as [|a l IH]; intros t Hall Hsome; simpl.
  - destruct Hsome as [[]|H]; exact H.
  - apply IH; [intros w Hw; apply Hall; now right|].
    rewrite get_col_apply. destruct a as [g w|txt].
    + destruct (String.eqb_spec f g) as [<-|Hfg].
      * right. apply Hall. now left.
      * destruct Hsome as [[H|H]|H]; [congruence|now left|now right].
    + destruct Hsome as [[H|H]|H]; [discriminate|now left|now right].
Qed.

(** X17: after an update that reaches its UPDATE statement, every row with
    the identifier holds, in each allow-listed column the request gives,
    the value of the request (for a [dueDate] that is not empty, its
    formatted form), and holds the time of the request in [modifiedAt]. *)
Theorem updateTask_stores_request (s : store) (taskId : string)
        (updates : list (string * value)) (cur : task) (rest : list task)
        (field : string) :
  filter (fun r => sql_eq (id r) (VStr taskId)) (tasks s) = cur :: rest ->
  dueDate_ok toISODate updates ->
  In field allowedUpdates ->
  is_undefined (lookup field updates) = false ->
  forall r',
    In r' (tasks (snd (run (updateTask JSON_parse JSON_stringify toISODate now
                                       taskId updates) s))) ->
    sql_eq (id r') (VStr taskId) = true ->
    get_col field r' = stored_value toISODate field updates /\
    get_col "modifiedAt" r' = now.
Proof.
  intros Hsel Hdate Hfield Hgiven r' Hin Hid.
  destruct (collect_updates_ok toISODate updates allowedUpdates Hdate)
    as [asg [Hcol [_ Hne]]].
  destruct (collect_updates_total updates allowedUpdates) as [o [Hcol' Hspec]].
  assert (Ho : o = Ok asg).
  { specialize (Hcol (pooled s)). specialize (Hcol' (pooled s)). congruence. }
  destruct (Hspec asg Ho) as [Hall Hasg].
  assert (Hne' : update_fields JSON_stringify updates cur asg <> []).
  { unfold update_fields. pose proof (Hne field Hfield Hgiven) as Hn.
    destruct (_ && _); [|exact Hn].
    intros H. apply app_eq_nil in H. destruct H as [_ H]. discriminate. }
  rewrite (updateTask_run JSON_parse JSON_stringify toISODate now
             s taskId updates cur rest asg Hsel Hcol Hne') in Hin.
  cbn [snd tasks] in Hin. apply in_map_iff in Hin. destruct Hin as [r [Hr Hin]].
  destruct (sql_eq (id r) (VStr taskId)) eqn:Hrid; [|subst r'; congruence].
  subst r'.
  assert (Hparts : forall g w,
             In (SetCol g w) (update_fields JSON_stringify updates cur asg
                              ++ [SetCol "modifiedAt" now]) ->
             In (SetCol g w) asg \/ (g = "modifiedAt"%string /\ w = now)).
  { intros g w Hg. apply in_app_or in Hg. destruct Hg as [Hg|[[= <- <-]|[]]]; [|auto].
    left. unfold update_fields in Hg. destruct (_ && _); [|exact Hg].
    apply in_app_or in Hg. destruct Hg as [Hg|[Hg|[]]]; [exact Hg|discriminate]. }
  assert (Hnot : ~ In "modifiedAt"%string allowedUpdates).
  { simpl. intros H. repeat (destruct H as [H|H]; [discriminate|]). exact H. }
  split.
  - apply fold_get_col.
    + intros w Hw. destruct (Hparts _ _ Hw) as [Hw'|[-> _]].
      * now apply Hasg in Hw'.
      * contradiction.
    + left. apply in_or_app. left.
      assert (Hfa : In (SetCol field (stored_value toISODate field updates)) asg)
        by (apply Hasg; auto).
      unfold update_fields. destruct (_ && _); [|exact Hfa].
      apply in_or_app. now left.
  - apply fold_get_col.
    + intros w Hw. destruct (Hparts _ _ Hw) as [Hw'|[_ ->]]; [|reflexivity].
      apply Hasg in Hw'. destruct Hw' as [Hw' _]. contradiction.
    + left. apply in_or_app. right. now left.
Qed.

End UpdateTask.

Lemma updateTask_unknown_id_witness :
  run (Sample.update "9" [("name"%string, VStr "x")]) Scenario.store2
  = (Ok (mkResponse 404 (JError "Task not found")), Scenario.store2).
Proof.
  apply (updateTask_unknown_id Sample.parse Sample.stringify Sample.toISODate
           Sample.now).
  intros t [<-|[<-|[]]]; reflexivity.
Defined.

Lemma updateTask_no_valid_fields_witness :
  run (Sample.update "2" [("taskLevel"%string, VNum 1); ("level1ID"%string, VNum 7)])
      Scenario.store2
  = (Ok (mkResponse 400 (JError "No valid fields to update")), Scenario.store2).
Proof.
  apply (updateTask_no_valid_fields Sample.parse Sample.stringify Sample.toISODate
           Sample.now Scenario.store2 "2" _ (Cases.row Scenario.store2 1) []).
  - reflexivity.
  - intros f Hf. simpl in Hf.
    repeat (destruct Hf as [<-|Hf]; [reflexivity|]). destruct Hf.
Defined.

Lemma updateTask_invalid_dueDate_witness :
  run (Sample.update "2" [("name"%string, VStr "x"); ("dueDate"%string, VNum 5)])
      Scenario.store2
  = (Ok (mkResponse 500 (JError "Failed to update task")), Scenario.store2).
Proof.
  apply (updateTask_invalid_dueDate Sample.parse Sample.stringify Sample.toISODate
           Sample.now Scenario.store2 "2" _ (Cases.row Scenario.store2 1) []).
  - reflexivity.
  - reflexivity.
  - reflexivity.
Defined.

Lemma updateTask_keeps_estPrevHours_witness :
  map estPrevHours
      (tasks (snd (run (Sample.update "1" [("estHours"%string, VNum 9)])
                       Scenario.store2)))
  = map estPrevHours (tasks Scenario.store2).
Proof.
  apply (updateTask_keeps_estPrevHours Sample.parse Sample.stringify
           Sample.toISODate Sample.now Scenario.store2 "1" _
           (Cases.row Scenario.store2 0) []).
  - reflexivity.
  - left. simpl. lia.
Defined.

Lemma updateTask_stores_request_witness :
  let r' := Cases.row
              (snd (run (Sample.update "2" [("estHours"%string, VNum 9);
                                            ("dueDate"%string, VStr "2024-05-01")])
                        Scenario.store2)) 1 in
  get_col "dueDate" r' = VStr "2024-05-01" /\ get_col "modifiedAt" r' = Sample.now.
Proof.
  apply (updateTask_stores_request Sample.parse Sample.stringify Sample.toISODate
           Sample.now Scenario.store2 "2"
           [("estHours"%string, VNum 9); ("dueDate"%string, VStr "2024-05-01")]
           (Cases.row Scenario.store2 1) [] "dueDate").
  - reflexivity.
  - intros _ H. discriminate H.
  - simpl. tauto.
  - reflexivity.
  - vm_compute. tauto.
  - reflexivity.
Defined.

(** ** DELETE /projects/:id, again *)

(** X18: deleting a project a second time is answered 404 "Project not
    found" and changes nothing, whatever the first deletion answered. *)
Theorem deleteProject_twice (s : store) (projectId : string) :
  run (deleteProject projectId) (snd (run (deleteProject projectId) s))
  = (Ok (mkResponse 404 (JError "Project not found")),
     snd (run (deleteProject projectId) s)).
Proof.
  assert (Hrun : forall s0,
             filter (fun p => sql_eq (p_id p) (VStr projectId)) (projects s0) = [] ->
             run (deleteProject projectId) s0
             = (Ok (mkResponse 404 (JError "Project not found")), s0)).
  { intros s0 Hnone.
    unfold run, deleteProject, try_catch, bind, beginTransaction,
      delete_tasks_by_project, delete_project_by_id, query; simpl.
    now rewrite Hnone. }
  apply Hrun.
  destruct (filter (fun p => sql_eq (p_id p) (VStr projectId)) (projects s))
    as [|p ps] eqn:Hsel.
  - now rewrite (Hrun s Hsel).
  - unfold run, deleteProject, try_catch, bind, beginTransaction,
      delete_tasks_by_project, delete_project_by_id, query; simpl.
    rewrite Hsel. simpl List.length.
    replace (Z.of_nat (S (List.length ps)) =? 0) with false
      by (symmetry; apply Z.eqb_neq; lia).
    simpl. apply filter_none. intros q Hq. apply filter_In in Hq.
    destruct Hq as [_ Hq]. now apply negb_true_iff in Hq.
Qed.

(** ** buildTaskHierarchy on any table *)

Section Nesting.

Variable JSON_parse : string -> option value.

Lemma wf_nil (h : nat) (level parent : Z) : wf JSON_parse h level parent [].
Proof. destruct h; simpl; [reflexivity|constructor]. Qed.

(** A node [build] makes: the decoded form of a selected row, with the
    forest built under that row as the children of its level. *)
Lemma build_node (n : nat) (T : list task) (p : Z) (nd : taskData) :
  In nd (build JSON_parse (S n) T p (5 - Z.of_nat (S n))) ->
  In (td_task nd) (sub p (5 - Z.of_nat (S n)) T) /\
  node_ok JSON_parse (5 - Z.of_nat (S n)) p nd /\
  (kids (5 - Z.of_nat (S n)) nd
   = build JSON_parse n T (id (td_task nd)) (5 - Z.of_nat n)
   \/ kids (5 - Z.of_nat (S n)) nd = []).
Proof.
  set (L := 5 - Z.of_nat (S n)).
  assert (HL : 5 - Z.of_nat n = L + 1) by (subst L; lia).
  cbn [build]. fold (sub p L T). intros Hin.
  apply in_map_iff in Hin. destruct Hin as [task [Hnd Htask]].
  assert (Hsel := Htask). apply filter_In in Hsel. destruct Hsel as [_ Hsel].
  apply andb_true_iff in Hsel. destruct Hsel as [Hp Hl].
  apply Z.eqb_eq in Hp, Hl.
  unfold node_ok, kids. rewrite HL.
  destruct (Z.eqb_spec L 1) as [H1|H1];
    [|destruct (Z.eqb_spec L 2) as [H2|H2];
      [|destruct (Z.eqb_spec L 3) as [H3|H3]]];
    subst nd; cbn [td_task td_id td_estPrevHours td_info subtasks actionItems
                   subactionItems opt_list];
    (split; [exact Htask|]); (split; [repeat split; auto|]).
  - left. now rewrite H1.
  - left. now rewrite H2.
  - left. now rewrite H3.
  - now right.
Qed.

Lemma build_wf (n : nat) : forall (T : list task) (p : Z),
    wf JSON_parse n (5 - Z.of_nat n) p (build JSON_parse n T p (5 - Z.of_nat n)).
Proof.
  induction n as [|n IH]; intros T p; [reflexivity|].
  cbn [wf]. apply Forall_forall. intros nd Hnd.
  destruct (build_node n T p nd Hnd) as (_ & Hok & Hkids).
  split; [exact Hok|].
  replace (5 - Z.of_nat (S n) + 1) with (5 - Z.of_nat n) by lia.
  destruct Hkids as [-> | ->]; [apply IH|apply wf_nil].
Qed.

Lemma build_rows (n : nat) : forall (T : list task) (p : Z) (r : task),
    In r (flatten (build JSON_parse n T p (5 - Z.of_nat n))) -> In r T.
Proof.
  induction n as [|n IH]; intros T p r Hr; [destruct Hr|].
  apply in_flat_map in Hr. destruct Hr as [nd [Hnd Hr]].
  destruct (build_node n T p nd Hnd) as (Hrow & Hok & Hkids).
  rewrite (flatten_node_kids JSON_parse _ _ _ Hok) in Hr.
  destruct Hr as [<-|Hr].
  - apply filter_In in Hrow. apply Hrow.
  - destruct Hkids as [Hk|Hk]; rewrite Hk in Hr; [|destruct Hr].
    eapply IH, Hr.
Qed.

(** The rows of a forest lie above the level its height allows. *)
Lemma wf_levels_below (h : nat) : forall level parent tree r,
    wf JSON_parse h level parent tree -> In r (flatten tree) ->
    taskLevel r < level + Z.of_nat h.
Proof.
  induction h as [|h IH]; intros level parent tree r Hwf Hr.
  - simpl in Hwf. subst tree. destruct Hr.
  - induction tree as [|nd tree IHt]; [destruct Hr|].
    apply wf_cons in Hwf. destruct Hwf as (Hnd & Hkids & Htree).
    rewrite flatten_cons in Hr. apply in_app_or in Hr.
    destruct Hr as [Hr|Hr]; [|now apply IHt].
    rewrite (flatten_node_kids JSON_parse _ _ _ Hnd) in Hr.
    destruct Hr as [<-|Hr].
    + destruct Hnd as (Hl & _). lia.
    + specialize (IH _ _ _ _ Hkids Hr). lia.
Qed.

(** X19: whatever the table holds, the forest [buildTaskHierarchy] answers
    from level 1 has the shape of a 4-level tree: every node is the decoded
    form of its row, lies at the level of its depth under the node above
    it, and has its children under the field of its level and no other. *)
Theorem buildTaskHierarchy_shape (T : list task) (parentId : Z) :
  wf JSON_parse 4 1 parentId (buildTaskHierarchy JSON_parse T parentId 1).
Proof. exact (build_wf 4 T parentId). Qed.

(** X20: whatever the table holds, every row in the forest
    [buildTaskHierarchy] answers from level 1 is a row of the table at a
    level from 1 to 4, and is a root (level 1 under the given parent) or
    stands in the forest together with its parent row, one level up: rows
    at other levels and rows whose chain of parents does not reach a root
    are left out. *)
Theorem buildTaskHierarchy_rows (T : list task) (parentId : Z) (r : task) :
  In r (flatten (buildTaskHierarchy JSON_parse T parentId 1)) ->
  In r T /\
  1 <= taskLevel r <= 4 /\
  ((taskLevel r = 1 /\ parentID r = parentId) \/
   exists d, In d (flatten (buildTaskHierarchy JSON_parse T parentId 1)) /\
             id d = parentID r /\ taskLevel d + 1 = taskLevel r).
Proof.
  intros Hr. pose proof (build_wf 4 T parentId) as Hwf.
  unfold buildTaskHierarchy in *.
  split; [exact (build_rows 4 T parentId r Hr)|].
  split.
  - pose proof (wf_levels JSON_parse _ _ _ _ _ Hwf Hr).
    pose proof (wf_levels_below _ _ _ _ _ Hwf Hr). simpl in *. lia.
  - destruct (wf_parent JSON_parse _ _ _ _ _ Hwf Hr) as [Hroot|Hd].
    + left. split; [exact Hroot|].
      exact (wf_root_parent JSON_parse _ _ _ _ _ Hwf Hr Hroot).
    + now right.
Qed.

End Nesting.

Lemma buildTaskHierarchy_rows_witness :
  In (Cases.row Scenario.store6 3) (tasks Scenario.store6) /\
  1 <= 4 <= 4 /\
  ((4 = 1 /\ 3 = 0) \/
   exists d, In d (flatten (Sample.hierarchy (tasks Scenario.store6) 0 1)) /\
             id d = 3 /\ taskLevel d + 1 = 4).
Proof.
  apply (buildTaskHierarchy_rows Sample.parse (tasks Scenario.store6) 0
           (Cases.row Scenario.store6 3)).
  vm_compute. tauto.
Defined.

(** ** The project handlers *)

Section Projects.

Variable JSON_parse : string -> option value.
Variable toISODate : value -> option value.
Variable toISOString : value -> option value.
Variable now : value.

(** *** POST /projects *)

(** X23: a request in which a required field (user, name, start date, end
    date, workspace) is absent or falsy (an empty name, a user 0) is
    answered 400 with the falsy required fields listed in their order,
    and nothing is inserted. *)
Theorem createProject_missing_fields (s : store) (insertId : Z)
        (body : list (string * value)) (field : string) :
  In field requiredFields ->
  truthy (lookup field body) = false ->
  run (createProject toISODate now insertId body) s
  = (Ok (mkProjectResponse 400
           (PError ("Missing required fields: "
                    ++ array_join ", "
                         (filter (fun f => negb (truthy (lookup f body)))
                                 requiredFields)))),
     s).
Proof.
  intros Hfield Hfalsy.
  destruct (filter_some (fun f => negb (truthy (lookup f body))) requiredFields
                        field Hfield) as [a [r Hmissing]].
  { now rewrite Hfalsy. }
  unfold run, createProject, try_catch. rewrite Hmissing. reflexivity.
Qed.

Lemma select_inserted_project (insertId : Z) (row : project) (l : list project) :
  p_id row = insertId ->
  (forall p, In p l -> p_id p <> insertId) ->
  filter (fun r => sql_eq (p_id r) (VNum insertId)) (l ++ [row]) = [row].
Proof.
  intros Hid Hfresh. rewrite filter_app, filter_none.
  - simpl. now rewrite sql_eq_num, Hid, Z.eqb_refl.
  - intros p Hp. rewrite sql_eq_num. apply Z.eqb_neq. now apply Hfresh.
Qed.

(** X24: a request with its five required fields truthy and dates the
    runtime formats is answered 201 with the new project and an empty task
    list; the table [projects] gains that one row, with the formatted
    dates, 0 for hours the request leaves out, and the time of the request
    in [createdAt] and [modifiedAt]; the tasks are untouched. *)
Theorem createProject_inserts (s : store) (insertId : Z)
        (body : list (string * value)) (startDate endDate created : value) :
  (forall f, In f requiredFields -> truthy (lookup f body) = true) ->
  toISODate (lookup "startDate" body) = Some startDate ->
  toISODate (lookup "endDate" body) = Some endDate ->
  toISODate now = Some created ->
  (forall p, In p (projects s) -> p_id p <> insertId) ->
  let row := mkProject insertId
               (project_columns body startDate endDate created created) in
  run (createProject toISODate now insertId body) s
  = (Ok (mkProjectResponse 201 (PProject (Some row) [])),
     mkStore (projects s ++ [row]) (tasks s) (nextTaskId s)).
Proof.
  intros Hreq Hstart Hend Hnow Hfresh row.
  unfold run, createProject, try_catch.
  rewrite filter_none
    by (intros f Hf; now rewrite (Hreq f Hf)).
  unfold bind, format_date, pool_query, insert_project, select_projects_by_id,
    query, written, pooled, bind, ret.
  rewrite Hstart, Hend, Hnow. cbn [working committed inTransaction projects tasks nextTaskId].
  fold row. rewrite (select_inserted_project insertId row (projects s) eq_refl Hfresh).
  reflexivity.
Qed.

(** X25: a request with its required fields truthy whose start date or end
    date the runtime cannot format is answered 500 "Failed to create
    project" and nothing is inserted. *)
Theorem createProject_invalid_date (s : store) (insertId : Z)
        (body : list (string * value)) :
  (forall f, In f requiredFields -> truthy (lookup f body) = true) ->
  toISODate (lookup "startDate" body) = None
  \/ toISODate (lookup "endDate" body) = None ->
  run (createProject toISODate now insertId body) s
  = (Ok (mkProjectResponse 500 (PError "Failed to create project")), s).
Proof.
  intros Hreq Hbad.
  unfold run, createProject, try_catch.
  rewrite filter_none
    by (intros f Hf; now rewrite (Hreq f Hf)).
  unfold bind, format_date, throw, ret.
  destruct (toISODate (lookup "startDate" body)) as [sd|]; [|reflexivity].
  destruct Hbad as [Hbad|Hbad]; [discriminate|]. now rewrite Hbad.
Qed.

(** *** PUT /projects/:id *)

(** The loop over the allow-list does not touch the connection; it gives
    its assignments, at least one when the request gives an allow-listed
    field, unless a date cannot be formatted. *)
Lemma collect_project_updates_total (body : list (string * value))
      (keys : list string) :
  exists o,
    (forall c, collect_project_updates toISODate keys body c = (o, c)) /\
    (project_dates_ok toISODate body ->
     exists asg, o = Ok asg /\
                 ((exists k, In k keys /\ is_undefined (lookup k body) = false)
                  <-> asg <> [])).
Proof.
  induction keys as [|k keys IH]; simpl.
  - exists (Ok []). split; [reflexivity|]. intros _. exists []. split; [reflexivity|].
    split; [intros [k [[] _]]|congruence].
  - destruct IH as [o [Hrun Hspec]].
    destruct (is_undefined (lookup k body)) eqn:Hu.
    + exists o. split; [exact Hrun|]. intros Hok.
      destruct (Hspec Hok) as [asg [Ho Hne]]. exists asg. split; [exact Ho|].
      rewrite <- Hne. split.
      * intros [k' [[<-|Hin] Hk']]; [congruence|eauto].
      * intros [k' [Hin Hk']]. eauto.
    + set (isdate := (String.eqb k "startDate" || String.eqb k "endDate")
                     && truthy (lookup k body)).
      destruct isdate eqn:Hd.
      * unfold format_date.
        destruct (toISODate (lookup k body)) as [d|] eqn:Hfmt.
        -- destruct o as [asg|e].
           ++ exists (Ok ((k, d) :: asg)). split.
              ** intros c. unfold bind, ret. now rewrite Hrun.
              ** intros _. exists ((k, d) :: asg). split; [reflexivity|].
                 split; [discriminate|]. intros _. exists k. auto.
           ++ exists (Thrown e). split.
              ** intros c. unfold bind, ret. now rewrite Hrun.
              ** intros Hok. destruct (Hspec Hok) as [asg [Ho _]]. discriminate.
        -- exists (Thrown "RangeError"). split; [reflexivity|].
           intros Hok. exfalso. subst isdate.
           apply andb_true_iff in Hd. destruct Hd as [Hk Ht].
           apply (Hok k); [|exact Ht|exact Hfmt].
           apply orb_true_iff in Hk.
           destruct Hk as [Hk|Hk]; apply String.eqb_eq in Hk; auto.
      * destruct o as [asg|e].
        -- exists (Ok ((k, lookup k body) :: asg)). split.
           ++ intros c. unfold bind, ret. now rewrite Hrun.
           ++ intros _. exists ((k, lookup k body) :: asg). split; [reflexivity|].
              split; [discriminate|]. intros _. exists k. auto.
        -- exists (Thrown e). split.
           ++ intros c. unfold bind, ret. now rewrite Hrun.
           ++ intros Hok. destruct (Hspec Hok) as [asg [Ho _]]. discriminate.
Qed.

Lemma updated_projects_select (projectId : string) (asg : list (string * value))
      (l : list project) :
  filter (fun r => sql_eq (p_id r) (VStr projectId)) (updated_projects projectId asg l)
  = map (fun r => mkProject (p_id r) (assign_all asg (p_cols r)))
        (filter (fun r => sql_eq (p_id r) (VStr projectId)) l).
Proof.
  unfold updated_projects. induction l as [|a l IH]; simpl; [reflexivity|].
  destruct (sql_eq (p_id a) (VStr projectId)) eqn:Ha; simpl; rewrite Ha.
  - simpl. now rewrite IH.
  - exact IH.
Qed.

Lemma updated_projects_others (projectId : string) (asg : list (string * value))
      (l : list project) :
  map p_id (updated_projects projectId asg l) = map p_id l /\
  filter (fun r => negb (sql_eq (p_id r) (VStr projectId)))
         (updated_projects projectId asg l)
  = filter (fun r => negb (sql_eq (p_id r) (VStr projectId))) l.
Proof.
  unfold updated_projects. induction l as [|a l [IH1 IH2]]; simpl; [auto|].
  destruct (sql_eq (p_id a) (VStr projectId)) eqn:Ha; simpl; rewrite Ha; simpl;
    split; congruence.
Qed.

Lemma updated_projects_none (projectId : string) (asg : list (string * value))
      (l : list project) :
  filter (fun r => sql_eq (p_id r) (VStr projectId)) l = [] ->
  updated_projects projectId asg l = l.
Proof.
  unfold updated_projects. induction l as [|a l IH]; simpl; [reflexivity|].
  destruct (sql_eq (p_id a) (VStr projectId)); [discriminate|].
  intros H. now rewrite IH.
Qed.

(** The run of an update that has assignments. *)
Lemma updateProject_run (s : store) (projectId : string)
      (body : list (string * value)) (asg : list (string * value)) :
  (forall c, collect_project_updates toISODate allowedProjectUpdates body c
             = (Ok asg, c)) ->
  asg <> [] ->
  let fields := asg ++ [("modifiedAt"%string, now)] in
  let s' := mkStore (updated_projects projectId fields (projects s))
                    (tasks s) (nextTaskId s) in
  run (updateProject JSON_parse toISODate toISOString now projectId body) s
  = match filter (fun r => sql_eq (p_id r) (VStr projectId)) (projects s) with
    | [] => (Ok (mkProjectResponse 404 (PError "Project not found")), s')
    | p :: _ =>
        let updated := mkProject (p_id p) (assign_all fields (p_cols p)) in
        (Ok match iso_date toISOString (lookup "startDate" (p_cols updated)),
                  iso_date toISOString (lookup "endDate" (p_cols updated)) with
            | Some sd, Some ed =>
                mkProjectResponse 200
                  (PProjectTree updated (toString (p_id updated)) sd ed
                     (buildTaskHierarchy JSON_parse
                        (filter (fun r => sql_eq (projectID r) (VStr projectId))
                                (tasks s)) 0 1))
            | _, _ => mkProjectResponse 500 (PError "Failed to update project")
            end,
         s')
    end.
Proof.
  intros Hcol Hne fields s'.
  unfold run, updateProject, try_catch, bind at 1.
  rewrite Hcol, (match_nonempty _ _ _ Hne).
  unfold bind, pool_query, update_project, select_projects_by_id,
    select_tasks_by_project, query, written, pooled, bind, ret.
  cbn [working committed inTransaction projects tasks nextTaskId].
  fold fields. fold (updated_projects projectId fields (projects s)).
  destruct (filter (fun r => sql_eq (p_id r) (VStr projectId)) (projects s))
    as [|p ps] eqn:Hsel.
  - reflexivity.
  - cbn [List.length].
    replace (Z.of_nat (S (List.length ps)) =? 0) with false
      by (symmetry; apply Z.eqb_neq; lia).
    cbn [working committed inTransaction projects tasks nextTaskId].
    rewrite updated_projects_select, Hsel. cbn [map].
    unfold iso_or_null, iso_date, throw, ret.
    cbn [p_cols p_id working committed inTransaction projects tasks nextTaskId].
    destruct (truthy (lookup "startDate" (assign_all fields (p_cols p))));
      [destruct (toISOString (lookup "startDate" (assign_all fields (p_cols p))))|];
      try reflexivity;
      (destruct (truthy (lookup "endDate" (assign_all fields (p_cols p))));
       [destruct (toISOString (lookup "endDate" (assign_all fields (p_cols p))))|]);
      reflexivity.
Qed.

(** X26: a request that gives none of the allow-listed project fields is
    answered 400 "No valid fields to update" and changes nothing. *)
Theorem updateProject_no_valid_fields (s : store) (projectId : string)
        (body : list (string * value)) :
  (forall k, In k allowedProjectUpdates -> is_undefined (lookup k body) = true) ->
  run (updateProject JSON_parse toISODate toISOString now projectId body) s
  = (Ok (mkProjectResponse 400 (PError "No valid fields to update")), s).
Proof.
  intros Hnone.
  assert (Hcol : forall keys,
             incl keys allowedProjectUpdates ->
             forall c, collect_project_updates toISODate keys body c = (Ok [], c)).
  { induction keys as [|k keys IH]; intros Hincl c; [reflexivity|].
    cbn [collect_project_updates]. rewrite (Hnone k (Hincl k (or_introl eq_refl))).
    apply IH. intros g Hg. apply Hincl. now right. }
  unfold run, updateProject, try_catch, bind.
  now rewrite (Hcol allowedProjectUpdates (incl_refl _)).
Qed.

(** X27: an update, with a field to set and dates the runtime formats, of an
    identifier no project has is answered 404 "Project not found" and
    changes nothing. *)
Theorem updateProject_unknown_id (s : store) (projectId : string)
        (body : list (string * value)) (key : string) :
  project_dates_ok toISODate body ->
  In key allowedProjectUpdates ->
  is_undefined (lookup key body) = false ->
  (forall p, In p (projects s) -> sql_eq (p_id p) (VStr projectId) = false) ->
  run (updateProject JSON_parse toISODate toISOString now projectId body) s
  = (Ok (mkProjectResponse 404 (PError "Project not found")), s).
Proof.
  intros Hdates Hkey Hgiven Hnone.
  destruct (collect_project_updates_total body allowedProjectUpdates)
    as [o [Hcol Hspec]].
  destruct (Hspec Hdates) as [asg [-> Hne]].
  assert (Hasg : asg <> []) by (apply Hne; eauto).
  rewrite (updateProject_run s projectId body asg Hcol Hasg). cbv zeta.
  assert (Hsel : filter (fun r => sql_eq (p_id r) (VStr projectId)) (projects s) = [])
    by (now apply filter_none).
  rewrite Hsel, (updated_projects_none _ _ _ Hsel). now destruct s.
Qed.

(** X28: whatever the request holds and whatever the answer is,
    [updateProject] leaves the tasks, the next task identifier, the
    identifiers and order of the projects and every project with another
    identifier as they were. *)
Theorem updateProject_keeps_tasks (s : store) (projectId : string)
        (body : list (string * value)) :
  let s' := snd (run (updateProject JSON_parse toISODate toISOString now
                                    projectId body) s) in
  tasks s' = tasks s /\
  nextTaskId s' = nextTaskId s /\
  map p_id (projects s') = map p_id (projects s) /\
  filter (fun r => negb (sql_eq (p_id r) (VStr projectId))) (projects s')
  = filter (fun r => negb (sql_eq (p_id r) (VStr projectId))) (projects s).
Proof.
  intros s'. subst s'.
  destruct (collect_project_updates_total body allowedProjectUpdates)
    as [o [Hcol _]].
  destruct o as [[|a asg]|e].
  - unfold run, updateProject, try_catch, bind. rewrite Hcol. auto.
  - assert (Hne : a :: asg <> []) by discriminate.
    rewrite (updateProject_run s projectId body (a :: asg) Hcol Hne). cbv zeta.
    destruct (updated_projects_others projectId
                ((a :: asg) ++ [("modifiedAt"%string, now)]) (projects s))
      as [Hids Hothers].
    destruct (filter (fun r => sql_eq (p_id r) (VStr projectId)) (projects s));
      cbn [snd tasks nextTaskId projects]; auto.
  - unfold run, updateProject, try_catch, bind. rewrite Hcol. auto.
Qed.

(** X29: when the rows of the project are the rows of a well-formed 4-level
    tree, a 200 answer of [updateProject] carries that tree as the nested
    tasks of the project. *)
Theorem updateProject_answers_tree (s : store) (projectId : string)
        (body : list (string * value)) (tree nested : list taskData)
        (row : project) (id_ : string) (startDate endDate : value) :
  fst (run (updateProject JSON_parse toISODate toISOString now projectId body) s)
  = Ok (mkProjectResponse 200 (PProjectTree row id_ startDate endDate nested)) ->
  filter (fun r => sql_eq (projectID r) (VStr projectId)) (tasks s) = flatten tree ->
  well_formed JSON_parse tree ->
  nested = tree.
Proof.
  intros Hrun Hrows [Hwf Hnd].
  destruct (collect_project_updates_total body allowedProjectUpdates)
    as [o [Hcol _]].
  destruct o as [[|a asg]|e].
  - unfold run, updateProject, try_catch, bind in Hrun. rewrite Hcol in Hrun.
    discriminate.
  - assert (Hne : a :: asg <> []) by discriminate.
    rewrite (updateProject_run s projectId body (a :: asg) Hcol Hne) in Hrun.
    cbv zeta in Hrun.
    destruct (filter (fun r => sql_eq (p_id r) (VStr projectId)) (projects s))
      as [|p ps]; [discriminate|].
    cbn [fst] in Hrun.
    destruct (iso_date toISOString _); [|discriminate].
    destruct (iso_date toISOString _); [|discriminate].
    inversion Hrun as [[Hrow Hid Hsd Hed Hnested]].
    rewrite Hrows. unfold buildTaskHierarchy.
    apply (build_ok JSON_parse 4 0 tree (flatten tree) Hwf Hnd).
    + exact (sub_roots JSON_parse 4 1 0 tree Hwf).
    + reflexivity.
  - unfold run, updateProject, try_catch, bind in Hrun. rewrite Hcol in Hrun.
    discriminate.
Qed.

(** *** The read handlers *)

(** X21: GET /tasks/project/:projectId never fails on a stored text: a row of
    an existing project whose [estPrevHours] is NULL, blank or a text
    [JSON.parse] rejects is listed with the empty array, the request is
    answered 200 and the store is untouched. *)
Theorem getProjectTasks_defaults (s : store) (projectId : string)
        (p : project) (r : task) :
  In p (projects s) ->
  sql_eq (p_id p) (VStr projectId) = true ->
  In r (tasks s) ->
  sql_eq (projectID r) (VStr projectId) = true ->
  estPrevHours r = None
  \/ (exists text, estPrevHours r = Some text
                   /\ (JSON_parse text = None \/ trim text = ""%string)) ->
  exists rows i,
    run (getProjectTasks JSON_parse projectId) s
    = (Ok (mkResponse 200 (JTasks rows)), s)
    /\ In (r, VArr [], i) rows.
Proof.
  intros Hp Hpid Hr Hproj Htext.
  destruct (filter_some (fun q => sql_eq (p_id q) (VStr projectId)) (projects s)
                        p Hp Hpid) as [a [ps Hsel]].
  exists (map (decode_row JSON_parse)
              (filter (fun t => sql_eq (projectID t) (VStr projectId)) (tasks s))).
  exists (snd (decode_row JSON_parse r)).
  split.
  - unfold run, getProjectTasks, try_catch, bind, select_projects_by_id,
      select_tasks_by_project, query; simpl.
    rewrite Hsel. simpl. now destruct s.
  - apply in_map_iff. exists r. split; [|apply filter_In; auto].
    unfold decode_row. cbn [snd]. f_equal. f_equal.
    destruct Htext as [Hnull|[text [Hsome Hbad]]].
    + now rewrite Hnull.
    + rewrite Hsome. cbn [col_value].
      destruct (truthy (VStr text)); [|reflexivity].
      destruct Hbad as [Hbad|Hbad].
      * unfold safeJsonParse. rewrite Hbad. now destruct (String.eqb _ _).
      * unfold safeJsonParse. now rewrite Hbad.
Qed.

(** X22: the two read handlers agree: when GET /projects/:id answers a
    project with its tasks, GET /tasks/project/:id answers 200 with the
    same rows in the same order, each with its decoded fields beside it. *)
Theorem getProject_getProjectTasks_agree (s s' : store) (projectId : string)
        (p : project) (rows : list task) :
  run (getProject projectId) s
  = (Ok (mkProjectResponse 200 (PProject (Some p) rows)), s') ->
  s' = s /\
  exists decoded,
    run (getProjectTasks JSON_parse projectId) s
    = (Ok (mkResponse 200 (JTasks decoded)), s)
    /\ map (fun d => fst (fst d)) decoded = rows.
Proof.
  unfold run, getProject, getProjectTasks, try_catch, bind, pool_query, bind,
    select_projects_by_id, select_tasks_by_project, query, written, pooled, ret.
  cbn [working committed inTransaction projects tasks].
  destruct (filter (fun r => sql_eq (p_id r) (VStr projectId)) (projects s))
    as [|q qs]; [discriminate|].
  cbn [working committed inTransaction projects tasks].
  intros H. inversion H as [[Hq Hrows Hs]]. split; [reflexivity|].
  eexists. split; [now destruct s|].
  rewrite map_map. cbn [decode_row fst]. apply map_id.
Qed.

End Projects.

Lemma createProject_missing_fields_witness :
  run (createProject Sample.toISODate Sample.now 2
         [("userID"%string, VNum 0); ("name"%string, VStr "P2");
          ("startDate"%string, VStr "2024-02-01"); ("wsID"%string, VNum 1)])
      Scenario.store1
  = (Ok (mkProjectResponse 400 (PError "Missing required fields: userID, endDate")),
     Scenario.store1).
Proof.
  apply (createProject_missing_fields Sample.toISODate Sample.now Scenario.store1 2
           [("userID"%string, VNum 0); ("name"%string, VStr "P2");
            ("startDate"%string, VStr "2024-02-01"); ("wsID"%string, VNum 1)]
           "userID").
  - now left.
  - reflexivity.
Defined.

Lemma createProject_inserts_witness :
  run (createProject Sample.toISODate Sample.now 2 Cases.project_request)
      Scenario.store1
  = (Ok (mkProjectResponse 201
           (PProject
              (Some (mkProject 2
                       (project_columns Cases.project_request
                          (VStr "2024-02-01") (VStr "2024-03-01")
                          Sample.now Sample.now))) [])),
     mkStore (projects Scenario.store1
              ++ [mkProject 2
                    (project_columns Cases.project_request
                       (VStr "2024-02-01") (VStr "2024-03-01")
                       Sample.now Sample.now)])
             (tasks Scenario.store1) (nextTaskId Scenario.store1)).
Proof.
  apply (createProject_inserts Sample.toISODate Sample.now Scenario.store1 2
           Cases.project_request (VStr "2024-02-01") (VStr "2024-03-01")
           Sample.now).
  - intros f Hf. simpl in Hf.
    repeat (destruct Hf as [<-|Hf]; [reflexivity|]). destruct Hf.
  - reflexivity.
  - reflexivity.
  - reflexivity.
  - intros p [<-|[]]. simpl. lia.
Defined.

Lemma createProject_invalid_date_witness :
  run (createProject Sample.toISODate Sample.now 2
         [("userID"%string, VNum 4); ("name"%string, VStr "P2");
          ("startDate"%string, VStr "2024-02-01"); ("endDate"%string, VNum 7);
          ("wsID"%string, VNum 1)])
      Scenario.store1
  = (Ok (mkProjectResponse 500 (PError "Failed to create project")), Scenario.store1).
Proof.
  apply (createProject_invalid_date Sample.toISODate Sample.now Scenario.store1 2).
  - intros f Hf. simpl in Hf.
    repeat (destruct Hf as [<-|Hf]; [reflexivity|]). destruct Hf.
  - right. reflexivity.
Defined.

Lemma updateProject_no_valid_fields_witness :
  run (updateProject Sample.parse Sample.toISODate Cases.toISOString Sample.now "1"
         [("id"%string, VNum 9); ("createdAt"%string, VStr "x")])
      Scenario.store6
  = (Ok (mkProjectResponse 400 (PError "No valid fields to update")), Scenario.store6).
Proof.
  apply (updateProject_no_valid_fields Sample.parse Sample.toISODate
           Cases.toISOString Sample.now Scenario.store6 "1"
           [("id"%string, VNum 9); ("createdAt"%string, VStr "x")]).
  intros k Hk. simpl in Hk.
  repeat (destruct Hk as [<-|Hk]; [reflexivity|]). destruct Hk.
Defined.

Lemma updateProject_unknown_id_witness :
  run (updateProject Sample.parse Sample.toISODate Cases.toISOString Sample.now "5"
         [("name"%string, VStr "renamed")])
      Scenario.store6
  = (Ok (mkProjectResponse 404 (PError "Project not found")), Scenario.store6).
Proof.
  apply (updateProject_unknown_id Sample.parse Sample.toISODate Cases.toISOString
           Sample.now Scenario.store6 "5" [("name"%string, VStr "renamed")] "name").
  - intros key [->| ->] H; discriminate H.
  - simpl. tauto.
  - reflexivity.
  - intros p [<-|[]]. reflexivity.
Defined.

Lemma updateProject_answers_tree_witness :
  Sample.hierarchy
    (filter (fun r => sql_eq (projectID r) (VStr "1")) (tasks Scenario.store6)) 0 1
  = Scenario.tree6.
Proof.
  apply (updateProject_answers_tree Sample.parse Sample.toISODate Cases.toISOString
           Sample.now Scenario.store6 "1" [("name"%string, VStr "renamed")]
           Scenario.tree6 _
           (mkProject 1 [("name"%string, VStr "renamed");
                         ("modifiedAt"%string, Sample.now)])
           "1" VNull VNull).
  - vm_compute. reflexivity.
  - vm_compute. reflexivity.
  - split.
    + simpl. repeat (constructor; [split; [repeat split|]|]); try constructor;
        reflexivity.
    + vm_compute. repeat constructor; simpl; intuition lia.
Defined.

Lemma getProjectTasks_defaults_witness :
  exists rows i,
    run (getProjectTasks Sample.parse "1") Scenario.damaged
    = (Ok (mkResponse 200 (JTasks rows)), Scenario.damaged)
    /\ In (Cases.row Scenario.damaged 1, VArr [], i) rows.
Proof.
  apply (getProjectTasks_defaults Sample.parse Scenario.damaged "1"
           (mkProject 1 []) (Cases.row Scenario.damaged 1)).
  - now left.
  - reflexivity.
  - right. now left.
  - reflexivity.
  - right. exists "oops"%string. split; [reflexivity|]. left. reflexivity.
Defined.

Lemma getProject_getProjectTasks_agree_witness :
  Scenario.store2 = Scenario.store2 /\
  exists decoded,
    run (getProjectTasks Sample.parse "1") Scenario.store2
    = (Ok (mkResponse 200 (JTasks decoded)), Scenario.store2)
    /\ map (fun d => fst (fst d)) decoded = tasks Scenario.store2.
Proof.
  apply (getProject_getProjectTasks_agree Sample.parse Scenario.store2
           Scenario.store2 "1" (mkProject 1 [("name"%string, VStr "P1")])
           (tasks Scenario.store2)).
  vm_compute. reflexivity.
Defined.
